(** * morph_monitor: the poll-and-classify loop of the Morph transaction monitor

    A shallow embedding of [morph_monitor.py].  Python values are a small
    dynamically typed universe ([pyval]); a dict is an association list in
    insertion order; an operation that raises in Python returns [Raise].
    The data file and the log are the [world] threaded through the
    effectful methods. *)

From Stdlib Require Import ZArith List String Ascii Bool Lia.
Import ListNotations.
Local Open Scope string_scope.
Local Open Scope Z_scope.

(** ** Python values *)

(** A [datetime]: [instant] counts microseconds, from the epoch in UTC for
    an aware value and on the wall clock for a naive one; [utcoffset] is
    [None] for a naive value. *)
Record datetime := mkDatetime { instant : Z; utcoffset : option Z }.

#[local] Set Warnings "-register-all".

Inductive pyval :=
| PNone
| PBool (b : bool)
| PInt (z : Z)
| PStr (s : string)
| PDatetime (t : datetime)
| PList (l : list pyval)
| PDict (d : list (string * pyval)).

Inductive exn :=
| KeyError
| IndexError
| AttributeError
| TypeError
| ValueError
| JSONDecodeError
| FileNotFoundError
| OverflowError.

Inductive res (A : Type) :=
| Ok (a : A)
| Raise (e : exn).
Arguments Ok {A} a.
Arguments Raise {A} e.

Definition rbind {A B} (c : res A) (k : A -> res B) : res B :=
  match c with
  | Ok a => k a
  | Raise e => Raise e
  end.

Notation "'let*' x ':=' c 'in' k" := (rbind c (fun x => k))
  (at level 61, x name, c at next level, right associativity).

(** ** Dicts as association lists *)

Fixpoint dict_get {V} (k : string) (d : list (string * V)) : option V :=
  match d with
  | [] => None
  | (k', v) :: r => if String.eqb k k' then Some v else dict_get k r
  end.

(** [d[k] = v]: an existing key keeps its position, a new key goes last. *)
Fixpoint dict_set {V} (k : string) (v : V) (d : list (string * V))
  : list (string * V) :=
  match d with
  | [] => [(k, v)]
  | (k', v') :: r =>
      if String.eqb k k' then (k', v) :: r else (k', v') :: dict_set k v r
  end.

Definition dict_values {V} (d : list (string * V)) : list V := map snd d.

(** ** Operators and methods *)

(** [bool(v)] *)
Definition py_truthy (v : pyval) : bool :=
  match v with
  | PNone => false
  | PBool b => b
  | PInt z => negb (z =? 0)
  | PStr s => negb (String.eqb s "")
  | PDatetime _ => true
  | PList l => match l with [] => false | _ => true end
  | PDict d => match d with [] => false | _ => true end
  end.

Definition datetime_eqb (a b : datetime) : bool :=
  match utcoffset a, utcoffset b with
  | Some _, Some _ | None, None => instant a =? instant b
  | _, _ => false
  end.

(** [a == b] *)
Fixpoint py_eq (a b : pyval) {struct a} : bool :=
  match a, b with
  | PNone, PNone => true
  | PBool x, PBool y => Bool.eqb x y
  | PBool x, PInt y => Z.b2z x =? y
  | PInt x, PBool y => x =? Z.b2z y
  | PInt x, PInt y => x =? y
  | PStr x, PStr y => String.eqb x y
  | PDatetime x, PDatetime y => datetime_eqb x y
  | PList l1, PList l2 =>
      (fix go (l1 l2 : list pyval) {struct l1} : bool :=
         match l1, l2 with
         | [], [] => true
         | x :: r1, y :: r2 => py_eq x y && go r1 r2
         | _, _ => false
         end) l1 l2
  | PDict d1, PDict d2 =>
      (List.length d1 =? List.length d2)%nat &&
      (fix all (d : list (string * pyval)) : bool :=
         match d with
         | [] => true
         | (k, v) :: r =>
             match dict_get k d2 with
             | Some w => py_eq v w
             | None => false
             end && all r
         end) d1
  | _, _ => false
  end.

(** [v[k]] for a string key *)
Definition py_getitem (v : pyval) (k : string) : res pyval :=
  match v with
  | PDict d => match dict_get k d with
               | Some x => Ok x
               | None => Raise KeyError
               end
  | _ => Raise TypeError
  end.

(** [v[k] = x] for a string key; the result is the object after the store *)
Definition py_setitem (v : pyval) (k : string) (x : pyval) : res pyval :=
  match v with
  | PDict d => Ok (PDict (dict_set k x d))
  | _ => Raise TypeError
  end.

(** [v.get(k, default)] *)
Definition py_get (v : pyval) (k : string) (default : pyval) : res pyval :=
  match v with
  | PDict d => match dict_get k d with
               | Some x => Ok x
               | None => Ok default
               end
  | _ => Raise AttributeError
  end.

(** [v[k1][k2] = x]: the inner object is updated in place, so the outer one
    sees the store. *)
Definition py_setitem2 (v : pyval) (k1 k2 : string) (x : pyval) : res pyval :=
  let* inner := py_getitem v k1 in
  let* inner' := py_setitem inner k2 x in
  py_setitem v k1 inner'.

Definition lower_ascii (c : ascii) : ascii :=
  let n := nat_of_ascii c in
  if ((65 <=? n) && (n <=? 90))%nat then ascii_of_nat (n + 32) else c.

(** [str.lower()], on the ASCII range (addresses are hexadecimal text) *)
Fixpoint lower (s : string) : string :=
  match s with
  | EmptyString => EmptyString
  | String c r => String (lower_ascii c) (lower r)
  end.

(** [v.lower()] *)
Definition py_lower (v : pyval) : res string :=
  match v with
  | PStr s => Ok (lower s)
  | _ => Raise AttributeError
  end.

(** [s.replace('Z', '+00:00')] *)
Fixpoint replace_Z (s : string) : string :=
  match s with
  | EmptyString => EmptyString
  | String c r =>
      if Ascii.eqb c "Z"%char then "+00:00" ++ replace_Z r
      else String c (replace_Z r)
  end.

Definition py_replace_Z (v : pyval) : res string :=
  match v with
  | PStr s => Ok (replace_Z s)
  | _ => Raise AttributeError
  end.

Fixpoint is_prefix (p s : string) : bool :=
  match p, s with
  | EmptyString, _ => true
  | String a p', String b s' => Ascii.eqb a b && is_prefix p' s'
  | String _ _, EmptyString => false
  end.

Fixpoint is_substring (p s : string) : bool :=
  is_prefix p s ||
  match s with
  | EmptyString => false
  | String _ s' => is_substring p s'
  end.

(** [k in v] for a string [k] *)
Definition py_contains (k : string) (v : pyval) : res bool :=
  match v with
  | PDict d => Ok (match dict_get k d with Some _ => true | None => false end)
  | PList l => Ok (existsb (py_eq (PStr k)) l)
  | PStr s => Ok (is_substring k s)
  | _ => Raise TypeError
  end.

Fixpoint chars (s : string) : list pyval :=
  match s with
  | EmptyString => []
  | String c r => PStr (String c EmptyString) :: chars r
  end.

(** The elements a [for] loop over [v] visits *)
Definition py_iter (v : pyval) : res (list pyval) :=
  match v with
  | PList l => Ok l
  | PDict d => Ok (map (fun kv => PStr (fst kv)) d)
  | PStr s => Ok (chars s)
  | _ => Raise TypeError
  end.

(** [v[0]] *)
Definition py_first (v : pyval) : res pyval :=
  match v with
  | PList l => match l with x :: _ => Ok x | [] => Raise IndexError end
  | PStr s => match chars s with x :: _ => Ok x | [] => Raise IndexError end
  | PDict _ => Raise KeyError
  | _ => Raise TypeError
  end.

(** [v + 1] *)
Definition py_add1 (v : pyval) : res pyval :=
  match v with
  | PInt z => Ok (PInt (z + 1))
  | PBool b => Ok (PInt (Z.b2z b + 1))
  | _ => Raise TypeError
  end.

(** [l[-n:]] on a list *)
Definition keep_last {A} (n : nat) (l : list A) : list A :=
  skipn (List.length l - n) l.

(** [v[-n:]] *)
Definition py_slice_last (n : nat) (v : pyval) : res pyval :=
  match v with
  | PList l => Ok (PList (keep_last n l))
  | PStr s => Ok (PStr (string_of_list_ascii (keep_last n (list_ascii_of_string s))))
  | PDict _ => Raise KeyError
  | _ => Raise TypeError
  end.

(** [v.append(x)] *)
Definition py_append (v x : pyval) : res pyval :=
  match v with
  | PList l => Ok (PList (l ++ [x]))
  | _ => Raise AttributeError
  end.

(** [now - v] for an aware [now]: the difference in microseconds *)
Definition py_sub_from (now : datetime) (v : pyval) : res Z :=
  match v with
  | PDatetime t =>
      match utcoffset now, utcoffset t with
      | Some _, Some _ | None, None => Ok (instant now - instant t)
      | _, _ => Raise TypeError
      end
  | _ => Raise TypeError
  end.

(** [v > 0] *)
Definition py_gt0 (v : pyval) : res bool :=
  match v with
  | PInt z => Ok (0 <? z)
  | PBool b => Ok b
  | _ => Raise TypeError
  end.

(** The number a value stands for in arithmetic *)
Definition py_number (v : pyval) : res Z :=
  match v with
  | PInt z => Ok z
  | PBool b => Ok (Z.b2z b)
  | _ => Raise TypeError
  end.

(** [v[k]] where the key is itself a value *)
Definition py_getitem_v (v k : pyval) : res pyval :=
  match v, k with
  | PDict _, PStr s => py_getitem v s
  | PDict _, (PList _ | PDict _) => Raise TypeError
  | PDict _, _ => Raise KeyError
  | PList l, (PInt _ | PBool _) =>
      let* i := py_number k in
      let j := if i <? 0 then i + Z.of_nat (List.length l) else i in
      if (j <? 0) || (Z.of_nat (List.length l) <=? j) then Raise IndexError
      else match nth_error l (Z.to_nat j) with
           | Some x => Ok x
           | None => Raise IndexError
           end
  | PStr s, (PInt _ | PBool _) =>
      let l := chars s in
      let* i := py_number k in
      let j := if i <? 0 then i + Z.of_nat (List.length l) else i in
      if (j <? 0) || (Z.of_nat (List.length l) <=? j) then Raise IndexError
      else match nth_error l (Z.to_nat j) with
           | Some x => Ok x
           | None => Raise IndexError
           end
  | _, _ => Raise TypeError
  end.

(** ** The data file, the log and the monad of the methods *)

(** What [json.dump] accepts: everything but a [datetime]. *)
Fixpoint json_ok (v : pyval) : bool :=
  match v with
  | PDatetime _ => false
  | PList l => forallb json_ok l
  | PDict d => forallb (fun kv => json_ok (snd kv)) d
  | _ => true
  end.

(** The text of [transaction_data.json], up to what [json.load] makes of it:
    [Doc v] parses to [v]; [Junk] is text that does not parse, such as the
    empty file left by [open(..., 'w')] or an object cut short. *)
Inductive file_content :=
| Doc (v : pyval)
| Junk.

Inductive level := ERROR | WARNING.

Inductive frag :=
| Lit (s : string)
| Val (v : pyval)
| Exc (e : exn).

Definition log_entry : Type := level * list frag.

(** [disk] is the data file ([None]: no such file); [written] lists every
    content the file has held since the start, oldest first; [log] is the
    logging output, oldest first. *)
Record world := mkWorld {
  disk : option file_content;
  written : list file_content;
  log : list log_entry
}.

Definition M (A : Type) : Type := world -> res A * world.

Definition ret {A} (a : A) : M A := fun w => (Ok a, w).

Definition raise {A} (e : exn) : M A := fun w => (Raise e, w).

Definition bind {A B} (c : M A) (k : A -> M B) : M B :=
  fun w =>
    match c w with
    | (Ok a, w') => k a w'
    | (Raise e, w') => (Raise e, w')
    end.

Definition lift {A} (r : res A) : M A := fun w => (r, w).

Notation "x <- c ;; k" := (bind c (fun x => k))
  (at level 100, c at next level, right associativity).
Notation "c ;;; k" := (bind c (fun _ => k))
  (at level 100, right associativity).

(** [try: c  except <handled>: h] *)
Definition try_except {A} (c : M A) (handled : exn -> bool) (h : exn -> M A)
  : M A :=
  fun w =>
    match c w with
    | (Raise e, w') => if handled e then h e w' else (Raise e, w')
    | r => r
    end.

Definition logging (lv : level) (msg : list frag) : M unit :=
  fun w => (Ok tt, mkWorld (disk w) (written w) (log w ++ [(lv, msg)])).

Definition set_file (c : file_content) : M unit :=
  fun w => (Ok tt, mkWorld (Some c) (written w ++ [c]) (log w)).

(** [os.path.exists(self.data_file)] *)
Definition path_exists : M bool :=
  fun w => (Ok (match disk w with Some _ => true | None => false end), w).

(** [open(self.data_file, 'r')] *)
Definition open_read : M file_content :=
  fun w => match disk w with
           | Some c => (Ok c, w)
           | None => (Raise FileNotFoundError, w)
           end.

(** [json.load(f)] *)
Definition json_load (c : file_content) : res pyval :=
  match c with
  | Doc v => Ok v
  | Junk => Raise JSONDecodeError
  end.

(** [open(self.data_file, 'w')]: the file is truncated on opening. *)
Definition open_write : M unit := set_file Junk.

(** [json.dump(data, f, indent=2)]: the encoder raises at the first value
    it cannot serialise, leaving the text written so far. *)
Definition json_dump (data : pyval) : M unit :=
  if json_ok data then set_file (Doc data) else raise TypeError.

Fixpoint for_each {A S} (l : list A) (s : S) (body : A -> S -> M S) : M S :=
  match l with
  | [] => ret s
  | x :: r => s' <- body x s ;; for_each r s' body
  end.

(** ** class MorphTransactionMonitor *)

(** [TOKEN_ADDRESSES] *)
Definition TOKEN_ADDRESSES : list (string * string) :=
  [ ("ETH", "0x5300000000000000000000000000000000000011");
    ("MPH", "0x579C032A137D796f29b14AdEcb58C2E56B14e367") ].

(** [DEX_CONTRACTS] *)
Definition DEX_CONTRACTS : list (string * string) :=
  [ ("UniversalRouter", lower "0xb789922D715475F419b7CB47B6155bF7a2ACECD6");
    ("UniswapV2Router02", lower "0x81606E6f8aAD6C75c2f383Ea595c2b9f8ce8aE3a") ].

(** [TOKEN_ADDRESSES.get(symbol)] *)
Definition token_address (symbol : string) : pyval :=
  match dict_get symbol TOKEN_ADDRESSES with
  | Some a => PStr a
  | None => PNone
  end.

(** The attributes [__init__] sets. *)
Record monitor := mkMonitor {
  address : string;
  base_token : string;
  quote_token : string;
  base_token_address : pyval;
  quote_token_address : pyval;
  api_url : string;
  last_processed_tx : pyval
}.

Definition str_dict (d : list (string * string)) : pyval :=
  PDict (map (fun kv => (fst kv, PStr (snd kv))) d).

(** The record both [init_data_file] and [analyze_transactions] build,
    with the given [start_time]. *)
Definition initial_data (self : monitor) (start_time : pyval) : pyval :=
  PDict
    [ ("config",
       PDict
         [ ("monitored_address", PStr (address self));
           ("base_token", PStr (base_token self));
           ("quote_token", PStr (quote_token self));
           ("token_addresses",
            PDict (dict_set (quote_token self) (quote_token_address self)
                     (dict_set (base_token self) (base_token_address self) [])));
           ("dex_contracts", str_dict DEX_CONTRACTS) ]);
      ("monitoring",
       PDict
         [ ("start_time", start_time);
           ("last_processed_tx", PNone);
           ("total_transactions", PInt 0);
           ("abnormal_transactions", PInt 0) ]);
      ("abnormal_txs", PList []) ].

(** [is_target_pair_transaction] *)
Definition is_target_pair_transaction (self : monitor) (tx : pyval) : res bool :=
  let* to := py_get tx "to" PNone in
  if negb (py_truthy to) then Ok false
  else
    let* to := py_getitem tx "to" in
    let* h := py_get to "hash" (PStr "") in
    let* to_address := py_lower h in
    if existsb (String.eqb to_address) (dict_values DEX_CONTRACTS) then Ok true
    else
      let* b := py_lower (base_token_address self) in
      let* q := py_lower (quote_token_address self) in
      if existsb (String.eqb to_address) [b; q] then Ok true
      else Ok false.

(** The first loop of [analyze_transactions]: the items before the first
    one whose hash is the stored [last_processed_tx]. *)
Fixpoint collect_new (items : list pyval) (data : pyval) : res (list pyval) :=
  match items with
  | [] => Ok []
  | tx :: rest =>
      let* h := py_getitem tx "hash" in
      let* monitoring := py_getitem data "monitoring" in
      let* last := py_get monitoring "last_processed_tx" PNone in
      if py_eq h last then Ok []
      else let* more := collect_new rest data in Ok (tx :: more)
  end.

(** The [abnormal_tx] dict literal *)
Definition abnormal_record (tx : pyval) : res pyval :=
  let* hash := py_getitem tx "hash" in
  let* timestamp := py_getitem tx "timestamp" in
  let* method := py_get tx "method" (PStr "Unknown") in
  let* to1 := py_get tx "to" (PDict []) in
  let* to_address := py_get to1 "hash" (PStr "Unknown") in
  let* to2 := py_get tx "to" (PDict []) in
  let* to_name := py_get to2 "name" (PStr "Unknown") in
  let* value := py_get tx "value" (PStr "0") in
  let* status := py_get tx "status" (PStr "Unknown") in
  let* gas_used := py_get tx "gasUsed" (PStr "Unknown") in
  Ok (PDict [ ("hash", hash); ("timestamp", timestamp); ("method", method);
              ("to_address", to_address); ("to_name", to_name);
              ("value", value); ("status", status); ("gas_used", gas_used) ]).

(** [data[k1][k2] += 1] *)
Definition py_incr2 (data : pyval) (k1 k2 : string) : res pyval :=
  let* inner := py_getitem data k1 in
  let* old := py_getitem inner k2 in
  let* new := py_add1 old in
  let* inner' := py_setitem inner k2 new in
  py_setitem data k1 inner'.

(** The four warnings and the rule that follow an abnormal transaction *)
Definition warn_abnormal (tx : pyval) : M unit :=
  logging WARNING [Lit "Abnormal transaction detected!"] ;;;
  hash <- lift (py_getitem tx "hash") ;;
  logging WARNING [Lit "Hash: "; Val hash] ;;;
  to1 <- lift (py_get tx "to" (PDict [])) ;;
  to_name <- lift (py_get to1 "name" (PStr "Unknown")) ;;
  to2 <- lift (py_get tx "to" (PDict [])) ;;
  to_hash <- lift (py_get to2 "hash" (PStr "Unknown")) ;;
  logging WARNING [Lit "To: "; Val to_name; Lit " ("; Val to_hash; Lit ")"] ;;;
  method <- lift (py_get tx "method" (PStr "Unknown")) ;;
  logging WARNING [Lit "Method: "; Val method] ;;;
  logging WARNING [Lit "--------------------------------------------------"].

(** The body of the second loop of [analyze_transactions], on one
    transaction; the result is [data] after the iteration. *)
Definition process_tx (self : monitor) (tx data : pyval) : M pyval :=
  data <- lift (py_incr2 data "monitoring" "total_transactions") ;;
  target <- lift (is_target_pair_transaction self tx) ;;
  if negb target then
    data <- lift (py_incr2 data "monitoring" "abnormal_transactions") ;;
    abnormal_tx <- lift (abnormal_record tx) ;;
    txs <- lift (py_getitem data "abnormal_txs") ;;
    txs <- lift (py_append txs abnormal_tx) ;;
    data <- lift (py_setitem data "abnormal_txs" txs) ;;
    txs <- lift (py_getitem data "abnormal_txs") ;;
    kept <- lift (py_slice_last 100 txs) ;;
    data <- lift (py_setitem data "abnormal_txs" kept) ;;
    warn_abnormal tx ;;;
    ret data
  else ret data.

(** [get_transactions]: [upstream] is what [requests.get(...).json()]
    yields, [None] when the request raises a [RequestException]. *)
Definition get_transactions (upstream : option pyval) : M pyval :=
  match upstream with
  | Some v => ret v
  | None =>
      logging ERROR [Lit "Error fetching transactions: "; Lit "RequestException"] ;;;
      ret PNone
  end.

Section Monitor.

(** The [datetime] library: [t.isoformat()], [datetime.fromisoformat(s)]
    ([None]: ValueError) and [str(timedelta)] of a difference in
    microseconds; and the float arithmetic of the status page:
    [percent_str a t] is the text of [f"{a / t * 100:.2f}%"] for integers
    [a] and [t > 0], [None] when the true division raises [OverflowError]
    (the quotient is beyond the range of a float). *)
Variable isoformat : datetime -> string.
Variable fromisoformat : string -> option datetime.
Variable timedelta_str : Z -> string.
Variable percent_str : Z -> Z -> option string.

(** [v.isoformat()] *)
Definition py_isoformat (v : pyval) : res pyval :=
  match v with
  | PDatetime t => Ok (PStr (isoformat t))
  | _ => Raise AttributeError
  end.

(** [load_data] *)
Definition load_data : M pyval :=
  try_except
    (f <- open_read ;;
     data <- lift (json_load f) ;;
     monitoring <- lift (py_get data "monitoring" (PDict [])) ;;
     start_time <- lift (py_get monitoring "start_time" PNone) ;;
     if py_truthy start_time then
       monitoring <- lift (py_getitem data "monitoring") ;;
       start_time <- lift (py_getitem monitoring "start_time") ;;
       text <- lift (py_replace_Z start_time) ;;
       match fromisoformat text with
       | Some t =>
           data <- lift (py_setitem2 data "monitoring" "start_time" (PDatetime t)) ;;
           ret data
       | None => raise ValueError
       end
     else ret data)
    (fun e => match e with JSONDecodeError | ValueError => true | _ => false end)
    (fun e =>
       logging ERROR [Lit "Error loading data file: "; Exc e] ;;;
       ret PNone).

(** The first statement of [save_data]: a set [start_time] is replaced, in
    the caller's object, by its ISO text. *)
Definition stringify_start_time (data : pyval) : res pyval :=
  let* monitoring := py_get data "monitoring" (PDict []) in
  let* start_time := py_get monitoring "start_time" PNone in
  if py_truthy start_time then
    let* monitoring := py_getitem data "monitoring" in
    let* start_time := py_getitem monitoring "start_time" in
    let* text := py_isoformat start_time in
    py_setitem2 data "monitoring" "start_time" text
  else Ok data.

(** [save_data]: the result is the caller's [data] object after the call
    (the method stores into it); every exception is logged, none leaves. *)
Definition save_data (data : pyval) : M pyval :=
  let failed (data : pyval) (e : exn) : M pyval :=
    logging ERROR [Lit "Error saving data: "; Exc e] ;;; ret data in
  match stringify_start_time data with
  | Ok data =>
      try_except (open_write ;;; json_dump data ;;; ret data)
        (fun _ => true) (failed data)
  | Raise e => failed data e
  end.

(** [init_data_file] *)
Definition init_data_file (self : monitor) : M unit :=
  present <- path_exists ;;
  if negb present then
    save_data (initial_data self PNone) ;;; ret tt
  else ret tt.

(** [__init__] *)
Definition init (address base_token quote_token : string) : M monitor :=
  let self :=
    mkMonitor (lower address) base_token quote_token
      (token_address base_token) (token_address quote_token)
      ("https://explorer-api.morphl2.io/api/v2/addresses/" ++ address
         ++ "/transactions")
      PNone in
  init_data_file self ;;;
  ret self.

(** [datetime.now(timezone.utc)] at the instant [now] *)
Definition utc (now : Z) : datetime := mkDatetime now (Some 0).

(** [analyze_transactions]; [now] is the clock, [upstream] the explorer's
    reply. *)
Definition analyze_transactions (self : monitor) (now : Z)
    (upstream : option pyval) : M unit :=
  transactions <- get_transactions upstream ;;
  missing <- (if negb (py_truthy transactions) then ret true
              else has <- lift (py_contains "items" transactions) ;;
                   ret (negb has)) ;;
  if (missing : bool) then
    logging ERROR [Lit "Failed to fetch transactions"]
  else
    data <- load_data ;;
    let data :=
      if negb (py_truthy data) then initial_data self (PDatetime (utc now))
      else data in
    monitoring <- lift (py_getitem data "monitoring") ;;
    start_time <- lift (py_getitem monitoring "start_time") ;;
    data <- (if negb (py_truthy start_time) then
               lift (py_setitem2 data "monitoring" "start_time"
                       (PDatetime (utc now)))
             else ret data) ;;
    items <- lift (py_getitem transactions "items") ;;
    elements <- lift (py_iter items) ;;
    new_transactions <- lift (collect_new elements data) ;;
    data <- (if py_truthy items then
               newest <- lift (py_first items) ;;
               hash <- lift (py_getitem newest "hash") ;;
               lift (py_setitem2 data "monitoring" "last_processed_tx" hash)
             else ret data) ;;
    data <- for_each (rev new_transactions) data (process_tx self) ;;
    save_data data ;;;
    ret tt.

(** One turn of the [while True] loop of [monitor_continuously], up to the
    sleep: [KeyboardInterrupt] apart, every exception is logged. *)
Definition monitor_tick (self : monitor) (now : Z) (upstream : option pyval)
  : M unit :=
  try_except (analyze_transactions self now upstream) (fun _ => true)
    (fun e => logging ERROR [Lit "Error during monitoring: "; Exc e]).

(** [get_stats]: the JSON body and the HTTP status of the reply. *)
Definition get_stats (now : Z) : M (pyval * Z) :=
  monitor <- init "dummy" "ETH" "MPH" ;;
  data <- load_data ;;
  if negb (py_truthy data) then
    ret (PDict [("error", PStr "No monitoring data available")], 404)
  else
    present <- lift (py_contains "monitoring" data) ;;
    data <- (if negb present then
               data <- lift (py_setitem data "monitoring"
                               (PDict [ ("start_time", PDatetime (utc now));
                                        ("last_processed_tx", PNone);
                                        ("total_transactions", PInt 0);
                                        ("abnormal_transactions", PInt 0) ])) ;;
               save_data data
             else ret data) ;;
    monitoring <- lift (py_getitem data "monitoring") ;;
    start_time <- lift (py_getitem monitoring "start_time") ;;
    duration <- (if py_truthy start_time then
                   delta <- lift (py_sub_from (utc now) start_time) ;;
                   ret (PStr (timedelta_str delta))
                 else ret (PStr "Not started")) ;;
    start_text <- (if py_truthy start_time then lift (py_isoformat start_time)
                   else ret PNone) ;;
    config <- lift (py_getitem data "config") ;;
    monitored_address <- lift (py_getitem config "monitored_address") ;;
    base_symbol <- lift (py_getitem config "base_token") ;;
    token_addresses <- lift (py_getitem config "token_addresses") ;;
    base_address <- lift (py_getitem_v token_addresses base_symbol) ;;
    quote_symbol <- lift (py_getitem config "quote_token") ;;
    quote_address <- lift (py_getitem_v token_addresses quote_symbol) ;;
    dex_contracts <- lift (py_getitem config "dex_contracts") ;;
    monitoring <- lift (py_getitem data "monitoring") ;;
    total <- lift (py_getitem monitoring "total_transactions") ;;
    abnormal <- lift (py_getitem monitoring "abnormal_transactions") ;;
    positive <- lift (py_gt0 total) ;;
    percentage <- (if (positive : bool) then
                     a <- lift (py_number abnormal) ;;
                     t <- lift (py_number total) ;;
                     match percent_str a t with
                     | Some text => ret (PStr text)
                     | None => raise OverflowError
                     end
                   else ret (PStr "0%")) ;;
    txs <- lift (py_get data "abnormal_txs" (PList [])) ;;
    recent <- lift (py_slice_last 10 txs) ;;
    ret (PDict
           [ ("monitor_info",
              PDict [ ("start_time", start_text);
                      ("current_time", PStr (isoformat (utc now)));
                      ("monitoring_duration", duration);
                      ("monitored_address", monitored_address) ]);
             ("token_info",
              PDict [ ("base_token",
                       PDict [("symbol", base_symbol); ("address", base_address)]);
                      ("quote_token",
                       PDict [("symbol", quote_symbol); ("address", quote_address)]) ]);
             ("dex_contracts", dex_contracts);
             ("statistics",
              PDict [ ("total_transactions", total);
                      ("abnormal_transactions", abnormal);
                      ("abnormal_percentage", percentage) ]);
             ("recent_abnormal_transactions", recent) ], 200).



(** ** The persisted record read as the monitoring state *)

(** The fields of [data['monitoring']] and [data['abnormal_txs']] the
    cycle works on; a missing [last_processed_tx] reads as [None], as
    [.get] does. *)
Record state := mkState {
  st_start : pyval;
  st_last : pyval;
  st_total : Z;
  st_abnormal : Z;
  st_txs : list pyval
}.

Definition state_of (data : pyval) : option state :=
  match data with
  | PDict d =>
      match dict_get "monitoring" d, dict_get "abnormal_txs" d with
      | Some (PDict m), Some (PList l) =>
          match dict_get "start_time" m, dict_get "total_transactions" m,
                dict_get "abnormal_transactions" m with
          | Some st, Some (PInt t), Some (PInt a) =>
              Some (mkState st
                      (match dict_get "last_processed_tx" m with
                       | Some x => x
                       | None => PNone
                       end) t a l)
          | _, _, _ => None
          end
      | _, _ => None
      end
  | _ => None
  end.

(** [data[k1][k2]] when both subscripts succeed *)
Definition field2 (data : pyval) (k1 k2 : string) : option pyval :=
  match py_getitem data k1 with
  | Ok inner => match py_getitem inner k2 with
                | Ok x => Some x
                | Raise _ => None
                end
  | Raise _ => None
  end.

(** [abnormal_transactions <= total_transactions], both integers *)
Definition counters_le (data : pyval) : Prop :=
  exists t a,
    field2 data "monitoring" "total_transactions" = Some (PInt t) /\
    field2 data "monitoring" "abnormal_transactions" = Some (PInt a) /\
    a <= t.

(** [len(data['abnormal_txs']) <= 100] *)
Definition txs_bounded (data : pyval) : Prop :=
  exists l, py_getitem data "abnormal_txs" = Ok (PList l) /\
            (List.length l <= 100)%nat.

(** What holds of the record in the data file, when there is one *)
Definition on_disk (P : pyval -> Prop) (w : world) : Prop :=
  forall v, disk w = Some (Doc v) -> P v.

(** Everything but the entry [d[k]] can be serialised. *)
Fixpoint json_ok_except (k : string) (d : list (string * pyval)) : bool :=
  match d with
  | [] => true
  | (k', v) :: r =>
      if String.eqb k k' then forallb (fun kv => json_ok (snd kv)) r
      else json_ok v && json_ok_except k r
  end.

(** A record [json.dump] accepts once its [start_time] is text *)
Definition storable (data : pyval) : bool :=
  match data with
  | PDict d =>
      json_ok_except "monitoring" d &&
      match dict_get "monitoring" d with
      | Some (PDict m) => json_ok_except "start_time" m
      | _ => false
      end
  | _ => false
  end.

(** ** Transactions as the explorer sends them *)

Definition is_str (o : option pyval) : bool :=
  match o with
  | Some (PStr _) => true
  | _ => false
  end.

(** A JSON object with a text [hash], a [timestamp], and a [to] that is
    absent or an object whose [hash], if any, is text. *)
Definition well_formed_tx (tx : pyval) : bool :=
  match tx with
  | PDict d =>
      is_str (dict_get "hash" d) &&
      match dict_get "timestamp" d with Some _ => true | None => false end &&
      match dict_get "to" d with
      | None => true
      | Some (PDict to) =>
          match dict_get "hash" to with
          | None | Some (PStr _) => true
          | Some _ => false
          end
      | Some _ => false
      end &&
      json_ok tx
  | _ => false
  end.

(** Both token symbols have an address. *)
Definition configured (self : monitor) : bool :=
  is_str (Some (base_token_address self)) &&
  is_str (Some (quote_token_address self)).

Definition tx_hash (tx : pyval) : pyval :=
  match py_getitem tx "hash" with
  | Ok h => h
  | Raise _ => PNone
  end.

Definition expected (self : monitor) (tx : pyval) : bool :=
  match is_target_pair_transaction self tx with
  | Ok b => b
  | Raise _ => false
  end.

Definition record_of (tx : pyval) : pyval :=
  match abnormal_record tx with
  | Ok r => r
  | Raise _ => PNone
  end.

(** The items strictly before the first one whose hash is [last] *)
Fixpoint new_prefix (last : pyval) (items : list pyval) : list pyval :=
  match items with
  | [] => []
  | tx :: rest =>
      if py_eq (tx_hash tx) last then [] else tx :: new_prefix last rest
  end.

(** One processed transaction, on the state *)
Definition count_tx (self : monitor) (s : state) (tx : pyval) : state :=
  if expected self tx then
    mkState (st_start s) (st_last s) (st_total s + 1) (st_abnormal s) (st_txs s)
  else
    mkState (st_start s) (st_last s) (st_total s + 1) (st_abnormal s + 1)
      (keep_last 100 (st_txs s ++ [record_of tx])).

(** The instant a stored start time stands for: [load_data] reads a set
    [start_time] with [fromisoformat]. *)
Definition parsed_start (s : state) : option datetime :=
  match st_start s with
  | PStr text =>
      if String.eqb text "" then None else fromisoformat (replace_Z text)
  | _ => None
  end.

(** The start time a loaded record may carry: unset, or text that
    [fromisoformat] reads. *)
Definition start_ok (s : state) : Prop :=
  py_truthy (st_start s) = false \/ exists t, parsed_start s = Some t.

(** The instant the cycle keeps as start time *)
Definition started (now : Z) (s : state) : datetime :=
  match parsed_start s with
  | Some t => t
  | None => utc now
  end.

(** The state a cycle leaves, from the state it loaded, the start time
    [t0] it works with and the page *)
Definition cycle_from (self : monitor) (t0 : datetime) (s : state)
    (items : list pyval) : state :=
  let s1 :=
    mkState (PDatetime t0)
      (match items with tx :: _ => tx_hash tx | [] => st_last s end)
      (st_total s) (st_abnormal s) (st_txs s) in
  let s2 := fold_left (count_tx self) (rev (new_prefix (st_last s) items)) s1 in
  mkState (PStr (isoformat t0)) (st_last s2) (st_total s2)
    (st_abnormal s2) (st_txs s2).

Definition cycle_state (self : monitor) (now : Z) (s : state)
    (items : list pyval) : state :=
  cycle_from self (started now s) s items.

(** [save_data] as the claim of atomicity reads it: every content the file
    holds from the call on is a complete record. *)
Definition atomic_save (data : pyval) (w : world) : Prop :=
  forall c, In c (skipn (List.length (written w)) (written (snd (save_data data w)))) ->
            exists v, c = Doc v.

(** ** Sample data *)

(** An instance of the [datetime] library with the clock stopped at the
    epoch, to run the methods on. *)
Definition epoch_isoformat (t : datetime) : string := "1970-01-01T00:00:00+00:00".

Definition epoch_fromisoformat (s : string) : option datetime :=
  if String.eqb s "" then None else Some (mkDatetime 0 (Some 0)).

(** The decimal digits of a number below [10 ^ fuel] *)
Fixpoint decimal (fuel : nat) (n : Z) : string :=
  match fuel with
  | O => ""
  | S fuel' =>
      (if n <? 10 then "" else decimal fuel' (n / 10)) ++
      String (ascii_of_nat (48 + Z.to_nat (n mod 10))) ""
  end.

(** [str(timedelta)] of whole seconds below a day: [H:MM:SS]. *)
Definition epoch_timedelta_str (delta : Z) : string :=
  let s := delta / 1000000 in
  decimal 2 (s / 3600) ++ ":" ++
  decimal 1 (s / 60 mod 60 / 10) ++ decimal 1 (s / 60 mod 10) ++ ":" ++
  decimal 1 (s mod 60 / 10) ++ decimal 1 (s mod 10).

(** A stand-in for the float arithmetic of the percentage on counters that
    are not negative: two decimals, rounded to the nearest, and no result
    from [2 ^ 1024 - 2 ^ 970] on, where the quotient rounds beyond the
    largest float. *)
Definition epoch_percent_str (a t : Z) : option string :=
  if 2 ^ 1024 - 2 ^ 970 <=? a / t then None
  else
    let hundredths := (a * 10000 + t / 2) / t in
    Some (decimal 400 (hundredths / 100) ++ "." ++
          decimal 1 (hundredths mod 100 / 10) ++ decimal 1 (hundredths mod 10) ++
          "%").

(** A transaction [h] sent to the address [destination] *)
Definition sample_tx (h destination : string) : pyval :=
  PDict [ ("hash", PStr h); ("timestamp", PStr "2025-01-01T00:00:00.000000Z");
          ("to", PDict [("hash", PStr destination)]) ].

Definition tx_A : pyval := sample_tx "A" "0x00000000000000000000000000000000000000aa".
Definition tx_B : pyval := sample_tx "B" "0x00000000000000000000000000000000000000bb".
Definition tx_C : pyval := sample_tx "C" "0x00000000000000000000000000000000000000cc".
Definition tx_D : pyval := sample_tx "D" "0x00000000000000000000000000000000000000dd".

(** A contract creation: [to] is null. *)
Definition tx_create : pyval :=
  PDict [ ("hash", PStr "N"); ("timestamp", PStr "2025-01-01T00:00:00.000000Z");
          ("to", PNone) ].

Definition sample_page : list pyval := [tx_A; tx_B; tx_C; tx_D].

Definition sample_reply (items : list pyval) : option pyval :=
  Some (PDict [("items", PList items)]).

Definition sample_monitor : monitor :=
  mkMonitor "0xabc" "ETH" "MPH" (token_address "ETH") (token_address "MPH")
    "https://explorer-api.morphl2.io/api/v2/addresses/0xabc/transactions" PNone.

(** A record with the given high-water mark, counters and history *)
Definition sample_record (last : pyval) (total abnormal : Z) (txs : list pyval)
  : pyval :=
  PDict
    [ ("config", PDict [("monitored_address", PStr "0xabc")]);
      ("monitoring",
       PDict [ ("start_time", PNone); ("last_processed_tx", last);
               ("total_transactions", PInt total);
               ("abnormal_transactions", PInt abnormal) ]);
      ("abnormal_txs", PList txs) ].

Definition sample_world (v : pyval) : world := mkWorld (Some (Doc v)) [] [].

(** The monitor [__init__] builds for the unknown base symbol BTC *)
Definition btc_monitor : monitor :=
  mkMonitor "0xabc" "BTC" "MPH" PNone (token_address "MPH")
    "https://explorer-api.morphl2.io/api/v2/addresses/0xabc/transactions" PNone.

(** A record [json.dump] stops on: an instant outside [start_time] *)
Definition unserialisable_record : pyval :=
  PDict
    [ ("config", PDict [("since", PDatetime (mkDatetime 0 (Some 0)))]);
      ("monitoring",
       PDict [ ("start_time", PNone); ("last_processed_tx", PNone);
               ("total_transactions", PInt 0);
               ("abnormal_transactions", PInt 0) ]);
      ("abnormal_txs", PList []) ].

(** A record written before the [monitoring] block existed *)
Definition legacy_record : pyval :=
  PDict [ ("config", PDict [("monitored_address", PStr "0xabc")]);
          ("abnormal_txs", PList []) ].

(** ** The command line and further readings of the record *)

(** [main] when [--monitor] is not given: one monitor, one cycle. *)
Definition main_single_shot (address base_token quote_token : string)
    (now : Z) (upstream : option pyval) : M unit :=
  monitor <- init address base_token quote_token ;;
  analyze_transactions monitor now upstream.

(** Whether the letter Z occurs in a text *)
Fixpoint has_Z (s : string) : bool :=
  match s with
  | EmptyString => false
  | String c r => Ascii.eqb c "Z"%char || has_Z r
  end.

(** The state of the record [analyze_transactions] starts from when
    [load_data] gives nothing *)
Definition fresh_state (now : Z) : state :=
  mkState (PDatetime (utc now)) PNone 0 0 [].

(** The transactions a cycle records as abnormal *)
Definition abnormal_of (self : monitor) (txs : list pyval) : list pyval :=
  filter (fun tx => negb (expected self tx)) txs.

(** A contract creation as the explorer sends it: [to] is null. *)
Definition contract_creation (tx : pyval) : bool :=
  match tx with
  | PDict d =>
      is_str (dict_get "hash" d) &&
      match dict_get "timestamp" d with Some _ => true | None => false end &&
      match dict_get "to" d with Some PNone => true | _ => false end
  | _ => false
  end.

(** Two more instances of [fromisoformat] to run the methods on: one that
    reads the epoch only, and one that reads every text as a naive
    instant. *)
Definition strict_fromisoformat (s : string) : option datetime :=
  if String.eqb s "1970-01-01T00:00:00+00:00" then Some (mkDatetime 0 (Some 0))
  else None.

Definition naive_fromisoformat (s : string) : option datetime :=
  Some (mkDatetime 0 None).

(** A record with the given start time *)
Definition started_record (start : pyval) : pyval :=
  PDict
    [ ("config", PDict [("monitored_address", PStr "0xabc")]);
      ("monitoring",
       PDict [ ("start_time", start); ("last_processed_tx", PStr "C");
               ("total_transactions", PInt 7);
               ("abnormal_transactions", PInt 3) ]);
      ("abnormal_txs", PList []) ].

(** A computation that, when it raises, has left the data file alone *)
Definition raises_clean {A} (c : M A) : Prop :=
  forall w e w', c w = (Raise e, w') ->
    disk w' = disk w /\ written w' = written w.

(** What [is_target_pair_transaction] does once it has the lower-cased
    destination *)
Definition classify_address (self : monitor) (to_address : string) : res bool :=
  if existsb (String.eqb to_address) (dict_values DEX_CONTRACTS) then Ok true
  else
    let* b := py_lower (base_token_address self) in
    let* q := py_lower (quote_token_address self) in
    if existsb (String.eqb to_address) [b; q] then Ok true
    else Ok false.

(** The value [dict.get] gives for a key, with its default *)
Definition or_default (o : option pyval) (default : pyval) : pyval :=
  match o with
  | Some v => v
  | None => default
  end.


(** ** The claim's words on the classifier *)

(** Two characters that are the same letter, whatever their case: equal, or
    one is an upper-case letter ([A] to [Z], codes 65 to 90) and the other
    the lower-case letter 32 places further. *)
Definition same_letter (a b : ascii) : bool :=
  let m := nat_of_ascii a in
  let n := nat_of_ascii b in
  ((m =? n) ||
   ((65 <=? m) && (m <=? 90) && (n =? m + 32)) ||
   ((65 <=? n) && (n <=? 90) && (m =? n + 32)))%nat.

(** "Case-normalized ... equals": two texts that differ at most in the
    case of their letters.  Written without [lower], to be compared with
    what the classifier computes. *)
Fixpoint eq_ignoring_case (s t : string) : bool :=
  match s, t with
  | EmptyString, EmptyString => true
  | String a s', String b t' => same_letter a b && eq_ignoring_case s' t'
  | _, _ => false
  end.

(** ** Values as [json.load] and [response.json()] return them *)

Fixpoint no_repeat (keys : list string) : bool :=
  match keys with
  | [] => true
  | k :: rest => negb (existsb (String.eqb k) rest) && no_repeat rest
  end.

(** No object lists a key twice: an association list stands for a Python
    dict only then. *)
Fixpoint distinct_keys (v : pyval) : bool :=
  match v with
  | PList l => forallb distinct_keys l
  | PDict d =>
      no_repeat (map fst d) && forallb (fun kv => distinct_keys (snd kv)) d
  | _ => true
  end.

Definition parsed_json (v : pyval) : bool := json_ok v && distinct_keys v.

(** ** More sample data *)

(** The record of a transaction [tx<i>] sent to an unrelated address *)
Definition synthetic_record (i : nat) : pyval :=
  record_of (sample_tx ("tx" ++ decimal 3 (Z.of_nat i))
               "0x00000000000000000000000000000000000000aa").

(** A history that has reached its bound *)
Definition full_history : list pyval := map synthetic_record (seq 0 100).

(** A record of a monitor of ETH/MPH started at the epoch, with the given
    counters and a history of 12 entries *)
Definition stats_record (total abnormal : Z) : pyval :=
  PDict
    [ ("config",
       PDict
         [ ("monitored_address", PStr "0xabc");
           ("base_token", PStr "ETH");
           ("quote_token", PStr "MPH");
           ("token_addresses",
            PDict [ ("ETH", PStr "0x5300000000000000000000000000000000000011");
                    ("MPH", PStr "0x579C032A137D796f29b14AdEcb58C2E56B14e367") ]);
           ("dex_contracts", str_dict DEX_CONTRACTS) ]);
      ("monitoring",
       PDict [ ("start_time", PStr "1970-01-01T00:00:00+00:00");
               ("last_processed_tx", PStr "tx11");
               ("total_transactions", PInt total);
               ("abnormal_transactions", PInt abnormal) ]);
      ("abnormal_txs", PList (map synthetic_record (seq 0 12))) ].
(** ** Dicts *)

Lemma dict_get_set {V} (k k' : string) (v : V) (d : list (string * V)) :
  dict_get k (dict_set k' v d) = if String.eqb k k' then Some v else dict_get k d.
Proof.
  induction d as [|[k0 v0] d IH]; simpl.
  - destruct (String.eqb k k'); reflexivity.
  - destruct (String.eqb k' k0) eqn:E0; simpl.
    + apply String.eqb_eq in E0; subst k0.
      destruct (String.eqb k k'); reflexivity.
    + rewrite IH.
      destruct (String.eqb k k') eqn:E1; [|reflexivity].
      apply String.eqb_eq in E1; subst k'. now rewrite E0.
Qed.

Lemma dict_set_nonempty {V} (k : string) (v : V) (d : list (string * V)) :
  dict_set k v d <> [].
Proof.
  destruct d as [|[k0 v0] d]; simpl; [discriminate|].
  destruct (String.eqb k k0); discriminate.
Qed.

Lemma forallb_dict_set {V} (P : string * V -> bool) k v (d : list (string * V)) :
  forallb P d = true ->
  (forall k0, P (k0, v) = true) ->
  forallb P (dict_set k v d) = true.
Proof.
  intros Hd Hv. induction d as [|[k0 v0] d IH]; simpl in *.
  - now rewrite Hv.
  - apply andb_true_iff in Hd as [H0 Hd].
    destruct (String.eqb k k0); simpl.
    + now rewrite Hv, Hd.
    + now rewrite H0, IH.
Qed.

Lemma forallb_dict_get {V} (P : string * V -> bool) k v (d : list (string * V)) :
  forallb P d = true -> dict_get k d = Some v -> exists k0, P (k0, v) = true.
Proof.
  induction d as [|[k0 v0] d IH]; simpl; [discriminate|].
  intros Hd Hg. apply andb_true_iff in Hd as [H0 Hd].
  destruct (String.eqb k k0).
  - injection Hg as <-. now exists k0.
  - now apply IH.
Qed.

Lemma json_ok_dict_get k v d :
  json_ok (PDict d) = true -> dict_get k d = Some v -> json_ok v = true.
Proof.
  simpl. intros Hd Hg.
  destruct (forallb_dict_get _ _ _ _ Hd Hg) as [k0 H]. exact H.
Qed.

Lemma json_ok_except_get k0 k v d :
  json_ok_except k0 d = true -> dict_get k d = Some v ->
  String.eqb k k0 = false -> json_ok v = true.
Proof.
  induction d as [|[k1 v1] d IH]; simpl; [discriminate|].
  intros Hd Hg Hk.
  destruct (String.eqb k0 k1) eqn:E0.
  - apply String.eqb_eq in E0; subst k1. rewrite Hk in Hg.
    destruct (forallb_dict_get _ _ _ _ Hd Hg) as [? H]. exact H.
  - apply andb_true_iff in Hd as [H0 Hd].
    destruct (String.eqb k k1).
    + now injection Hg as <-.
    + now apply IH.
Qed.

Lemma json_ok_except_set_same k0 v d :
  json_ok_except k0 d = true -> json_ok_except k0 (dict_set k0 v d) = true.
Proof.
  induction d as [|[k1 v1] d IH]; simpl; intros Hd.
  - now rewrite String.eqb_refl.
  - destruct (String.eqb k0 k1) eqn:E0; simpl; rewrite E0; [exact Hd|].
    apply andb_true_iff in Hd as [H0 Hd]. now rewrite H0, IH.
Qed.

Lemma json_ok_except_set_other k0 k v d :
  json_ok_except k0 d = true -> json_ok v = true -> String.eqb k0 k = false ->
  json_ok_except k0 (dict_set k v d) = true.
Proof.
  intros Hd Hv Hk. induction d as [|[k1 v1] d IH]; simpl in *.
  - now rewrite Hk, Hv.
  - destruct (String.eqb k k1) eqn:E; simpl.
    + apply String.eqb_eq in E; subst k1. rewrite Hk in *.
      apply andb_true_iff in Hd as [_ Hd]. now rewrite Hv, Hd.
    + destruct (String.eqb k0 k1).
      * apply forallb_dict_set; [exact Hd | intros; exact Hv].
      * apply andb_true_iff in Hd as [H0 Hd]. now rewrite H0, IH.
Qed.

Lemma json_ok_of_except k0 v d :
  json_ok_except k0 d = true -> json_ok v = true ->
  json_ok (PDict (dict_set k0 v d)) = true.
Proof.
  intros Hd Hv. simpl. induction d as [|[k1 v1] d IH]; simpl in *.
  - now rewrite Hv.
  - destruct (String.eqb k0 k1); simpl.
    + now rewrite Hv, Hd.
    + apply andb_true_iff in Hd as [H0 Hd]. now rewrite H0, IH.
Qed.

Lemma json_ok_except_of_json k0 d :
  json_ok (PDict d) = true -> json_ok_except k0 d = true.
Proof.
  simpl. induction d as [|[k1 v1] d IH]; simpl; [reflexivity|].
  intros Hd. apply andb_true_iff in Hd as [H0 Hd].
  destruct (String.eqb k0 k1); [exact Hd | now rewrite H0, IH].
Qed.

(** ** The monad *)

Lemma rbind_ok {A B} (c : res A) (k : A -> res B) b :
  rbind c k = Ok b -> exists a, c = Ok a /\ k a = Ok b.
Proof. destruct c as [a|e]; simpl; [eauto | discriminate]. Qed.

Lemma bind_ok {A B} (c : M A) (k : A -> M B) w b w' :
  bind c k w = (Ok b, w') ->
  exists a w1, c w = (Ok a, w1) /\ k a w1 = (Ok b, w').
Proof.
  unfold bind. destruct (c w) as [[a|e] w1]; [eauto | discriminate].
Qed.

Lemma lift_ok {A} (r : res A) w a w' :
  lift r w = (Ok a, w') -> r = Ok a /\ w' = w.
Proof. unfold lift. intros H. injection H as -> ->. auto. Qed.

Lemma bind_run {A B} (c : M A) (k : A -> M B) w a w1 :
  c w = (Ok a, w1) -> bind c k w = k a w1.
Proof. unfold bind. now intros ->. Qed.

Lemma bind_lift {A B} (r : res A) (k : A -> M B) w a :
  r = Ok a -> bind (lift r) k w = k a w.
Proof. now intros ->. Qed.

Lemma bind_raise {A B} (c : M A) (k : A -> M B) w e w1 :
  c w = (Raise e, w1) -> bind c k w = (Raise e, w1).
Proof. unfold bind. now intros ->. Qed.

(** A computation that leaves the data file alone *)
Definition keeps_file {A} (c : M A) : Prop :=
  forall w, disk (snd (c w)) = disk w /\ written (snd (c w)) = written w.

Lemma keeps_ret {A} (a : A) : keeps_file (ret a).
Proof. now intros w. Qed.

Lemma keeps_raise {A} e : keeps_file (@raise A e).
Proof. now intros w. Qed.

Lemma keeps_lift {A} (r : res A) : keeps_file (lift r).
Proof. now intros w. Qed.

Lemma keeps_logging lv msg : keeps_file (logging lv msg).
Proof. now intros w. Qed.

Lemma keeps_bind {A B} (c : M A) (k : A -> M B) :
  keeps_file c -> (forall a, keeps_file (k a)) -> keeps_file (bind c k).
Proof.
  intros Hc Hk w. unfold bind. specialize (Hc w).
  destruct (c w) as [[a|e] w1]; simpl in Hc.
  - destruct (Hk a w1) as [H1 H2]. destruct Hc as [H3 H4].
    now rewrite H1, H2.
  - exact Hc.
Qed.

Lemma keeps_try {A} (c : M A) handled (h : exn -> M A) :
  keeps_file c -> (forall e, keeps_file (h e)) -> keeps_file (try_except c handled h).
Proof.
  intros Hc Hh w. unfold try_except. specialize (Hc w).
  destruct (c w) as [[a|e] w1]; simpl in Hc; [exact Hc|].
  destruct (handled e); [|exact Hc].
  destruct (Hh e w1) as [H1 H2]. destruct Hc as [H3 H4].
  now rewrite H1, H2.
Qed.

Lemma keeps_for_each {A S} (l : list A) (body : A -> S -> M S) :
  (forall x s, keeps_file (body x s)) -> forall s, keeps_file (for_each l s body).
Proof.
  intros Hb. induction l as [|x l IH]; intros s; simpl.
  - apply keeps_ret.
  - apply keeps_bind; [apply Hb | intros; apply IH].
Qed.

Ltac keeps :=
  repeat first
    [ apply keeps_ret | apply keeps_raise | apply keeps_lift | apply keeps_logging
    | apply keeps_bind; [|intros ?]
    | apply keeps_try; [|intros ?]
    | match goal with
      | |- keeps_file (if ?b then _ else _) => destruct b
      | |- keeps_file (match ?x with _ => _ end) => destruct x
      end ].

Lemma keeps_warn_abnormal tx : keeps_file (warn_abnormal tx).
Proof. unfold warn_abnormal. keeps. Qed.

Lemma keeps_process_tx self tx data : keeps_file (process_tx self tx data).
Proof. unfold process_tx. keeps. Qed.

Lemma keeps_get_transactions upstream : keeps_file (get_transactions upstream).
Proof. unfold get_transactions. keeps. Qed.

Lemma keeps_open_read : keeps_file open_read.
Proof. intros w. unfold open_read. destruct (disk w) eqn:E; simpl; auto. Qed.

Lemma keeps_load_data : keeps_file load_data.
Proof. unfold load_data. keeps; apply keeps_open_read. Qed.

Lemma try_except_ok {A} (c : M A) handled (h : exn -> M A) w a w' :
  try_except c handled h w = (Ok a, w') ->
  c w = (Ok a, w') \/
  exists e w1, c w = (Raise e, w1) /\ handled e = true /\ h e w1 = (Ok a, w').
Proof.
  unfold try_except. destruct (c w) as [[x|e] w1]; [now left|].
  destruct (handled e) eqn:He; [|discriminate]. right. eauto.
Qed.

Lemma load_data_result w data w' :
  load_data w = (Ok data, w') ->
  data = PNone \/
  exists v, disk w = Some (Doc v) /\
    (data = v \/
     exists t, py_setitem2 v "monitoring" "start_time" (PDatetime t) = Ok data).
Proof.
  unfold load_data. intros H.
  apply try_except_ok in H as [H | (e & w1 & _ & _ & H)].
  - right.
    apply bind_ok in H as (f & w1 & Hf & H).
    apply bind_ok in H as (v & w2 & Hv & H). apply lift_ok in Hv as [Hv ->].
    apply bind_ok in H as (m & w2 & Hm & H). apply lift_ok in Hm as [Hm ->].
    apply bind_ok in H as (st & w2 & Hst & H). apply lift_ok in Hst as [Hst ->].
    unfold open_read in Hf. destruct (disk w) as [c|] eqn:Hd; [|discriminate].
    injection Hf as <- <-. destruct c as [v0|]; [|discriminate].
    simpl in Hv. injection Hv as ->. exists v. split; [reflexivity|].
    destruct (py_truthy st).
    + apply bind_ok in H as (m' & w2 & Hm' & H). apply lift_ok in Hm' as [_ ->].
      apply bind_ok in H as (st' & w2 & Hst' & H). apply lift_ok in Hst' as [_ ->].
      apply bind_ok in H as (text & w2 & Ht & H). apply lift_ok in Ht as [_ ->].
      destruct (fromisoformat text) as [t|]; [|discriminate].
      apply bind_ok in H as (v' & w2 & Hs & H). apply lift_ok in Hs as [Hs ->].
      injection H as <- <-. eauto.
    + injection H as <- <-. now left.
  - left. unfold bind, logging, ret in H. simpl in H. now injection H as <- <-.
Qed.

(** ** A rule for what every cycle keeps true of the record in the file *)

Section CycleInvariant.

Variable P : pyval -> Prop.

Definition holds {A} (c : M A) (Q : A -> Prop) : Prop :=
  forall w, on_disk P w ->
    on_disk P (snd (c w)) /\
    match fst (c w) with Ok a => Q a | Raise _ => True end.

Lemma holds_keeps {A} (c : M A) :
  keeps_file c -> holds c (fun a => exists w, fst (c w) = Ok a).
Proof.
  intros Hk w Hw. split.
  - intros v Hv. apply Hw. destruct (Hk w) as [<- _]. exact Hv.
  - destruct (fst (c w)) eqn:E; [eauto | exact I].
Qed.

Lemma holds_weaken {A} (c : M A) (Q Q' : A -> Prop) :
  holds c Q -> (forall a, Q a -> Q' a) -> holds c Q'.
Proof.
  intros Hc HQ w Hw. destruct (Hc w Hw) as [H1 H2]. split; [exact H1|].
  destruct (fst (c w)); auto.
Qed.

Lemma holds_lift {A} (r : res A) : holds (lift r) (fun a => r = Ok a).
Proof. intros w Hw. split; [exact Hw|]. simpl. now destruct r. Qed.

Lemma holds_ret {A} (a : A) (Q : A -> Prop) : Q a -> holds (ret a) Q.
Proof. intros HQ w Hw. now split. Qed.

Lemma holds_bind {A B} (c : M A) (k : A -> M B) (Q1 : A -> Prop) (Q2 : B -> Prop) :
  holds c Q1 -> (forall a, Q1 a -> holds (k a) Q2) -> holds (bind c k) Q2.
Proof.
  intros Hc Hk w Hw. destruct (Hc w Hw) as [H1 H2]. unfold bind.
  destruct (c w) as [[a|e] w1]; simpl in *.
  - exact (Hk a H2 w1 H1).
  - now split.
Qed.

Lemma holds_for_each {A} (l : list A) (body : A -> pyval -> M pyval) (Q : pyval -> Prop) :
  (forall x s, Q s -> holds (body x s) Q) ->
  forall s, Q s -> holds (for_each l s body) Q.
Proof.
  intros Hb. induction l as [|x l IH]; intros s Hs; simpl.
  - now apply holds_ret.
  - eapply holds_bind; [apply Hb; exact Hs | intros s' Hs'; now apply IH].
Qed.

Hypothesis P_initial : forall self x, P (initial_data self x).
Hypothesis P_set : forall v k x v',
  P v -> py_setitem2 v "monitoring" k x = Ok v' ->
  k = "start_time" \/ k = "last_processed_tx" -> P v'.
Hypothesis P_process : forall self tx v w v' w',
  P v -> process_tx self tx v w = (Ok v', w') -> P v'.

Lemma P_stringify v v' : P v -> stringify_start_time v = Ok v' -> P v'.
Proof.
  unfold stringify_start_time. intros Hv H.
  apply rbind_ok in H as (m & _ & H). apply rbind_ok in H as (st & _ & H).
  destruct (py_truthy st).
  - apply rbind_ok in H as (m' & _ & H). apply rbind_ok in H as (st' & _ & H).
    apply rbind_ok in H as (text & _ & H).
    eapply P_set; [exact Hv | exact H | now left].
  - now injection H as <-.
Qed.

Lemma holds_save_data data : P data -> holds (save_data data) (fun _ => True).
Proof.
  intros Hd w Hw. unfold save_data.
  destruct (stringify_start_time data) as [data'|e] eqn:Hs.
  - pose proof (P_stringify _ _ Hd Hs) as Hd'.
    unfold try_except, bind, open_write, json_dump, set_file, raise, ret, logging.
    simpl. destruct (json_ok data'); simpl.
    + split; [|exact I]. intros v Hv. simpl in Hv. now injection Hv as <-.
    + split; [|exact I]. intros v Hv. simpl in Hv. discriminate.
  - split; [exact Hw|exact I].
Qed.

Lemma holds_load_data : holds load_data (fun data => data = PNone \/ P data).
Proof.
  intros w Hw. destruct (keeps_load_data w) as [Hk _]. split.
  - intros v Hv. apply Hw. now rewrite <- Hk.
  - destruct (load_data w) as [[data|e] w'] eqn:Hl; simpl; [|exact I].
    destruct (load_data_result _ _ _ Hl) as [->|(v & Hv & [-> | (t & Ht)])].
    + now left.
    + right. now apply Hw.
    + right. eapply P_set; [apply Hw; exact Hv | exact Ht | now left].
Qed.

Lemma holds_process_tx self tx data :
  P data -> holds (process_tx self tx data) P.
Proof.
  intros Hd. eapply holds_weaken; [apply holds_keeps, keeps_process_tx|].
  intros v' [w Hw]. simpl in Hw.
  destruct (process_tx self tx data w) as [r w'] eqn:E. simpl in Hw. subst r.
  eapply P_process; eauto.
Qed.

Lemma holds_analyze_transactions self now upstream :
  holds (analyze_transactions self now upstream) (fun _ => True).
Proof.
  unfold analyze_transactions.
  eapply holds_bind; [apply holds_keeps, keeps_get_transactions|].
  intros transactions _.
  eapply holds_bind.
  { apply holds_keeps. destruct (negb (py_truthy transactions)); keeps. }
  intros missing _. destruct missing.
  { eapply holds_weaken; [apply holds_keeps, keeps_logging | auto]. }
  eapply holds_bind; [apply holds_load_data|].
  intros loaded Hl.
  set (data0 := if negb (py_truthy loaded) then _ else loaded).
  assert (H0 : P data0).
  { subst data0. destruct Hl as [-> | Hl]; [apply P_initial|].
    destruct (negb (py_truthy loaded)); [apply P_initial | exact Hl]. }
  clearbody data0. clear Hl loaded.
  eapply holds_bind; [apply holds_lift|]. intros monitoring _.
  eapply holds_bind; [apply holds_lift|]. intros start_time _.
  eapply holds_bind with (Q1 := P).
  { destruct (negb (py_truthy start_time)).
    - eapply holds_weaken; [apply holds_lift|]. intros v' Hv'.
      eapply P_set; [exact H0 | exact Hv' | now left].
    - now apply holds_ret. }
  intros data1 H1.
  eapply holds_bind; [apply holds_lift|]. intros items _.
  eapply holds_bind; [apply holds_lift|]. intros elements _.
  eapply holds_bind; [apply holds_lift|]. intros new_transactions _.
  eapply holds_bind with (Q1 := P).
  { destruct (py_truthy items).
    - eapply holds_bind; [apply holds_lift|]. intros newest _.
      eapply holds_bind; [apply holds_lift|]. intros hash _.
      eapply holds_weaken; [apply holds_lift|]. intros v' Hv'.
      eapply P_set; [exact H1 | exact Hv' | now right].
    - now apply holds_ret. }
  intros data2 H2.
  eapply holds_bind with (Q1 := P).
  { apply holds_for_each; [|exact H2]. intros tx s Hs. now apply holds_process_tx. }
  intros data3 H3.
  eapply holds_bind; [now apply holds_save_data|].
  intros _ _. now apply holds_ret.
Qed.

(** Whatever the reply and the record, a cycle that finds [P] of the
    record in the file leaves it so. *)
Lemma cycle_invariant self now upstream w :
  on_disk P w -> on_disk P (snd (analyze_transactions self now upstream w)).
Proof. intros Hw. exact (proj1 (holds_analyze_transactions self now upstream w Hw)). Qed.

End CycleInvariant.

(** ** Stores into the record *)

Lemma dict_set_set {V} k (x y : V) d :
  dict_set k x (dict_set k y d) = dict_set k x d.
Proof.
  induction d as [|[k0 v0] d IH]; simpl.
  - now rewrite String.eqb_refl.
  - destruct (String.eqb k k0) eqn:E; simpl; rewrite E; [reflexivity|].
    now rewrite IH.
Qed.

Lemma getitem_setitem v k x v' k' :
  py_setitem v k x = Ok v' ->
  py_getitem v' k' = if String.eqb k' k then Ok x else py_getitem v k'.
Proof.
  destruct v; simpl; try discriminate. intros H. injection H as <-.
  simpl. rewrite dict_get_set. now destruct (String.eqb k' k).
Qed.

Lemma setitem2_inv v k1 k2 x v' :
  py_setitem2 v k1 k2 x = Ok v' ->
  exists d m, v = PDict d /\ dict_get k1 d = Some (PDict m) /\
              v' = PDict (dict_set k1 (PDict (dict_set k2 x m)) d).
Proof.
  unfold py_setitem2. intros H.
  apply rbind_ok in H as (inner & Hi & H).
  apply rbind_ok in H as (inner' & Hi' & H).
  destruct v as [| | | | |l|d]; simpl in Hi; try discriminate.
  destruct (dict_get k1 d) as [i|] eqn:Hg; [|discriminate].
  injection Hi as ->.
  destruct inner as [| | | | |l|m]; simpl in Hi'; try discriminate.
  injection Hi' as <-. simpl in H. injection H as <-. eauto.
Qed.

Lemma setitem2_run d m k1 k2 x :
  dict_get k1 d = Some (PDict m) ->
  py_setitem2 (PDict d) k1 k2 x = Ok (PDict (dict_set k1 (PDict (dict_set k2 x m)) d)).
Proof. intros H. unfold py_setitem2. simpl. now rewrite H. Qed.

Lemma field2_setitem2 v k1 k2 x v' k :
  py_setitem2 v k1 k2 x = Ok v' ->
  field2 v' k1 k = if String.eqb k k2 then Some x else field2 v k1 k.
Proof.
  intros H. apply setitem2_inv in H as (d & m & -> & Hm & ->).
  unfold field2. simpl. rewrite dict_get_set, String.eqb_refl, Hm. simpl.
  rewrite dict_get_set. destruct (String.eqb k k2); [reflexivity|].
  now destruct (dict_get k m).
Qed.

Lemma getitem_setitem2_other v k1 k2 x v' k :
  py_setitem2 v k1 k2 x = Ok v' -> String.eqb k k1 = false ->
  py_getitem v' k = py_getitem v k.
Proof.
  intros H Hk. apply setitem2_inv in H as (d & m & -> & Hm & ->).
  simpl. now rewrite dict_get_set, Hk.
Qed.

Lemma field2_setitem_other v k0 x v' k1 k :
  py_setitem v k0 x = Ok v' -> String.eqb k1 k0 = false ->
  field2 v' k1 k = field2 v k1 k.
Proof.
  intros H Hk. unfold field2. rewrite (getitem_setitem _ _ _ _ k1 H), Hk.
  reflexivity.
Qed.

Lemma incr2_inv v k1 k2 v' :
  py_incr2 v k1 k2 = Ok v' ->
  exists old new, field2 v k1 k2 = Some old /\ py_add1 old = Ok new /\
                  py_setitem2 v k1 k2 new = Ok v'.
Proof.
  unfold py_incr2, py_setitem2, field2. intros H.
  apply rbind_ok in H as (inner & Hi & H). rewrite Hi. simpl.
  apply rbind_ok in H as (old & Ho & H). rewrite Ho.
  apply rbind_ok in H as (new & Hn & H).
  exists old, new. auto.
Qed.

Lemma incr2_run v k1 k2 old new :
  field2 v k1 k2 = Some old -> py_add1 old = Ok new ->
  py_incr2 v k1 k2 = py_setitem2 v k1 k2 new.
Proof.
  unfold py_incr2, py_setitem2, field2. intros Hf Hn.
  destruct (py_getitem v k1) as [inner|]; [|discriminate]. simpl.
  destruct (py_getitem inner k2) as [o|]; [|discriminate].
  injection Hf as ->. simpl. now rewrite Hn.
Qed.

(** ** One iteration of the processing loop *)

Lemma warn_abnormal_run tx r w :
  abnormal_record tx = Ok r ->
  exists w', warn_abnormal tx w = (Ok tt, w').
Proof.
  unfold abnormal_record, warn_abnormal. intros H.
  apply rbind_ok in H as (hash & Hh & H).
  apply rbind_ok in H as (ts & Hts & H).
  apply rbind_ok in H as (method & Hm & H).
  apply rbind_ok in H as (to1 & Hto & H).
  apply rbind_ok in H as (to_address & Hta & H).
  apply rbind_ok in H as (to2 & Hto2 & H).
  apply rbind_ok in H as (to_name & Htn & H).
  rewrite Hto in Hto2. injection Hto2 as <-.
  unfold bind, lift, logging, ret. simpl.
  rewrite Hh, Hto, Htn, Hta, Hm. simpl. eauto.
Qed.

Lemma process_tx_inv self tx v w v' w' :
  process_tx self tx v w = (Ok v', w') ->
  exists v1 b,
    py_incr2 v "monitoring" "total_transactions" = Ok v1 /\
    is_target_pair_transaction self tx = Ok b /\
    (if b then v' = v1
     else exists v2 r l,
       py_incr2 v1 "monitoring" "abnormal_transactions" = Ok v2 /\
       abnormal_record tx = Ok r /\
       py_getitem v2 "abnormal_txs" = Ok (PList l) /\
       py_setitem v2 "abnormal_txs" (PList (keep_last 100 (l ++ [r]))) = Ok v').
Proof.
  unfold process_tx. intros H.
  apply bind_ok in H as (v1 & w1 & H1 & H). apply lift_ok in H1 as [H1 ->].
  apply bind_ok in H as (b & w1 & Hb & H). apply lift_ok in Hb as [Hb ->].
  exists v1, b. split; [exact H1|]. split; [exact Hb|].
  destruct b; simpl in H.
  - unfold ret in H. now injection H as <- <-.
  - apply bind_ok in H as (v2 & w1 & H2 & H). apply lift_ok in H2 as [H2 ->].
    apply bind_ok in H as (r & w1 & Hr & H). apply lift_ok in Hr as [Hr ->].
    apply bind_ok in H as (txs & w1 & Ht & H). apply lift_ok in Ht as [Ht ->].
    apply bind_ok in H as (txs' & w1 & Ha & H). apply lift_ok in Ha as [Ha ->].
    apply bind_ok in H as (v3 & w1 & H3 & H). apply lift_ok in H3 as [H3 ->].
    apply bind_ok in H as (txs2 & w1 & Ht2 & H). apply lift_ok in Ht2 as [Ht2 ->].
    apply bind_ok in H as (kept & w1 & Hk & H). apply lift_ok in Hk as [Hk ->].
    apply bind_ok in H as (v4 & w1 & H4 & H). apply lift_ok in H4 as [H4 ->].
    apply bind_ok in H as (u & w1 & _ & H). unfold ret in H. injection H as <- <-.
    destruct txs as [| | | | |l|]; simpl in Ha; try discriminate.
    injection Ha as <-.
    rewrite (getitem_setitem _ _ _ _ "abnormal_txs" H3) in Ht2. simpl in Ht2.
    injection Ht2 as <-. simpl in Hk. injection Hk as <-.
    exists v2, r, l. repeat split; auto.
    destruct v2; simpl in H3; try discriminate. injection H3 as <-.
    simpl in H4. injection H4 as <-. simpl. now rewrite dict_set_set.
Qed.

Lemma process_tx_run self tx v w v1 b :
  py_incr2 v "monitoring" "total_transactions" = Ok v1 ->
  is_target_pair_transaction self tx = Ok b ->
  (if b then True
   else exists v2 r l,
     py_incr2 v1 "monitoring" "abnormal_transactions" = Ok v2 /\
     abnormal_record tx = Ok r /\
     py_getitem v2 "abnormal_txs" = Ok (PList l)) ->
  exists v' w',
    process_tx self tx v w = (Ok v', w') /\
    disk w' = disk w /\ written w' = written w /\
    (if b then v' = v1
     else exists v2 r l,
       py_incr2 v1 "monitoring" "abnormal_transactions" = Ok v2 /\
       abnormal_record tx = Ok r /\
       py_getitem v2 "abnormal_txs" = Ok (PList l) /\
       py_setitem v2 "abnormal_txs" (PList (keep_last 100 (l ++ [r]))) = Ok v').
Proof.
  intros H1 Hb Hrest.
  assert (Hrun : exists v' w', process_tx self tx v w = (Ok v', w')).
  { unfold process_tx. rewrite (bind_lift _ _ _ _ H1), (bind_lift _ _ _ _ Hb).
    destruct b; simpl; [unfold ret; eauto|].
    destruct Hrest as (v2 & r & l & H2 & Hr & Hl).
    rewrite (bind_lift _ _ _ _ H2), (bind_lift _ _ _ _ Hr), (bind_lift _ _ _ _ Hl).
    simpl.
    destruct v2 as [| | | | |?|d]; simpl in Hl; try discriminate.
    destruct (warn_abnormal_run tx r w Hr) as [w' Hw].
    unfold bind, lift, ret. simpl. rewrite dict_get_set. simpl.
    rewrite Hw. eauto. }
  destruct Hrun as (v' & w' & Hrun). exists v', w'.
  destruct (keeps_process_tx self tx v w) as [Hd Hwr]. rewrite Hrun in Hd, Hwr.
  repeat split; auto.
  apply process_tx_inv in Hrun as (v1' & b' & H1' & Hb' & Hrest').
  rewrite H1 in H1'. injection H1' as <-. rewrite Hb in Hb'. injection Hb' as <-.
  exact Hrest'.
Qed.

(** ** The slice [[-n:]] *)

Lemma keep_last_length {A} n (l : list A) : (List.length (keep_last n l) <= n)%nat.
Proof. unfold keep_last. rewrite length_skipn. lia. Qed.

Lemma keep_last_short {A} n (l : list A) :
  (List.length l <= n)%nat -> keep_last n l = l.
Proof.
  intros H. unfold keep_last.
  replace (List.length l - n)%nat with 0%nat by lia. reflexivity.
Qed.

Lemma keep_last_suffix {A} n (l : list A) :
  exists dropped : list A, l = (dropped ++ keep_last n l)%list /\
    List.length dropped = (List.length l - n)%nat.
Proof.
  exists (firstn (List.length l - n) l). split.
  - unfold keep_last. now rewrite firstn_skipn.
  - rewrite length_firstn. lia.
Qed.

Lemma keep_last_full {A} n (l : list A) x :
  List.length l = S n -> keep_last (S n) (l ++ [x]) = (tl l ++ [x])%list.
Proof.
  intros H. unfold keep_last. rewrite length_app. simpl.
  replace (List.length l + 1 - S n)%nat with 1%nat by lia.
  destruct l; [discriminate | reflexivity].
Qed.

(** ** The two invariants of the record *)

Lemma counters_le_initial self x : counters_le (initial_data self x).
Proof. exists 0, 0. repeat split; reflexivity || lia. Qed.

Lemma counters_le_set v k x v' :
  counters_le v -> py_setitem2 v "monitoring" k x = Ok v' ->
  k = "start_time" \/ k = "last_processed_tx" -> counters_le v'.
Proof.
  intros (t & a & Ht & Ha & Hle) H Hk. exists t, a.
  rewrite !(field2_setitem2 _ _ _ _ _ _ H).
  destruct Hk as [-> | ->]; simpl; auto.
Qed.

(** What [process_tx] does to the two counters *)
Lemma process_tx_counters self tx v w v' w' t a :
  process_tx self tx v w = (Ok v', w') ->
  field2 v "monitoring" "total_transactions" = Some (PInt t) ->
  field2 v "monitoring" "abnormal_transactions" = Some (PInt a) ->
  exists b, is_target_pair_transaction self tx = Ok b /\
    field2 v' "monitoring" "total_transactions" = Some (PInt (t + 1)) /\
    field2 v' "monitoring" "abnormal_transactions"
      = Some (PInt (if b then a else a + 1)).
Proof.
  intros H Ht Ha.
  apply process_tx_inv in H as (v1 & b & H1 & Hb & H).
  exists b. split; [exact Hb|].
  apply incr2_inv in H1 as (old & new & Ho & Hn & H1).
  rewrite Ht in Ho. injection Ho as <-. simpl in Hn. injection Hn as <-.
  pose proof (field2_setitem2 _ _ _ _ _ "total_transactions" H1) as Ht1.
  pose proof (field2_setitem2 _ _ _ _ _ "abnormal_transactions" H1) as Ha1.
  simpl in Ht1, Ha1. rewrite Ha in Ha1.
  destruct b.
  - subst v'. auto.
  - destruct H as (v2 & r & l & H2 & _ & _ & H3).
    apply incr2_inv in H2 as (old & new & Ho & Hn & H2).
    rewrite Ha1 in Ho. injection Ho as <-. simpl in Hn. injection Hn as <-.
    pose proof (field2_setitem2 _ _ _ _ _ "total_transactions" H2) as Ht2.
    pose proof (field2_setitem2 _ _ _ _ _ "abnormal_transactions" H2) as Ha2.
    simpl in Ht2, Ha2. rewrite Ht1 in Ht2.
    rewrite !(field2_setitem_other _ _ _ _ "monitoring" _ H3) by reflexivity.
    auto.
Qed.

Lemma counters_le_process self tx v w v' w' :
  counters_le v -> process_tx self tx v w = (Ok v', w') -> counters_le v'.
Proof.
  intros (t & a & Ht & Ha & Hle) H.
  destruct (process_tx_counters _ _ _ _ _ _ _ _ H Ht Ha) as (b & _ & Ht' & Ha').
  exists (t + 1), (if b then a else a + 1). repeat split; auto.
  destruct b; lia.
Qed.

Lemma txs_bounded_initial self x : txs_bounded (initial_data self x).
Proof. exists []. split; [reflexivity | simpl; lia]. Qed.

Lemma txs_bounded_set v k x v' :
  txs_bounded v -> py_setitem2 v "monitoring" k x = Ok v' ->
  k = "start_time" \/ k = "last_processed_tx" -> txs_bounded v'.
Proof.
  intros (l & Hl & Hle) H _. exists l. split; [|exact Hle].
  now rewrite (getitem_setitem2_other _ _ _ _ _ "abnormal_txs" H).
Qed.

(** What [process_tx] does to the history *)
Lemma process_tx_history self tx v w v' w' l :
  process_tx self tx v w = (Ok v', w') ->
  py_getitem v "abnormal_txs" = Ok (PList l) ->
  exists b, is_target_pair_transaction self tx = Ok b /\
    if b then py_getitem v' "abnormal_txs" = Ok (PList l)
    else exists r, abnormal_record tx = Ok r /\
      py_getitem v' "abnormal_txs" = Ok (PList (keep_last 100 (l ++ [r]))).
Proof.
  intros H Hl.
  apply process_tx_inv in H as (v1 & b & H1 & Hb & H).
  exists b. split; [exact Hb|].
  apply incr2_inv in H1 as (old & new & _ & _ & H1).
  pose proof (getitem_setitem2_other _ _ _ _ _ "abnormal_txs" H1 eq_refl) as Hl1.
  rewrite Hl in Hl1.
  destruct b.
  - now subst v'.
  - destruct H as (v2 & r & l2 & H2 & Hr & Hl2 & H3).
    apply incr2_inv in H2 as (old' & new' & _ & _ & H2).
    rewrite (getitem_setitem2_other _ _ _ _ _ "abnormal_txs" H2 eq_refl), Hl1 in Hl2.
    injection Hl2 as <-.
    exists r. split; [exact Hr|].
    now rewrite (getitem_setitem _ _ _ _ "abnormal_txs" H3).
Qed.

Lemma txs_bounded_process self tx v w v' w' :
  txs_bounded v -> process_tx self tx v w = (Ok v', w') -> txs_bounded v'.
Proof.
  intros (l & Hl & Hle) H.
  destruct (process_tx_history _ _ _ _ _ _ _ H Hl) as (b & _ & H').
  destruct b.
  - now exists l.
  - destruct H' as (r & _ & H'). eexists. split; [exact H'|].
    apply keep_last_length.
Qed.

(** ** The state under the stores of a cycle *)

Lemma state_of_inv v s :
  state_of v = Some s ->
  exists d m,
    v = PDict d /\
    dict_get "monitoring" d = Some (PDict m) /\
    dict_get "abnormal_txs" d = Some (PList (st_txs s)) /\
    dict_get "start_time" m = Some (st_start s) /\
    dict_get "total_transactions" m = Some (PInt (st_total s)) /\
    dict_get "abnormal_transactions" m = Some (PInt (st_abnormal s)) /\
    st_last s = match dict_get "last_processed_tx" m with
                | Some x => x
                | None => PNone
                end.
Proof.
  unfold state_of. intros H.
  destruct v as [| | | | | |d]; try discriminate.
  destruct (dict_get "monitoring" d) as [[| | | | | |m]|] eqn:Hm; try discriminate.
  destruct (dict_get "abnormal_txs" d) as [[| | | | |l|]|] eqn:Hl; try discriminate.
  destruct (dict_get "start_time" m) as [st|] eqn:Hst; try discriminate.
  destruct (dict_get "total_transactions" m) as [[| |t| | | |]|] eqn:Ht;
    try discriminate.
  destruct (dict_get "abnormal_transactions" m) as [[| |a| | | |]|] eqn:Ha;
    try discriminate.
  injection H as <-. simpl. exists d, m. repeat split; auto.
Qed.

Lemma state_of_intro d m st last t a l :
  dict_get "monitoring" d = Some (PDict m) ->
  dict_get "abnormal_txs" d = Some (PList l) ->
  dict_get "start_time" m = Some st ->
  dict_get "total_transactions" m = Some (PInt t) ->
  dict_get "abnormal_transactions" m = Some (PInt a) ->
  last = match dict_get "last_processed_tx" m with
         | Some x => x
         | None => PNone
         end ->
  state_of (PDict d) = Some (mkState st last t a l).
Proof.
  intros Hm Hl Hst Ht Ha ->. unfold state_of. now rewrite Hm, Hl, Hst, Ht, Ha.
Qed.

Lemma storable_inv d m :
  storable (PDict d) = true -> dict_get "monitoring" d = Some (PDict m) ->
  json_ok_except "monitoring" d = true /\ json_ok_except "start_time" m = true.
Proof.
  simpl. intros H Hm. rewrite Hm in H. now apply andb_true_iff in H.
Qed.

Lemma storable_intro d m :
  json_ok_except "monitoring" d = true -> json_ok_except "start_time" m = true ->
  dict_get "monitoring" d = Some (PDict m) -> storable (PDict d) = true.
Proof. simpl. intros H1 H2 H3. now rewrite H1, H3, H2. Qed.

Lemma storable_set_monitoring d m k x :
  dict_get "monitoring" d = Some (PDict m) ->
  json_ok x = true \/ k = "start_time" ->
  storable (PDict d) = true ->
  storable (PDict (dict_set "monitoring" (PDict (dict_set k x m)) d)) = true.
Proof.
  intros Hm Hx H. destruct (storable_inv _ _ H Hm) as [H1 H2].
  apply storable_intro with (m := dict_set k x m).
  - now apply json_ok_except_set_same.
  - destruct Hx as [Hx | ->].
    + destruct (String.eqb "start_time" k) eqn:E.
      * apply String.eqb_eq in E. subst k. now apply json_ok_except_set_same.
      * now apply json_ok_except_set_other.
    + now apply json_ok_except_set_same.
  - now rewrite dict_get_set.
Qed.

Ltac set_monitoring Hs k x :=
  let d := fresh "d" in let m := fresh "m" in
  let Hm := fresh "Hm" in
  apply state_of_inv in Hs as (d & m & -> & Hm & ? & ? & ? & ? & ?);
  eexists; split; [apply setitem2_run; exact Hm|];
  split;
  [ apply state_of_intro with (m := dict_set k x m);
    rewrite ?dict_get_set; simpl; auto
  | apply storable_set_monitoring; auto ].

(** [data['monitoring']['start_time'] = x] on the state *)
Lemma state_set_start v s x :
  state_of v = Some s ->
  exists v', py_setitem2 v "monitoring" "start_time" x = Ok v' /\
    state_of v' = Some (mkState x (st_last s) (st_total s) (st_abnormal s) (st_txs s)) /\
    (storable v = true -> storable v' = true).
Proof. intros Hs. set_monitoring Hs "start_time" x. Qed.

(** [data['monitoring']['last_processed_tx'] = x] on the state *)
Lemma state_set_last v s x :
  state_of v = Some s -> json_ok x = true ->
  exists v', py_setitem2 v "monitoring" "last_processed_tx" x = Ok v' /\
    state_of v' = Some (mkState (st_start s) x (st_total s) (st_abnormal s) (st_txs s)) /\
    (storable v = true -> storable v' = true).
Proof. intros Hs Hx. set_monitoring Hs "last_processed_tx" x. Qed.

(** [data['monitoring']['total_transactions'] += 1] on the state *)
Lemma state_incr_total v s :
  state_of v = Some s ->
  exists v', py_incr2 v "monitoring" "total_transactions" = Ok v' /\
    state_of v' = Some (mkState (st_start s) (st_last s) (st_total s + 1)
                          (st_abnormal s) (st_txs s)) /\
    (storable v = true -> storable v' = true).
Proof.
  intros Hs.
  assert (Hf : field2 v "monitoring" "total_transactions" = Some (PInt (st_total s))).
  { apply state_of_inv in Hs as (d & m & -> & Hm & _ & _ & Ht & _).
    unfold field2. simpl. rewrite Hm. simpl. now rewrite Ht. }
  rewrite (incr2_run _ _ _ _ _ Hf eq_refl).
  set_monitoring Hs "total_transactions" (PInt (st_total s + 1)).
Qed.

(** [data['monitoring']['abnormal_transactions'] += 1] on the state *)
Lemma state_incr_abnormal v s :
  state_of v = Some s ->
  exists v', py_incr2 v "monitoring" "abnormal_transactions" = Ok v' /\
    state_of v' = Some (mkState (st_start s) (st_last s) (st_total s)
                          (st_abnormal s + 1) (st_txs s)) /\
    (storable v = true -> storable v' = true).
Proof.
  intros Hs.
  assert (Hf : field2 v "monitoring" "abnormal_transactions"
               = Some (PInt (st_abnormal s))).
  { apply state_of_inv in Hs as (d & m & -> & Hm & _ & _ & _ & Ha & _).
    unfold field2. simpl. rewrite Hm. simpl. now rewrite Ha. }
  rewrite (incr2_run _ _ _ _ _ Hf eq_refl).
  set_monitoring Hs "abnormal_transactions" (PInt (st_abnormal s + 1)).
Qed.

(** [data['abnormal_txs'] = l] on the state *)
Lemma state_set_txs v s l :
  state_of v = Some s -> json_ok (PList l) = true ->
  exists v', py_setitem v "abnormal_txs" (PList l) = Ok v' /\
    state_of v' = Some (mkState (st_start s) (st_last s) (st_total s)
                          (st_abnormal s) l) /\
    (storable v = true -> storable v' = true).
Proof.
  intros Hs Hl.
  apply state_of_inv in Hs as (d & m & -> & Hm & ? & ? & ? & ? & ?).
  eexists. split; [reflexivity|]. split.
  - apply state_of_intro with (m := m); rewrite ?dict_get_set; simpl; auto.
  - intros Hsto. destruct (storable_inv _ _ Hsto Hm) as [Hd1 Hd2].
    apply storable_intro with (m := m); [|exact Hd2|now rewrite dict_get_set].
    now apply json_ok_except_set_other.
Qed.

(** ** Well-formed transactions *)

Lemma well_formed_tx_hash tx :
  well_formed_tx tx = true -> exists h, py_getitem tx "hash" = Ok (PStr h).
Proof.
  destruct tx as [| | | | | |d]; try discriminate. unfold well_formed_tx.
  destruct (dict_get "hash" d) as [[| | |h| | |]|] eqn:Hh; try discriminate.
  intros _. exists h. simpl. now rewrite Hh.
Qed.

Lemma well_formed_tx_json tx : well_formed_tx tx = true -> json_ok tx = true.
Proof.
  destruct tx as [| | | | | |d]; try discriminate. unfold well_formed_tx.
  intros H. now apply andb_true_iff in H as [_ H].
Qed.

Lemma well_formed_tx_target self tx :
  well_formed_tx tx = true -> configured self = true ->
  is_target_pair_transaction self tx = Ok (expected self tx).
Proof.
  intros Hwf Hc.
  assert (H : exists b, is_target_pair_transaction self tx = Ok b).
  { destruct tx as [| | | | | |d]; try discriminate. unfold well_formed_tx in Hwf.
    apply andb_true_iff in Hwf as [Hwf _].
    apply andb_true_iff in Hwf as [_ Hto].
    unfold configured in Hc. apply andb_true_iff in Hc as [Hb Hq].
    destruct (base_token_address self) as [| | |b| | |] eqn:Eb; try discriminate.
    destruct (quote_token_address self) as [| | |q| | |] eqn:Eq; try discriminate.
    unfold is_target_pair_transaction.
    destruct (dict_get "to" d) as [[| | | | | |to]|] eqn:Eto; try discriminate.
    2: { exists false. simpl. now rewrite Eto. }
    assert (E1 : py_get (PDict d) "to" PNone = Ok (PDict to))
      by (simpl; now rewrite Eto).
    assert (E2 : py_getitem (PDict d) "to" = Ok (PDict to))
      by (simpl; now rewrite Eto).
    rewrite E1. cbn [rbind].
    destruct (py_truthy (PDict to)); cbn [negb]; [|eauto].
    rewrite E2. cbn [rbind].
    assert (Hh : exists h, py_get (PDict to) "hash" (PStr "") = Ok (PStr h)).
    { simpl. destruct (dict_get "hash" to) as [[| | |h| | |]|];
        try discriminate; eauto. }
    destruct Hh as [h Hh]. rewrite Hh, Eb, Eq. cbn [rbind py_lower].
    repeat match goal with
           | |- context [if ?c then _ else _] => destruct c
           end; eauto. }
  destruct H as [b H]. unfold expected. now rewrite H.
Qed.

Lemma py_get_json tx k default v :
  json_ok tx = true -> json_ok default = true ->
  py_get tx k default = Ok v -> json_ok v = true.
Proof.
  destruct tx as [| | | | | |d]; try discriminate. simpl py_get.
  intros Hd Hdef H. destruct (dict_get k d) eqn:Hg; injection H as <-; auto.
  eapply json_ok_dict_get; eauto.
Qed.

Lemma py_getitem_json tx k v :
  json_ok tx = true -> py_getitem tx k = Ok v -> json_ok v = true.
Proof.
  destruct tx as [| | | | | |d]; try discriminate. simpl py_getitem.
  intros Hd H. destruct (dict_get k d) eqn:Hg; [|discriminate].
  injection H as <-. eapply json_ok_dict_get; eauto.
Qed.

Lemma py_get_total d k default : exists v, py_get (PDict d) k default = Ok v.
Proof. simpl. destruct (dict_get k d); eauto. Qed.

Lemma well_formed_tx_record tx :
  well_formed_tx tx = true ->
  abnormal_record tx = Ok (record_of tx) /\ json_ok (record_of tx) = true.
Proof.
  intros Hwf.
  assert (H : exists r, abnormal_record tx = Ok r /\ json_ok r = true).
  { pose proof (well_formed_tx_json _ Hwf) as Hj.
    destruct tx as [| | | | | |d]; try discriminate. unfold well_formed_tx in Hwf.
    apply andb_true_iff in Hwf as [Hwf _].
    apply andb_true_iff in Hwf as [Hwf Hto].
    apply andb_true_iff in Hwf as [Hh Hts].
    destruct (dict_get "hash" d) as [h|] eqn:Eh; [|discriminate].
    destruct (dict_get "timestamp" d) as [ts|] eqn:Ets; [|discriminate].
    assert (Hto' : exists to, py_get (PDict d) "to" (PDict []) = Ok (PDict to)).
    { simpl. destruct (dict_get "to" d) as [[| | | | | |to]|]; try discriminate; eauto. }
    destruct Hto' as [to Eto].
    pose proof (py_get_json _ _ (PDict []) _ Hj eq_refl Eto) as Hjto.
    assert (Ehash : py_getitem (PDict d) "hash" = Ok h) by (simpl; now rewrite Eh).
    assert (Etime : py_getitem (PDict d) "timestamp" = Ok ts)
      by (simpl; now rewrite Ets).
    destruct (py_get_total d "method" (PStr "Unknown")) as [method Em].
    destruct (py_get_total to "hash" (PStr "Unknown")) as [ta Eta].
    destruct (py_get_total to "name" (PStr "Unknown")) as [tn Etn].
    destruct (py_get_total d "value" (PStr "0")) as [value Ev].
    destruct (py_get_total d "status" (PStr "Unknown")) as [status Est].
    destruct (py_get_total d "gasUsed" (PStr "Unknown")) as [gas Eg].
    unfold abnormal_record.
    rewrite Ehash, Etime, Em, Eto. cbn [rbind].
    rewrite Eta, Etn, Ev, Est, Eg. cbn [rbind].
    eexists. split; [reflexivity|].
    cbn [json_ok forallb snd].
    rewrite (json_ok_dict_get _ _ _ Hj Eh), (json_ok_dict_get _ _ _ Hj Ets).
    rewrite (py_get_json _ _ (PStr "Unknown") _ Hj eq_refl Em).
    rewrite (py_get_json _ _ (PStr "Unknown") _ Hjto eq_refl Eta).
    rewrite (py_get_json _ _ (PStr "Unknown") _ Hjto eq_refl Etn).
    rewrite (py_get_json _ _ (PStr "0") _ Hj eq_refl Ev).
    rewrite (py_get_json _ _ (PStr "Unknown") _ Hj eq_refl Est).
    rewrite (py_get_json _ _ (PStr "Unknown") _ Hj eq_refl Eg).
    reflexivity. }
  destruct H as (r & H & Hr). unfold record_of. rewrite H. auto.
Qed.

Lemma json_ok_list_app l x :
  json_ok (PList l) = true -> json_ok x = true -> json_ok (PList (l ++ [x])) = true.
Proof.
  simpl. intros Hl Hx. rewrite forallb_app, Hl. simpl. now rewrite Hx.
Qed.

Lemma json_ok_keep_last n l :
  json_ok (PList l) = true -> json_ok (PList (keep_last n l)) = true.
Proof.
  simpl. intros Hl. rewrite forallb_forall in *. intros x Hx. apply Hl.
  unfold keep_last in Hx.
  rewrite <- (firstn_skipn (List.length l - n) l). apply in_or_app. now right.
Qed.

Lemma storable_txs v s :
  state_of v = Some s -> storable v = true -> json_ok (PList (st_txs s)) = true.
Proof.
  intros Hs H.
  apply state_of_inv in Hs as (d & m & -> & Hm & Hl & _).
  destruct (storable_inv _ _ H Hm) as [H1 _].
  eapply json_ok_except_get; eauto.
Qed.

(** ** The processing loop on the state *)

Lemma process_tx_state self tx v s w :
  state_of v = Some s -> storable v = true ->
  well_formed_tx tx = true -> configured self = true ->
  exists v' w',
    process_tx self tx v w = (Ok v', w') /\
    disk w' = disk w /\ written w' = written w /\
    state_of v' = Some (count_tx self s tx) /\ storable v' = true.
Proof.
  intros Hs Hst Hwf Hc.
  destruct (state_incr_total _ _ Hs) as (v1 & H1 & Hs1 & Hst1).
  pose proof (well_formed_tx_target _ _ Hwf Hc) as Hb.
  destruct (well_formed_tx_record _ Hwf) as [Hr Hrj].
  destruct (state_incr_abnormal _ _ Hs1) as (v2 & H2 & Hs2 & Hst2). simpl in Hs2.
  assert (Hl : py_getitem v2 "abnormal_txs" = Ok (PList (st_txs s))).
  { apply state_of_inv in Hs2 as (d & m & -> & _ & Hl & _). simpl in *.
    now rewrite Hl. }
  destruct (process_tx_run self tx v w v1 (expected self tx) H1 Hb)
    as (v' & w' & Hrun & Hd & Hw & Hv').
  { destruct (expected self tx); [exact I|]. exists v2, (record_of tx), (st_txs s). auto. }
  exists v', w'. repeat split; auto; unfold count_tx; destruct (expected self tx).
  - now subst v'.
  - destruct Hv' as (v2' & r & l & H2' & Hr' & Hl' & Hset).
    rewrite H2 in H2'. injection H2' as <-. rewrite Hr in Hr'. injection Hr' as <-.
    rewrite Hl in Hl'. injection Hl' as <-.
    destruct (state_set_txs v2 _ (keep_last 100 (st_txs s ++ [record_of tx])) Hs2)
      as (v3 & H3 & Hs3 & _).
    { apply json_ok_keep_last, json_ok_list_app; auto.
      eapply storable_txs; eauto. }
    rewrite Hset in H3. injection H3 as <-. exact Hs3.
  - subst v'. auto.
  - destruct Hv' as (v2' & r & l & H2' & Hr' & Hl' & Hset).
    rewrite H2 in H2'. injection H2' as <-. rewrite Hr in Hr'. injection Hr' as <-.
    rewrite Hl in Hl'. injection Hl' as <-.
    destruct (state_set_txs v2 _ (keep_last 100 (st_txs s ++ [record_of tx])) Hs2)
      as (v3 & H3 & _ & Hst3).
    { apply json_ok_keep_last, json_ok_list_app; auto.
      eapply storable_txs; eauto. }
    rewrite Hset in H3. injection H3 as <-. auto.
Qed.

Lemma for_each_process_state self txs : forall v s w,
  state_of v = Some s -> storable v = true ->
  forallb well_formed_tx txs = true -> configured self = true ->
  exists v' w',
    for_each txs v (process_tx self) w = (Ok v', w') /\
    disk w' = disk w /\ written w' = written w /\
    state_of v' = Some (fold_left (count_tx self) txs s) /\ storable v' = true.
Proof.
  induction txs as [|tx txs IH]; intros v s w Hs Hst Hwf Hc; simpl.
  - exists v, w. unfold ret. auto.
  - simpl in Hwf. apply andb_true_iff in Hwf as [Htx Hwf].
    destruct (process_tx_state self tx v s w Hs Hst Htx Hc)
      as (v1 & w1 & Hrun & Hd & Hw & Hs1 & Hst1).
    destruct (IH v1 _ w1 Hs1 Hst1 Hwf Hc) as (v' & w' & Hrun' & Hd' & Hw' & Hs' & Hst').
    exists v', w'. rewrite (bind_run _ _ _ _ _ Hrun). repeat split; auto; congruence.
Qed.

Lemma collect_new_state items : forall v s,
  state_of v = Some s -> forallb well_formed_tx items = true ->
  collect_new items v = Ok (new_prefix (st_last s) items).
Proof.
  induction items as [|tx items IH]; intros v s Hs Hwf; simpl; [reflexivity|].
  simpl in Hwf. apply andb_true_iff in Hwf as [Htx Hwf].
  destruct (well_formed_tx_hash _ Htx) as [h Hh].
  unfold tx_hash. rewrite Hh. cbn [rbind].
  pose proof Hs as Hs'.
  apply state_of_inv in Hs' as (d & m & -> & Hm & _ & _ & _ & _ & Hlast).
  assert (Hget : py_get (PDict m) "last_processed_tx" PNone = Ok (st_last s)).
  { simpl. rewrite Hlast. now destruct (dict_get "last_processed_tx" m). }
  assert (Hmon : py_getitem (PDict d) "monitoring" = Ok (PDict m))
    by (simpl; now rewrite Hm).
  rewrite Hmon. cbn [rbind]. rewrite Hget. cbn [rbind].
  destruct (py_eq (PStr h) (st_last s)); [reflexivity|].
  now rewrite (IH _ _ Hs Hwf).
Qed.

Lemma new_prefix_well_formed last items :
  forallb well_formed_tx items = true ->
  forallb well_formed_tx (new_prefix last items) = true.
Proof.
  induction items as [|tx items IH]; simpl; [reflexivity|].
  intros H. apply andb_true_iff in H as [Htx H].
  destruct (py_eq (tx_hash tx) last); simpl; [reflexivity|].
  now rewrite Htx, IH.
Qed.

(** ** Loading and saving *)

Lemma load_data_state w v s :
  disk w = Some (Doc v) -> state_of v = Some s -> json_ok v = true ->
  start_ok s ->
  exists loaded sl,
    load_data w = (Ok loaded, w) /\ py_truthy loaded = true /\
    state_of loaded = Some sl /\ storable loaded = true /\
    st_last sl = st_last s /\ st_total sl = st_total s /\
    st_abnormal sl = st_abnormal s /\ st_txs sl = st_txs s /\
    match parsed_start s with
    | Some t => st_start sl = PDatetime t
    | None => py_truthy (st_start sl) = false
    end.
Proof.
  intros Hd Hs Hj Hok.
  assert (Hst : storable v = true).
  { pose proof Hs as Hs'.
    apply state_of_inv in Hs' as (d & m & -> & Hm & _).
    apply storable_intro with (m := m); auto.
    - now apply json_ok_except_of_json.
    - apply json_ok_except_of_json. eapply json_ok_dict_get; eauto. }
  assert (Htr : py_truthy v = true).
  { pose proof Hs as Hs'.
    apply state_of_inv in Hs' as (d & m & -> & Hm & _). now destruct d. }
  pose proof Hs as Hs'.
  apply state_of_inv in Hs' as (d & m & -> & Hm & _ & Hstart & _).
  assert (Hg : py_get (PDict d) "monitoring" (PDict []) = Ok (PDict m))
    by (simpl; now rewrite Hm).
  assert (Hg2 : py_get (PDict m) "start_time" PNone = Ok (st_start s))
    by (simpl; now rewrite Hstart).
  assert (Hg3 : py_getitem (PDict d) "monitoring" = Ok (PDict m))
    by (simpl; now rewrite Hm).
  assert (Hg4 : py_getitem (PDict m) "start_time" = Ok (st_start s))
    by (simpl; now rewrite Hstart).
  unfold load_data, try_except, bind, open_read, lift, ret, raise.
  rewrite Hd. cbv beta iota. cbn [json_load]. rewrite Hg, Hg2. cbv beta iota.
  destruct (py_truthy (st_start s)) eqn:Etr.
  - destruct Hok as [Hok | [t Ht]]; [congruence|].
    rewrite Ht. unfold parsed_start in Ht.
    destruct (st_start s) as [| | |text| | |] eqn:Est; try discriminate.
    destruct (String.eqb text ""); [discriminate|].
    rewrite Hg3, Hg4. cbv beta iota. cbn [py_replace_Z]. rewrite Ht.
    destruct (state_set_start _ _ (PDatetime t) Hs) as (v' & Hset & Hs' & Hst').
    rewrite Hset. cbv beta iota.
    eexists v', _. split; [reflexivity|]. split; [|split; [exact Hs'|]].
    + apply setitem2_inv in Hset as (d' & m' & _ & _ & ->). simpl.
      destruct (dict_set "monitoring" _ d') eqn:E; [|reflexivity].
      now apply dict_set_nonempty in E.
    + cbn. auto 10.
  - exists (PDict d), s. repeat split; auto.
    unfold parsed_start.
    destruct (st_start s) as [| | |text| | |]; try exact Etr.
    simpl in Etr.
    destruct (String.eqb text "") eqn:Ee; [simpl; now rewrite Ee | discriminate].
Qed.

Lemma stringify_start_time_state v s t :
  state_of v = Some s -> st_start s = PDatetime t -> storable v = true ->
  exists v',
    stringify_start_time v = Ok v' /\
    state_of v' = Some (mkState (PStr (isoformat t)) (st_last s) (st_total s)
                          (st_abnormal s) (st_txs s)) /\
    json_ok v' = true.
Proof.
  intros Hs Hstart Hst.
  destruct (state_set_start _ _ (PStr (isoformat t)) Hs) as (v' & Hset & Hs' & _).
  exists v'. split; [|split; [exact Hs'|]].
  - apply state_of_inv in Hs as (d & m & -> & Hm & _ & Hst0 & _).
    unfold stringify_start_time. simpl. rewrite Hm. simpl. rewrite Hst0, Hstart.
    simpl. exact Hset.
  - apply state_of_inv in Hs as (d & m & -> & Hm & _).
    destruct (storable_inv _ _ Hst Hm) as [H1 H2].
    rewrite (setitem2_run _ _ _ _ _ Hm) in Hset. injection Hset as <-.
    apply json_ok_of_except; [exact H1|].
    now apply json_ok_of_except.
Qed.

Lemma save_data_run v v' w :
  stringify_start_time v = Ok v' -> json_ok v' = true ->
  save_data v w =
    (Ok v', mkWorld (Some (Doc v')) (written w ++ [Junk; Doc v']) (log w)).
Proof.
  intros Hs Hj. unfold save_data. rewrite Hs.
  unfold try_except, bind, open_write, json_dump, set_file, ret. rewrite Hj.
  simpl. now rewrite <- app_assoc.
Qed.

(** ** A whole cycle on a well-formed page *)

Lemma count_tx_keeps self s tx :
  st_start (count_tx self s tx) = st_start s /\
  st_last (count_tx self s tx) = st_last s.
Proof. unfold count_tx. now destruct (expected self tx). Qed.

Lemma fold_count_tx_keeps self txs : forall s,
  st_start (fold_left (count_tx self) txs s) = st_start s /\
  st_last (fold_left (count_tx self) txs s) = st_last s.
Proof.
  induction txs as [|tx txs IH]; intros s; simpl; [auto|].
  destruct (IH (count_tx self s tx)) as [H1 H2].
  destruct (count_tx_keeps self s tx) as [H3 H4]. split; congruence.
Qed.

Lemma forallb_rev {A} (f : A -> bool) l :
  forallb f l = true -> forallb f (rev l) = true.
Proof.
  rewrite !forallb_forall. intros H x Hx. apply H. now apply in_rev.
Qed.

Lemma cycle_run self now resp items w loaded w1 s0 t0 :
  dict_get "items" resp = Some (PList items) ->
  forallb well_formed_tx items = true ->
  configured self = true ->
  load_data w = (Ok loaded, w1) ->
  let data0 := if negb (py_truthy loaded)
               then initial_data self (PDatetime (utc now)) else loaded in
  state_of data0 = Some s0 -> storable data0 = true ->
  (st_start s0 = PDatetime t0 \/
   (py_truthy (st_start s0) = false /\ t0 = utc now)) ->
  exists v' w',
    analyze_transactions self now (Some (PDict resp)) w = (Ok tt, w') /\
    disk w' = Some (Doc v') /\
    written w' = (written w ++ [Junk; Doc v'])%list /\
    state_of v' = Some (cycle_from self t0 s0 items) /\
    json_ok v' = true.
Proof.
  intros Hitems Hwf Hc Hload data0 Hs0 Hst0 Hstart.
  destruct (keeps_load_data w) as [Hd1 Hw1]. rewrite Hload in Hd1, Hw1.
  simpl in Hd1, Hw1.
  unfold analyze_transactions.
  unfold get_transactions. rewrite (bind_run _ _ w (PDict resp) w eq_refl).
  assert (Htruthy : py_truthy (PDict resp) = true) by (now destruct resp).
  rewrite Htruthy. simpl negb. cbv iota.
  assert (Hmiss : (has <- lift (py_contains "items" (PDict resp)) ;; ret (negb has)) w
                  = (Ok false, w)).
  { unfold bind, lift, ret. simpl. now rewrite Hitems. }
  rewrite (bind_run _ _ _ _ _ Hmiss). cbv iota.
  rewrite (bind_run _ _ _ _ _ Hload). fold data0.
  (* the start time *)
  pose proof Hs0 as Hinv.
  apply state_of_inv in Hinv as (d & m & Hv & Hm & _ & Hst & _).
  assert (Hg1 : py_getitem data0 "monitoring" = Ok (PDict m)).
  { rewrite Hv. simpl. now rewrite Hm. }
  assert (Hg2 : py_getitem (PDict m) "start_time" = Ok (st_start s0)).
  { simpl. now rewrite Hst. }
  rewrite (bind_lift _ _ _ _ Hg1), (bind_lift _ _ _ _ Hg2).
  set (s1 := mkState (PDatetime t0) (st_last s0) (st_total s0) (st_abnormal s0)
               (st_txs s0)).
  assert (Hstep1 : exists data1,
    (if negb (py_truthy (st_start s0))
     then lift (py_setitem2 data0 "monitoring" "start_time" (PDatetime (utc now)))
     else ret data0) w1 = (Ok data1, w1) /\
    state_of data1 = Some s1 /\ storable data1 = true).
  { destruct Hstart as [Hdt | [Hf ->]].
    - rewrite Hdt. simpl. exists data0. repeat split; auto.
      rewrite Hs0. subst s1. rewrite <- Hdt. now destruct s0.
    - rewrite Hf. simpl.
      destruct (state_set_start _ _ (PDatetime (utc now)) Hs0) as (v1 & H1 & Hs1 & Hst1).
      exists v1. unfold lift. rewrite H1. auto. }
  destruct Hstep1 as (data1 & Hrun1 & Hs1 & Hst1).
  rewrite (bind_run _ _ _ _ _ Hrun1).
  (* the new transactions *)
  assert (Hg3 : py_getitem (PDict resp) "items" = Ok (PList items)).
  { simpl. now rewrite Hitems. }
  rewrite (bind_lift _ _ _ _ Hg3).
  rewrite (bind_lift (py_iter (PList items)) _ _ items eq_refl).
  rewrite (bind_lift _ _ _ _ (collect_new_state _ _ _ Hs1 Hwf)).
  simpl st_last.
  (* the high-water mark *)
  set (s2 := mkState (PDatetime t0)
               (match items with tx :: _ => tx_hash tx | [] => st_last s0 end)
               (st_total s0) (st_abnormal s0) (st_txs s0)).
  assert (Hstep2 : exists data2,
    (if py_truthy (PList items)
     then newest <- lift (py_first (PList items)) ;;
          hash <- lift (py_getitem newest "hash") ;;
          lift (py_setitem2 data1 "monitoring" "last_processed_tx" hash)
     else ret data1) w1 = (Ok data2, w1) /\
    state_of data2 = Some s2 /\ storable data2 = true).
  { destruct items as [|tx items'].
    - simpl. exists data1. auto.
    - simpl in Hwf. apply andb_true_iff in Hwf as [Htx _].
      destruct (well_formed_tx_hash _ Htx) as [h Hh].
      destruct (state_set_last _ _ (PStr h) Hs1 eq_refl) as (v2 & H2 & Hs2 & Hst2).
      exists v2. simpl py_truthy. cbv iota.
      unfold bind, lift. simpl. rewrite Hh, H2. repeat split; auto.
      rewrite Hs2. subst s2. unfold tx_hash. now rewrite Hh. }
  destruct Hstep2 as (data2 & Hrun2 & Hs2 & Hst2).
  rewrite (bind_run _ _ _ _ _ Hrun2).
  (* the processing loop *)
  destruct (for_each_process_state self (rev (new_prefix (st_last s0) items))
              data2 s2 w1 Hs2 Hst2) as (data3 & w3 & Hrun3 & Hd3 & Hw3 & Hs3 & Hst3).
  { apply forallb_rev, new_prefix_well_formed, Hwf. }
  { exact Hc. }
  rewrite (bind_run _ _ _ _ _ Hrun3).
  (* saving *)
  destruct (fold_count_tx_keeps self (rev (new_prefix (st_last s0) items)) s2)
    as [Hk1 Hk2].
  destruct (stringify_start_time_state _ _ t0 Hs3 Hk1 Hst3) as (v' & Hstr & Hs' & Hj').
  rewrite (bind_run _ _ _ _ _ (save_data_run _ _ w3 Hstr Hj')).
  unfold ret. eexists v', _. split; [reflexivity|]. simpl.
  repeat split; auto.
  - now rewrite Hw3, Hw1.
Qed.

Lemma save_data_returns data w :
  exists data' w', save_data data w = (Ok data', w').
Proof.
  unfold save_data. destruct (stringify_start_time data) as [data'|e].
  - unfold try_except, bind, open_write, json_dump, set_file, raise, ret, logging.
    simpl. destruct (json_ok data'); simpl; eauto.
  - unfold bind, logging, ret. simpl. eauto.
Qed.

(** ** The classifier *)

Lemma nat_of_lower_ascii c :
  nat_of_ascii (lower_ascii c) =
    (if (65 <=? nat_of_ascii c) && (nat_of_ascii c <=? 90)
     then nat_of_ascii c + 32 else nat_of_ascii c)%nat.
Proof.
  unfold lower_ascii. cbv zeta.
  destruct ((65 <=? nat_of_ascii c)%nat && (nat_of_ascii c <=? 90)%nat) eqn:E;
    [|reflexivity].
  apply nat_ascii_embedding. apply andb_true_iff in E as [_ E].
  apply Nat.leb_le in E. lia.
Qed.

Lemma same_letter_lower a b :
  same_letter a b = Ascii.eqb (lower_ascii a) (lower_ascii b).
Proof.
  assert (H : lower_ascii a = lower_ascii b <->
              nat_of_ascii (lower_ascii a) = nat_of_ascii (lower_ascii b)).
  { split; [now intros ->|]. intros H.
    rewrite <- (ascii_nat_embedding (lower_ascii a)), H.
    apply ascii_nat_embedding. }
  rewrite !nat_of_lower_ascii in H.
  apply Bool.eq_true_iff_eq. rewrite Ascii.eqb_eq, H.
  unfold same_letter. cbv zeta.
  generalize (nat_of_ascii a) (nat_of_ascii b). intros m n.
  destruct (Nat.leb_spec 65 m), (Nat.leb_spec m 90), (Nat.leb_spec 65 n),
    (Nat.leb_spec n 90), (Nat.eqb_spec m n), (Nat.eqb_spec n (m + 32)),
    (Nat.eqb_spec m (n + 32)); cbn [andb orb]; split; intros; try lia;
    reflexivity || discriminate.
Qed.

Lemma eq_ignoring_case_lower s : forall t,
  eq_ignoring_case s t = String.eqb (lower s) (lower t).
Proof.
  induction s as [|a s IH]; intros [|b t]; cbn [eq_ignoring_case lower String.eqb];
    try reflexivity.
  rewrite IH, same_letter_lower.
  now destruct (Ascii.eqb (lower_ascii a) (lower_ascii b)).
Qed.

(** C2. [is_target_pair_transaction] answers [False] for a transaction
    whose [to] is missing, null or otherwise empty, whatever the tokens;
    and, both tokens having an address, for a transaction sent to [h] (the
    empty text when the [to] object has no [hash]) it answers [True]
    exactly when [h] is, up to the case of its letters, one of the two DEX
    router addresses or the address of the base or of the quote token, and
    [False] for every other destination. *)
Theorem is_target_pair_transaction_allowlist (self : monitor) :
  (forall d,
     match dict_get "to" d with
     | Some to => py_truthy to = false
     | None => True
     end ->
     is_target_pair_transaction self (PDict d) = Ok false) /\
  (forall d to h b q,
     base_token_address self = PStr b ->
     quote_token_address self = PStr q ->
     dict_get "to" d = Some (PDict to) -> to <> [] ->
     dict_get "hash" to = Some (PStr h) \/ (dict_get "hash" to = None /\ h = "") ->
     is_target_pair_transaction self (PDict d) =
       Ok (existsb (eq_ignoring_case h)
             [ "0xb789922D715475F419b7CB47B6155bF7a2ACECD6";
               "0x81606E6f8aAD6C75c2f383Ea595c2b9f8ce8aE3a"; b; q ])).
Proof.
  split.
  - intros d Hto. unfold is_target_pair_transaction.
    assert (E : exists to, py_get (PDict d) "to" PNone = Ok to /\
                           py_truthy to = false).
    { simpl. destruct (dict_get "to" d) as [to|]; eauto. }
    destruct E as (to & E & Etr). rewrite E. cbn [rbind]. now rewrite Etr.
  - intros d to h b q Hb Hq Hto Hne Hh.
    assert (Etr : py_truthy (PDict to) = true)
      by (destruct to; [contradiction | reflexivity]).
    assert (E1 : py_get (PDict d) "to" PNone = Ok (PDict to))
      by (simpl; now rewrite Hto).
    assert (E2 : py_getitem (PDict d) "to" = Ok (PDict to))
      by (simpl; now rewrite Hto).
    assert (E3 : py_get (PDict to) "hash" (PStr "") = Ok (PStr h)).
    { cbn [py_get]. destruct Hh as [-> | [-> ->]]; reflexivity. }
    unfold is_target_pair_transaction.
    rewrite E1. cbn [rbind]. rewrite Etr. cbn [negb]. rewrite E2. cbn [rbind].
    rewrite E3, Hb, Hq. cbn [rbind py_lower].
    change (dict_values DEX_CONTRACTS)
      with [ lower "0xb789922D715475F419b7CB47B6155bF7a2ACECD6";
             lower "0x81606E6f8aAD6C75c2f383Ea595c2b9f8ce8aE3a" ].
    cbn [existsb]. rewrite !eq_ignoring_case_lower.
    repeat match goal with
           | |- context [String.eqb (lower h) ?x] =>
               destruct (String.eqb (lower h) x); cbn [orb]; try reflexivity
           end.
Qed.

(** ** Fetch failures *)

(** C5. When the request fails, or the reply is an object without an
    [items] field, [analyze_transactions] returns normally, the data file
    is as it was and has not been written, and the last thing logged is
    the error "Failed to fetch transactions". *)
Theorem fetch_failure_leaves_store self now upstream w :
  upstream = None \/
  (exists d, upstream = Some (PDict d) /\ dict_get "items" d = None) ->
  exists w',
    analyze_transactions self now upstream w = (Ok tt, w') /\
    disk w' = disk w /\ written w' = written w /\
    exists earlier,
      log w' = (log w ++ earlier ++ [(ERROR, [Lit "Failed to fetch transactions"])])%list.
Proof.
  intros [-> | (d & -> & Hd)].
  - unfold analyze_transactions, get_transactions.
    eexists. unfold bind, logging, ret. simpl. repeat split.
    exists [(ERROR, [Lit "Error fetching transactions: "; Lit "RequestException"])].
    now rewrite <- app_assoc.
  - assert (Hmiss : (if negb (py_truthy (PDict d)) then ret true
                     else has <- lift (py_contains "items" (PDict d)) ;;
                          ret (negb has)) w = (Ok true, w)).
    { destruct d as [|kv d']; [reflexivity|].
      assert (Hc : py_contains "items" (PDict (kv :: d')) = Ok false)
        by (cbn [py_contains]; now rewrite Hd).
      cbn [py_truthy negb]. now rewrite (bind_lift _ _ _ _ Hc). }
    unfold analyze_transactions, get_transactions.
    rewrite (bind_run _ _ w (PDict d) w eq_refl).
    rewrite (bind_run _ _ _ _ _ Hmiss).
    eexists. split; [reflexivity|]. simpl. repeat split. now exists [].
Qed.

(** ** Saving *)

Lemma save_data_cases data w :
  match stringify_start_time data with
  | Raise e =>
      save_data data w =
        (Ok data, mkWorld (disk w) (written w)
                    (log w ++ [(ERROR, [Lit "Error saving data: "; Exc e])]))
  | Ok data' =>
      if json_ok data' then
        save_data data w =
          (Ok data', mkWorld (Some (Doc data')) (written w ++ [Junk; Doc data'])
                       (log w))
      else
        save_data data w =
          (Ok data', mkWorld (Some Junk) (written w ++ [Junk])
                       (log w ++ [(ERROR, [Lit "Error saving data: "; Exc TypeError])]))
  end.
Proof.
  destruct (stringify_start_time data) as [data'|e] eqn:Hs.
  - destruct (json_ok data') eqn:Hj.
    + now apply save_data_run.
    + unfold save_data. rewrite Hs.
      unfold try_except, bind, open_write, json_dump, set_file, raise, ret, logging.
      rewrite Hj. reflexivity.
  - unfold save_data. rewrite Hs. reflexivity.
Qed.

(** C6, as the code has it. [save_data] rewrites the file in place and
    lets no exception out.  When its first statement raises, the file is
    untouched and the error is logged.  Otherwise the file is truncated on
    opening, so that it holds no record; when the record can be
    serialised the file holds the complete record next, and when it cannot
    the file stays truncated and the error is logged. *)
Theorem save_data_in_place data w :
  let after := snd (save_data data w) in
  (exists data', fst (save_data data w) = Ok data') /\
  match stringify_start_time data with
  | Raise e =>
      disk after = disk w /\ written after = written w /\
      log after = (log w ++ [(ERROR, [Lit "Error saving data: "; Exc e])])%list
  | Ok data' =>
      if json_ok data' then
        written after = (written w ++ [Junk; Doc data'])%list /\
        disk after = Some (Doc data') /\ log after = log w
      else
        written after = (written w ++ [Junk])%list /\
        disk after = Some Junk /\
        log after =
          (log w ++ [(ERROR, [Lit "Error saving data: "; Exc TypeError])])%list
  end.
Proof.
  pose proof (save_data_cases data w) as H. cbv zeta.
  destruct (stringify_start_time data) as [data'|e].
  - destruct (json_ok data'); rewrite H; simpl; eauto.
  - rewrite H. simpl. eauto.
Qed.

(** C10. [save_data] stores into its argument: called on a record whose
    [start_time] is a [datetime], it leaves the caller's record with the
    ISO text of that instant in its place, and subtracting that from an
    instant raises [TypeError]. *)
Theorem save_data_stringifies_argument d m t w :
  dict_get "monitoring" d = Some (PDict m) ->
  dict_get "start_time" m = Some (PDatetime t) ->
  exists data' w',
    save_data (PDict d) w = (Ok data', w') /\
    field2 (PDict d) "monitoring" "start_time" = Some (PDatetime t) /\
    field2 data' "monitoring" "start_time" = Some (PStr (isoformat t)) /\
    forall now, py_sub_from now (PStr (isoformat t)) = Raise TypeError.
Proof.
  intros Hm Hst.
  assert (Hs : stringify_start_time (PDict d) =
               Ok (PDict (dict_set "monitoring"
                            (PDict (dict_set "start_time" (PStr (isoformat t)) m)) d))).
  { unfold stringify_start_time.
    assert (G1 : py_get (PDict d) "monitoring" (PDict []) = Ok (PDict m))
      by (simpl; now rewrite Hm).
    assert (G2 : py_get (PDict m) "start_time" PNone = Ok (PDatetime t))
      by (simpl; now rewrite Hst).
    assert (G3 : py_getitem (PDict d) "monitoring" = Ok (PDict m))
      by (simpl; now rewrite Hm).
    assert (G4 : py_getitem (PDict m) "start_time" = Ok (PDatetime t))
      by (simpl; now rewrite Hst).
    rewrite G1. cbn [rbind]. rewrite G2. cbn [rbind py_truthy].
    rewrite G3. cbn [rbind]. rewrite G4. cbn [rbind py_isoformat].
    now apply setitem2_run. }
  pose proof (save_data_cases (PDict d) w) as Hsave. rewrite Hs in Hsave.
  assert (Hf : field2 (PDict (dict_set "monitoring"
                 (PDict (dict_set "start_time" (PStr (isoformat t)) m)) d))
                 "monitoring" "start_time" = Some (PStr (isoformat t))).
  { unfold field2. simpl. rewrite dict_get_set. simpl. now rewrite dict_get_set. }
  assert (Hf0 : field2 (PDict d) "monitoring" "start_time" = Some (PDatetime t)).
  { unfold field2. simpl. rewrite Hm. simpl. now rewrite Hst. }
  destruct (json_ok _); eexists _, _; (split; [exact Hsave|]); auto.
Qed.

(** ** Construction *)

(** C7, as the code has it. [__init__] never fails, whatever the token
    symbols: it returns the monitor whose token addresses are what
    [TOKEN_ADDRESSES.get] answers, [None] for a symbol the table does not
    have. *)
Theorem init_accepts_any_symbol address base quote w :
  exists w',
    init address base quote w =
      (Ok (mkMonitor (lower address) base quote
             (token_address base) (token_address quote)
             ("https://explorer-api.morphl2.io/api/v2/addresses/" ++ address
                ++ "/transactions")
             PNone), w') /\
    (dict_get base TOKEN_ADDRESSES = None -> token_address base = PNone) /\
    (dict_get quote TOKEN_ADDRESSES = None -> token_address quote = PNone).
Proof.
  assert (Hb : dict_get base TOKEN_ADDRESSES = None -> token_address base = PNone)
    by (unfold token_address; now intros ->).
  assert (Hq : dict_get quote TOKEN_ADDRESSES = None -> token_address quote = PNone)
    by (unfold token_address; now intros ->).
  unfold init, init_data_file, path_exists.
  set (self := mkMonitor _ _ _ _ _ _ _).
  destruct (disk w) eqn:Hd.
  - exists w. unfold bind, ret. rewrite Hd. cbv beta iota. cbn [negb]. auto.
  - destruct (save_data_returns (initial_data self PNone) w) as (data' & w' & Hs).
    exists w'. unfold bind, ret. rewrite Hd. cbv beta iota. cbn [negb].
    rewrite Hs. auto.
Qed.

(** ** The status page *)

(** C9, where the code fails. On a record that has no [monitoring] block,
    [get_stats] adds the block, saves, and then raises [TypeError]: the
    save has turned the new start time into text, which the duration
    cannot be computed from.  On the same record [analyze_transactions]
    raises [KeyError] on a reply that has items, and writes nothing. *)
Theorem legacy_record_is_rejected now w d :
  disk w = Some (Doc (PDict d)) ->
  d <> [] ->
  dict_get "monitoring" d = None ->
  isoformat (utc now) <> "" ->
  (exists w', get_stats now w = (Raise TypeError, w')) /\
  (forall self resp items,
     dict_get "items" resp = Some items ->
     analyze_transactions self now (Some (PDict resp)) w = (Raise KeyError, w)).
Proof.
  intros Hd Hne Hm Hiso.
  assert (Hload : load_data w = (Ok (PDict d), w)).
  { unfold load_data, try_except, bind, open_read, lift, ret.
    rewrite Hd. simpl. now rewrite Hm. }
  assert (Htr : py_truthy (PDict d) = true) by (now destruct d).
  split.
  - unfold get_stats.
    assert (Hinit : exists self, init "dummy" "ETH" "MPH" w = (Ok self, w)).
    { unfold init, init_data_file, path_exists, bind, ret. rewrite Hd. simpl. eauto. }
    destruct Hinit as [self Hinit].
    rewrite (bind_run _ _ _ _ _ Hinit), (bind_run _ _ _ _ _ Hload), Htr.
    cbn [negb]. cbv iota.
    assert (Hc : py_contains "monitoring" (PDict d) = Ok false).
    { simpl. now rewrite Hm. }
    rewrite (bind_lift _ _ _ _ Hc). cbn [negb]. cbv iota.
    set (block := PDict [ ("start_time", PDatetime (utc now));
                          ("last_processed_tx", PNone);
                          ("total_transactions", PInt 0);
                          ("abnormal_transactions", PInt 0) ]).
    set (data1 := PDict (dict_set "monitoring" block d)).
    set (text := PStr (isoformat (utc now))).
    set (block' := PDict [ ("start_time", text);
                           ("last_processed_tx", PNone);
                           ("total_transactions", PInt 0);
                           ("abnormal_transactions", PInt 0) ]).
    set (data2 := PDict (dict_set "monitoring" block' d)).
    assert (Hstr : stringify_start_time data1 = Ok data2).
    { unfold stringify_start_time, data1, py_setitem2. simpl.
      rewrite dict_get_set. simpl. now rewrite dict_set_set. }
    assert (Hsave : exists w2, save_data data1 w = (Ok data2, w2)).
    { pose proof (save_data_cases data1 w) as H. rewrite Hstr in H.
      destruct (json_ok data2); eauto. }
    destruct Hsave as [w2 Hsave].
    assert (Hrepair : (data <- lift (py_setitem (PDict d) "monitoring" block) ;;
                       save_data data) w = (Ok data2, w2)).
    { unfold bind, lift. simpl. exact Hsave. }
    rewrite (bind_run _ _ _ _ _ Hrepair).
    assert (Hg1 : py_getitem data2 "monitoring" = Ok block').
    { unfold data2. simpl. now rewrite dict_get_set. }
    rewrite (bind_lift _ _ _ _ Hg1).
    rewrite (bind_lift (py_getitem block' "start_time") _ _ text eq_refl).
    assert (Htext : py_truthy text = true).
    { simpl. destruct (String.eqb (isoformat (utc now)) "") eqn:E; [|reflexivity].
      apply String.eqb_eq in E. contradiction. }
    rewrite Htext. eexists. unfold bind at 1. unfold bind at 1. reflexivity.
  - intros self resp items Hitems.
    unfold analyze_transactions, get_transactions.
    rewrite (bind_run _ _ w (PDict resp) w eq_refl).
    assert (Hr : py_truthy (PDict resp) = true) by (now destruct resp).
    rewrite Hr. cbn [negb]. cbv iota.
    assert (Hmiss : (has <- lift (py_contains "items" (PDict resp)) ;; ret (negb has)) w
                    = (Ok false, w)).
    { unfold bind, lift, ret. simpl. now rewrite Hitems. }
    rewrite (bind_run _ _ _ _ _ Hmiss). cbv iota.
    rewrite (bind_run _ _ _ _ _ Hload), Htr. cbn [negb]. cbv iota.
    unfold bind at 1, lift at 1. simpl. now rewrite Hm.
Qed.

(** ** The cycle *)

Lemma new_prefix_split last items :
  exists rest : list pyval,
    items = (new_prefix last items ++ rest)%list /\
    Forall (fun tx => py_eq (tx_hash tx) last = false) (new_prefix last items) /\
    match rest with
    | [] => True
    | tx :: _ => py_eq (tx_hash tx) last = true
    end.
Proof.
  induction items as [|tx items (rest & Hsplit & Hnew & Hrest)]; simpl.
  - exists []. auto.
  - destruct (py_eq (tx_hash tx) last) eqn:E.
    + exists (tx :: items). simpl. auto.
    + exists rest. simpl. rewrite <- Hsplit. auto.
Qed.

Lemma new_prefix_unset items :
  forallb well_formed_tx items = true -> new_prefix PNone items = items.
Proof.
  induction items as [|tx items IH]; simpl; [reflexivity|].
  intros H. apply andb_true_iff in H as [Htx H].
  destruct (well_formed_tx_hash _ Htx) as [h Hh].
  unfold tx_hash. rewrite Hh. simpl. now rewrite IH.
Qed.

Lemma fold_count_tx_counts self txs : forall s s',
  st_total s = st_total s' -> st_abnormal s = st_abnormal s' ->
  st_txs s = st_txs s' ->
  let r := fold_left (count_tx self) txs s in
  let r' := fold_left (count_tx self) txs s' in
  st_total r = st_total r' /\ st_abnormal r = st_abnormal r' /\ st_txs r = st_txs r'.
Proof.
  induction txs as [|tx txs IH]; intros s s' Ht Ha Hl; simpl; [auto|].
  apply IH; unfold count_tx; destruct (expected self tx); simpl; congruence.
Qed.

(** A cycle from a well-formed record in the file *)
Lemma cycle_from_disk self now resp items w v s :
  configured self = true ->
  dict_get "items" resp = Some (PList items) ->
  forallb well_formed_tx items = true ->
  disk w = Some (Doc v) -> state_of v = Some s -> json_ok v = true ->
  start_ok s ->
  exists v' w',
    analyze_transactions self now (Some (PDict resp)) w = (Ok tt, w') /\
    disk w' = Some (Doc v') /\
    written w' = (written w ++ [Junk; Doc v'])%list /\
    state_of v' = Some (cycle_state self now s items) /\
    json_ok v' = true.
Proof.
  intros Hc Hitems Hwf Hd Hs Hj Hok.
  destruct (load_data_state w v s Hd Hs Hj Hok)
    as (loaded & sl & Hload & Htr & Hsl & Hstl & Hlast & Htot & Habn & Htxs & Hstart).
  destruct (cycle_run self now resp items w loaded w sl (started now s)
              Hitems Hwf Hc Hload) as (v' & w' & Hrun & Hd' & Hw' & Hs' & Hj').
  - now rewrite Htr.
  - now rewrite Htr.
  - unfold started. destruct (parsed_start s); auto.
  - exists v', w'. repeat split; auto.
    rewrite Hs'. unfold cycle_state, cycle_from.
    destruct sl as [st la to ab tx]. simpl in *. now subst.
Qed.

(** The high-water mark on a well-formed page, where every [to] is an
    object or absent: the cycle takes as new exactly the items before the
    first one whose hash is the stored [last_processed_tx] (all of them
    when none matches or none is stored), counts them from the oldest to
    the newest, and leaves in the file a record whose [last_processed_tx]
    is the hash of the first item of the page, however many were new. *)
Lemma high_water_mark_advance self now resp items w v s :
  configured self = true ->
  dict_get "items" resp = Some (PList items) ->
  forallb well_formed_tx items = true ->
  disk w = Some (Doc v) -> state_of v = Some s -> json_ok v = true ->
  start_ok s ->
  let new := new_prefix (st_last s) items in
  (exists rest : list pyval,
     items = (new ++ rest)%list /\
     Forall (fun tx => py_eq (tx_hash tx) (st_last s) = false) new /\
     match rest with
     | [] => True
     | tx :: _ => py_eq (tx_hash tx) (st_last s) = true
     end) /\
  (st_last s = PNone -> new = items) /\
  exists v' w' s',
    analyze_transactions self now (Some (PDict resp)) w = (Ok tt, w') /\
    disk w' = Some (Doc v') /\
    state_of v' = Some s' /\
    (let counted := fold_left (count_tx self) (rev new) s in
     st_total s' = st_total counted /\
     st_abnormal s' = st_abnormal counted /\
     st_txs s' = st_txs counted) /\
    st_last s' = match items with
                 | newest :: _ => tx_hash newest
                 | [] => st_last s
                 end.
Proof.
  intros Hc Hitems Hwf Hd Hs Hj Hok new.
  split; [apply new_prefix_split|].
  split; [intros Hl; subst new; rewrite Hl; now apply new_prefix_unset|].
  destruct (cycle_from_disk self now resp items w v s Hc Hitems Hwf Hd Hs Hj Hok)
    as (v' & w' & Hrun & Hd' & _ & Hs' & _).
  exists v', w', (cycle_state self now s items).
  repeat split; auto; unfold cycle_state, cycle_from; simpl.
  - apply fold_count_tx_counts; reflexivity.
  - apply fold_count_tx_counts; reflexivity.
  - apply fold_count_tx_counts; reflexivity.
  - now rewrite (proj2 (fold_count_tx_keeps self _ _)).
Qed.

(** C3. Whatever the reply and whatever the outcome, a cycle that finds
    [abnormal_transactions <= total_transactions] in the record of the
    file leaves it so; and each processed transaction adds one to
    [total_transactions], and one to [abnormal_transactions] exactly when
    it is not a target-pair transaction. *)
Theorem abnormal_count_at_most_total self now upstream w :
  on_disk counters_le w ->
  on_disk counters_le (snd (analyze_transactions self now upstream w)) /\
  (forall tx data w0 data' w1 t a,
     process_tx self tx data w0 = (Ok data', w1) ->
     field2 data "monitoring" "total_transactions" = Some (PInt t) ->
     field2 data "monitoring" "abnormal_transactions" = Some (PInt a) ->
     exists target,
       is_target_pair_transaction self tx = Ok target /\
       field2 data' "monitoring" "total_transactions" = Some (PInt (t + 1)) /\
       field2 data' "monitoring" "abnormal_transactions"
         = Some (PInt (if target then a else a + 1))).
Proof.
  intros Hw. split.
  - apply cycle_invariant; auto.
    + apply counters_le_initial.
    + apply counters_le_set.
    + intros self' tx v w0 v' w1. apply counters_le_process.
  - intros tx data w0 data' w1 t a. apply process_tx_counters.
Qed.

(** C4. Whatever the reply and whatever the outcome, a cycle that finds
    at most 100 entries in [abnormal_txs] leaves at most 100; and an
    abnormal transaction is appended at the end of the history, which is
    then cut to its last 100 entries: entries leave from the front, the
    rest keep their order, and a full history of 100 loses exactly its
    first entry. *)
Theorem recent_abnormal_bounded_fifo self now upstream w :
  on_disk txs_bounded w ->
  on_disk txs_bounded (snd (analyze_transactions self now upstream w)) /\
  (forall tx data w0 data' w1 l,
     process_tx self tx data w0 = (Ok data', w1) ->
     py_getitem data "abnormal_txs" = Ok (PList l) ->
     is_target_pair_transaction self tx = Ok false ->
     exists r l',
       abnormal_record tx = Ok r /\
       py_getitem data' "abnormal_txs" = Ok (PList l') /\
       (List.length l' <= 100)%nat /\
       (exists dropped : list pyval,
          (l ++ [r])%list = (dropped ++ l')%list /\
          List.length dropped = (List.length l + 1 - 100)%nat) /\
       (List.length l = 100%nat -> l' = (tl l ++ [r])%list)).
Proof.
  intros Hw. split.
  - apply cycle_invariant; auto.
    + apply txs_bounded_initial.
    + apply txs_bounded_set.
    + intros self' tx v w0 v' w1. apply txs_bounded_process.
  - intros tx data w0 data' w1 l Hrun Hl Htarget.
    destruct (process_tx_history _ _ _ _ _ _ _ Hrun Hl) as (b & Hb & H).
    rewrite Htarget in Hb. injection Hb as <-.
    destruct H as (r & Hr & Hl').
    exists r, (keep_last 100 (l ++ [r])). repeat split; auto.
    + apply keep_last_length.
    + destruct (keep_last_suffix 100 (l ++ [r])) as (dropped & Hsplit & Hlen).
      exists dropped. split; [exact Hsplit|].
      rewrite Hlen, length_app. reflexivity.
    + intros H100. now apply keep_last_full.
Qed.

(** ** Equality of parsed values *)

Section PyvalInduction.

Variable P : pyval -> Prop.
Hypothesis P_none : P PNone.
Hypothesis P_bool : forall b, P (PBool b).
Hypothesis P_int : forall z, P (PInt z).
Hypothesis P_str : forall s, P (PStr s).
Hypothesis P_datetime : forall t, P (PDatetime t).
Hypothesis P_list : forall l, Forall P l -> P (PList l).
Hypothesis P_dict : forall d, Forall (fun kv => P (snd kv)) d -> P (PDict d).

Fixpoint pyval_induction (v : pyval) : P v :=
  match v with
  | PNone => P_none
  | PBool b => P_bool b
  | PInt z => P_int z
  | PStr s => P_str s
  | PDatetime t => P_datetime t
  | PList l =>
      P_list l
        ((fix all (l : list pyval) : Forall P l :=
            match l with
            | [] => Forall_nil P
            | x :: r => Forall_cons x (pyval_induction x) (all r)
            end) l)
  | PDict d =>
      P_dict d
        ((fix all (d : list (string * pyval)) : Forall (fun kv => P (snd kv)) d :=
            match d with
            | [] => Forall_nil _
            | (k, x) :: r =>
                @Forall_cons _ (fun kv => P (snd kv)) (k, x) r
                  (pyval_induction x) (all r)
            end) d)
  end.

End PyvalInduction.

Lemma dict_get_distinct {V} k (v : V) d :
  no_repeat (map fst d) = true -> In (k, v) d -> dict_get k d = Some v.
Proof.
  clear isoformat fromisoformat timedelta_str percent_str.
  induction d as [|[k0 v0] d IH]; simpl; [tauto|].
  intros H Hin. apply andb_true_iff in H as [Hk0 Hd].
  destruct (String.eqb k k0) eqn:E.
  - apply String.eqb_eq in E. subst k0.
    destruct Hin as [Hin | Hin]; [congruence|].
    apply negb_true_iff in Hk0.
    assert (existsb (String.eqb k) (map fst d) = true); [|congruence].
    apply existsb_exists. exists k. split; [|apply String.eqb_refl].
    apply in_map_iff. now exists (k, v).
  - destruct Hin as [Hin | Hin]; [|auto].
    injection Hin as -> _. now rewrite String.eqb_refl in E.
Qed.

(** A value equals itself. *)
Lemma py_eq_refl v : distinct_keys v = true -> py_eq v v = true.
Proof.
  clear isoformat fromisoformat timedelta_str percent_str.
  induction v as [|b|z|s|t|l IH|d IH] using pyval_induction; intros H.
  - reflexivity.
  - simpl. now destruct b.
  - simpl. apply Z.eqb_refl.
  - simpl. apply String.eqb_refl.
  - simpl. unfold datetime_eqb. destruct (utcoffset t); apply Z.eqb_refl.
  - cbn [py_eq]. cbn [distinct_keys] in H.
    induction IH as [|x l Hx _ IHl]; [reflexivity|].
    cbn [forallb] in H. apply andb_true_iff in H as [H1 H2].
    rewrite (Hx H1). cbn [andb]. exact (IHl H2).
  - cbn [py_eq]. cbn [distinct_keys] in H. apply andb_true_iff in H as [Hk Hd].
    rewrite Nat.eqb_refl. cbn [andb].
    match goal with
    | |- ?all d = true =>
        assert (G : forall d',
                  (forall kv, In kv d' -> In kv d) ->
                  forallb (fun kv => distinct_keys (snd kv)) d' = true ->
                  Forall (fun kv => distinct_keys (snd kv) = true ->
                                    py_eq (snd kv) (snd kv) = true) d' ->
                  all d' = true)
    end.
    { induction d' as [|[k x] d' IHd]; intros Hsub Hd' IH'; [reflexivity|].
      cbn [forallb snd] in Hd'. apply andb_true_iff in Hd' as [Hx Hd'].
      inversion IH' as [|? ? Px Pd]; subst.
      rewrite (dict_get_distinct k x d Hk (Hsub _ (or_introl eq_refl))).
      cbn [snd] in Px. rewrite (Px Hx). cbn [andb].
      apply IHd; auto. intros kv Hin. apply Hsub. now right. }
    apply G; auto.
Qed.

(** ** A cycle that returns, on any page *)

Lemma parsed_json_items resp items :
  parsed_json (PDict resp) = true -> dict_get "items" resp = Some (PList items) ->
  json_ok (PList items) = true /\ distinct_keys (PList items) = true.
Proof.
  unfold parsed_json. intros H Hitems. apply andb_true_iff in H as [Hj Hk].
  split; [eapply json_ok_dict_get; eauto|].
  cbn [distinct_keys] in Hk. apply andb_true_iff in Hk as [_ Hk].
  destruct (forallb_dict_get _ _ _ _ Hk Hitems) as [k0 H]. exact H.
Qed.

Lemma collect_new_step tx rest v s :
  state_of v = Some s ->
  collect_new (tx :: rest) v =
    let* h := py_getitem tx "hash" in
    if py_eq h (st_last s) then Ok []
    else let* more := collect_new rest v in Ok (tx :: more).
Proof.
  intros Hs.
  apply state_of_inv in Hs as (d & m & -> & Hm & _ & _ & _ & _ & Hlast).
  assert (Hget : py_get (PDict m) "last_processed_tx" PNone = Ok (st_last s)).
  { cbn [py_get]. rewrite Hlast. now destruct (dict_get "last_processed_tx" m). }
  assert (Hmon : py_getitem (PDict d) "monitoring" = Ok (PDict m))
    by (cbn [py_getitem]; now rewrite Hm).
  cbn [collect_new]. destruct (py_getitem tx "hash") as [h|e]; [|reflexivity].
  cbn [rbind]. rewrite Hmon. cbn [rbind]. rewrite Hget. reflexivity.
Qed.

Lemma collect_new_same_mark items v v' s s' :
  state_of v = Some s -> state_of v' = Some s' -> st_last s = st_last s' ->
  collect_new items v = collect_new items v'.
Proof.
  intros Hs Hs' Hlast. induction items as [|tx items IH]; [reflexivity|].
  rewrite (collect_new_step _ _ _ _ Hs), (collect_new_step _ _ _ _ Hs').
  now rewrite IH, Hlast.
Qed.

Lemma collect_new_returned items : forall v s new,
  state_of v = Some s -> collect_new items v = Ok new ->
  new = new_prefix (st_last s) items.
Proof.
  induction items as [|tx items IH]; intros v s new Hs H.
  - now injection H as <-.
  - rewrite (collect_new_step _ _ _ _ Hs) in H.
    apply rbind_ok in H as (h & Hh & H).
    cbn [new_prefix]. unfold tx_hash. rewrite Hh.
    destruct (py_eq h (st_last s)); [now injection H as <-|].
    apply rbind_ok in H as (more & Hmore & H). injection H as <-.
    now rewrite (IH _ _ _ Hs Hmore).
Qed.

Lemma abnormal_record_json tx r :
  json_ok tx = true -> abnormal_record tx = Ok r -> json_ok r = true.
Proof.
  intros Hj H. unfold abnormal_record in H.
  apply rbind_ok in H as (hash & Hh & H).
  apply rbind_ok in H as (ts & Hts & H).
  apply rbind_ok in H as (method & Hm & H).
  apply rbind_ok in H as (to1 & Hto1 & H).
  apply rbind_ok in H as (to_address & Hta & H).
  apply rbind_ok in H as (to2 & Hto2 & H).
  apply rbind_ok in H as (to_name & Htn & H).
  apply rbind_ok in H as (value & Hv & H).
  apply rbind_ok in H as (status & Hst & H).
  apply rbind_ok in H as (gas_used & Hg & H).
  injection H as <-.
  pose proof (py_get_json _ _ (PDict []) _ Hj eq_refl Hto1) as Hj1.
  pose proof (py_get_json _ _ (PDict []) _ Hj eq_refl Hto2) as Hj2.
  cbn [json_ok forallb snd].
  rewrite (py_getitem_json _ _ _ Hj Hh), (py_getitem_json _ _ _ Hj Hts).
  rewrite (py_get_json _ _ (PStr "Unknown") _ Hj eq_refl Hm).
  rewrite (py_get_json _ _ (PStr "Unknown") _ Hj1 eq_refl Hta).
  rewrite (py_get_json _ _ (PStr "Unknown") _ Hj2 eq_refl Htn).
  rewrite (py_get_json _ _ (PStr "0") _ Hj eq_refl Hv).
  rewrite (py_get_json _ _ (PStr "Unknown") _ Hj eq_refl Hst).
  rewrite (py_get_json _ _ (PStr "Unknown") _ Hj eq_refl Hg).
  reflexivity.
Qed.

(** One iteration that returns, on the state *)
Lemma process_tx_returned self tx v s w v' w' :
  state_of v = Some s -> storable v = true -> json_ok tx = true ->
  process_tx self tx v w = (Ok v', w') ->
  state_of v' = Some (count_tx self s tx) /\ storable v' = true /\
  disk w' = disk w /\ written w' = written w.
Proof.
  intros Hs Hst Hj Hrun.
  destruct (keeps_process_tx self tx v w) as [Hd Hw]. rewrite Hrun in Hd, Hw.
  cbn [snd] in Hd, Hw.
  apply process_tx_inv in Hrun as (v1 & b & H1 & Hb & Hrest).
  destruct (state_incr_total _ _ Hs) as (v1' & H1' & Hs1 & Hst1).
  rewrite H1 in H1'. injection H1' as <-.
  unfold count_tx, expected. rewrite Hb.
  destruct b.
  - subst v'. repeat split; auto.
  - destruct Hrest as (v2 & r & l & H2 & Hr & Hl & Hset).
    destruct (state_incr_abnormal _ _ Hs1) as (v2' & H2' & Hs2 & Hst2).
    rewrite H2 in H2'. injection H2' as <-. cbn [st_start st_last st_total
      st_abnormal st_txs] in Hs2.
    assert (Hl' : py_getitem v2 "abnormal_txs" = Ok (PList (st_txs s))).
    { pose proof Hs2 as Hinv.
      apply state_of_inv in Hinv as (d & m & -> & _ & Hl' & _).
      cbn [py_getitem]. cbn [st_txs] in Hl'. now rewrite Hl'. }
    rewrite Hl in Hl'. injection Hl' as ->.
    destruct (state_set_txs v2 _ (keep_last 100 (st_txs s ++ [r])) Hs2)
      as (v3 & H3 & Hs3 & Hst3).
    { apply json_ok_keep_last, json_ok_list_app.
      - eapply storable_txs; eauto.
      - eapply abnormal_record_json; eauto. }
    rewrite Hset in H3. injection H3 as <-.
    unfold record_of. rewrite Hr.
    cbn [st_start st_last st_total st_abnormal st_txs] in Hs3.
    repeat split; auto.
Qed.

Lemma for_each_process_returned self txs : forall v s w v' w',
  state_of v = Some s -> storable v = true ->
  forallb json_ok txs = true ->
  for_each txs v (process_tx self) w = (Ok v', w') ->
  state_of v' = Some (fold_left (count_tx self) txs s) /\ storable v' = true /\
  disk w' = disk w /\ written w' = written w.
Proof.
  induction txs as [|tx txs IH]; intros v s w v' w' Hs Hst Hj Hrun.
  - cbn [for_each] in Hrun. unfold ret in Hrun. injection Hrun as <- <-. auto.
  - cbn [for_each] in Hrun. cbn [forallb] in Hj.
    apply andb_true_iff in Hj as [Htx Hj].
    apply bind_ok in Hrun as (v1 & w1 & Hrun1 & Hrun).
    destruct (process_tx_returned _ _ _ _ _ _ _ Hs Hst Htx Hrun1)
      as (Hs1 & Hst1 & Hd1 & Hw1).
    destruct (IH _ _ _ _ _ Hs1 Hst1 Hj Hrun) as (Hs' & Hst' & Hd' & Hw').
    cbn [fold_left]. repeat split; auto; congruence.
Qed.

Lemma new_prefix_json last items :
  json_ok (PList items) = true ->
  forallb json_ok (rev (new_prefix last items)) = true.
Proof.
  cbn [json_ok]. intros H. apply forallb_rev.
  induction items as [|tx items IH]; [reflexivity|].
  cbn [forallb] in H. apply andb_true_iff in H as [Htx H].
  cbn [new_prefix]. destruct (py_eq (tx_hash tx) last); [reflexivity|].
  cbn [forallb]. now rewrite Htx, IH.
Qed.

(** The cycle up to its processing loop, on any page of JSON values *)
Lemma cycle_head self now resp items w loaded w1 s0 t0 :
  dict_get "items" resp = Some (PList items) ->
  json_ok (PList items) = true ->
  load_data w = (Ok loaded, w1) ->
  let data0 := if negb (py_truthy loaded)
               then initial_data self (PDatetime (utc now)) else loaded in
  state_of data0 = Some s0 -> storable data0 = true ->
  (st_start s0 = PDatetime t0 \/
   (py_truthy (st_start s0) = false /\ t0 = utc now)) ->
  match collect_new items data0 with
  | Ok new =>
      exists data2,
        state_of data2 =
          Some (mkState (PDatetime t0)
                  (match items with tx :: _ => tx_hash tx | [] => st_last s0 end)
                  (st_total s0) (st_abnormal s0) (st_txs s0)) /\
        storable data2 = true /\
        analyze_transactions self now (Some (PDict resp)) w =
          (data3 <- for_each (rev new) data2 (process_tx self) ;;
           save_data data3 ;;; ret tt) w1
  | Raise e => analyze_transactions self now (Some (PDict resp)) w = (Raise e, w1)
  end.
Proof.
  intros Hitems Hj Hload data0 Hs0 Hst0 Hstart.
  unfold analyze_transactions.
  unfold get_transactions. rewrite (bind_run _ _ w (PDict resp) w eq_refl).
  assert (Htruthy : py_truthy (PDict resp) = true) by (now destruct resp).
  rewrite Htruthy. cbn [negb]. cbv iota.
  assert (Hmiss : (has <- lift (py_contains "items" (PDict resp)) ;; ret (negb has)) w
                  = (Ok false, w)).
  { unfold bind, lift, ret. simpl. now rewrite Hitems. }
  rewrite (bind_run _ _ _ _ _ Hmiss). cbv iota.
  rewrite (bind_run _ _ _ _ _ Hload). fold data0.
  pose proof Hs0 as Hinv.
  apply state_of_inv in Hinv as (d & m & Hv & Hm & _ & Hst & _).
  assert (Hg1 : py_getitem data0 "monitoring" = Ok (PDict m)).
  { rewrite Hv. simpl. now rewrite Hm. }
  assert (Hg2 : py_getitem (PDict m) "start_time" = Ok (st_start s0)).
  { simpl. now rewrite Hst. }
  rewrite (bind_lift _ _ _ _ Hg1), (bind_lift _ _ _ _ Hg2).
  set (s1 := mkState (PDatetime t0) (st_last s0) (st_total s0) (st_abnormal s0)
               (st_txs s0)).
  assert (Hstep1 : exists data1,
    (if negb (py_truthy (st_start s0))
     then lift (py_setitem2 data0 "monitoring" "start_time" (PDatetime (utc now)))
     else ret data0) w1 = (Ok data1, w1) /\
    state_of data1 = Some s1 /\ storable data1 = true).
  { destruct Hstart as [Hdt | [Hf ->]].
    - rewrite Hdt. simpl. exists data0. repeat split; auto.
      rewrite Hs0. subst s1. rewrite <- Hdt. now destruct s0.
    - rewrite Hf. simpl.
      destruct (state_set_start _ _ (PDatetime (utc now)) Hs0) as (v1 & H1 & Hs1 & Hst1).
      exists v1. unfold lift. rewrite H1. auto. }
  destruct Hstep1 as (data1 & Hrun1 & Hs1 & Hst1).
  rewrite (bind_run _ _ _ _ _ Hrun1).
  assert (Hg3 : py_getitem (PDict resp) "items" = Ok (PList items)).
  { simpl. now rewrite Hitems. }
  rewrite (bind_lift _ _ _ _ Hg3).
  rewrite (bind_lift (py_iter (PList items)) _ _ items eq_refl).
  rewrite (collect_new_same_mark items data1 data0 s1 s0 Hs1 Hs0 eq_refl).
  destruct (collect_new items data0) as [new|e] eqn:Ecol; [|reflexivity].
  rewrite (bind_lift _ _ _ _ eq_refl).
  set (s2 := mkState (PDatetime t0)
               (match items with tx :: _ => tx_hash tx | [] => st_last s0 end)
               (st_total s0) (st_abnormal s0) (st_txs s0)).
  assert (Hstep2 : exists data2,
    (if py_truthy (PList items)
     then newest <- lift (py_first (PList items)) ;;
          hash <- lift (py_getitem newest "hash") ;;
          lift (py_setitem2 data1 "monitoring" "last_processed_tx" hash)
     else ret data1) w1 = (Ok data2, w1) /\
    state_of data2 = Some s2 /\ storable data2 = true).
  { destruct items as [|tx items'].
    - simpl. exists data1. auto.
    - rewrite (collect_new_step _ _ _ _ Hs0) in Ecol.
      apply rbind_ok in Ecol as (h & Hh & _).
      assert (Hjh : json_ok h = true).
      { cbn [json_ok forallb] in Hj. apply andb_true_iff in Hj as [Htx _].
        eapply py_getitem_json; eauto. }
      destruct (state_set_last _ _ h Hs1 Hjh) as (v2 & H2 & Hs2 & Hst2).
      exists v2. cbn [py_truthy]. cbv iota.
      unfold bind, lift. cbn [py_first]. rewrite Hh, H2. repeat split; auto.
      rewrite Hs2. subst s2. unfold tx_hash. now rewrite Hh. }
  destruct Hstep2 as (data2 & Hrun2 & Hs2 & Hst2).
  rewrite (bind_run _ _ _ _ _ Hrun2).
  exists data2. auto.
Qed.

(** What a cycle that returned has left in the file *)
Lemma cycle_returned self now resp items w v s w' :
  dict_get "items" resp = Some (PList items) ->
  json_ok (PList items) = true ->
  disk w = Some (Doc v) -> state_of v = Some s -> json_ok v = true ->
  start_ok s ->
  analyze_transactions self now (Some (PDict resp)) w = (Ok tt, w') ->
  exists v',
    disk w' = Some (Doc v') /\
    state_of v' = Some (cycle_state self now s items) /\
    json_ok v' = true /\
    match items with
    | tx :: _ => exists h, py_getitem tx "hash" = Ok h
    | [] => True
    end.
Proof.
  intros Hitems Hj Hd Hs Hjv Hok Hrun.
  destruct (load_data_state w v s Hd Hs Hjv Hok)
    as (loaded & sl & Hload & Htr & Hsl & Hstl & Hlast & Htot & Habn & Htxs & Hstart).
  pose proof (cycle_head self now resp items w loaded w sl (started now s)
                Hitems Hj Hload) as Hhead.
  rewrite Htr in Hhead. cbn [negb] in Hhead. cbv iota zeta in Hhead.
  specialize (Hhead Hsl Hstl).
  assert (Hst0 : st_start sl = PDatetime (started now s) \/
                 (py_truthy (st_start sl) = false /\ started now s = utc now)).
  { unfold started. destruct (parsed_start s); auto. }
  specialize (Hhead Hst0).
  destruct (collect_new items loaded) as [new|e] eqn:Ecol;
    [|rewrite Hhead in Hrun; discriminate].
  destruct Hhead as (data2 & Hs2 & Hst2 & Heq).
  assert (Hhash : match items with
                  | tx :: _ => exists h, py_getitem tx "hash" = Ok h
                  | [] => True
                  end).
  { destruct items as [|tx items']; [exact I|].
    rewrite (collect_new_step _ _ _ _ Hsl) in Ecol.
    apply rbind_ok in Ecol as (h & Hh & _). eauto. }
  apply (collect_new_returned _ _ _ _ Hsl) in Ecol. subst new.
  rewrite Heq in Hrun.
  apply bind_ok in Hrun as (data3 & w3 & Hloop & Hrun).
  destruct (for_each_process_returned _ _ _ _ _ _ _ Hs2 Hst2
              (new_prefix_json _ _ Hj) Hloop) as (Hs3 & Hst3 & Hd3 & Hw3).
  destruct (fold_count_tx_keeps self (rev (new_prefix (st_last sl) items))
              (mkState (PDatetime (started now s))
                 (match items with tx :: _ => tx_hash tx | [] => st_last sl end)
                 (st_total sl) (st_abnormal sl) (st_txs sl))) as [Hk1 Hk2].
  destruct (stringify_start_time_state _ _ (started now s) Hs3 Hk1 Hst3)
    as (v' & Hstr & Hs' & Hj').
  rewrite (bind_run _ _ _ _ _ (save_data_run _ _ w3 Hstr Hj')) in Hrun.
  unfold ret in Hrun. injection Hrun as <-.
  exists v'. split; [reflexivity|]. split; [|split; [exact Hj' | exact Hhash]].
  rewrite Hs'. unfold cycle_state, cycle_from.
  destruct sl as [st la to ab tx]. cbn [st_start st_last st_total st_abnormal st_txs] in *.
  now subst.
Qed.

(** A cycle on a page whose newest item is the stored mark *)
Lemma cycle_nothing_new self now resp items w v s :
  dict_get "items" resp = Some (PList items) ->
  json_ok (PList items) = true ->
  disk w = Some (Doc v) -> state_of v = Some s -> json_ok v = true ->
  start_ok s ->
  match items with
  | tx :: _ => exists h, py_getitem tx "hash" = Ok h /\ py_eq h (st_last s) = true
  | [] => True
  end ->
  exists v' w',
    analyze_transactions self now (Some (PDict resp)) w = (Ok tt, w') /\
    disk w' = Some (Doc v') /\
    state_of v' = Some (cycle_state self now s items) /\
    new_prefix (st_last s) items = [].
Proof.
  intros Hitems Hj Hd Hs Hjv Hok Hseen.
  destruct (load_data_state w v s Hd Hs Hjv Hok)
    as (loaded & sl & Hload & Htr & Hsl & Hstl & Hlast & Htot & Habn & Htxs & Hstart).
  pose proof (cycle_head self now resp items w loaded w sl (started now s)
                Hitems Hj Hload) as Hhead.
  rewrite Htr in Hhead. cbn [negb] in Hhead. cbv iota zeta in Hhead.
  specialize (Hhead Hsl Hstl).
  assert (Hst0 : st_start sl = PDatetime (started now s) \/
                 (py_truthy (st_start sl) = false /\ started now s = utc now)).
  { unfold started. destruct (parsed_start s); auto. }
  specialize (Hhead Hst0).
  assert (Ecol : collect_new items loaded = Ok []).
  { destruct items as [|tx items']; [reflexivity|].
    destruct Hseen as (h & Hh & Heq).
    rewrite (collect_new_step _ _ _ _ Hsl), Hh. cbn [rbind].
    now rewrite Hlast, Heq. }
  assert (Hnone : new_prefix (st_last s) items = []).
  { rewrite <- Hlast. symmetry. exact (collect_new_returned _ _ _ _ Hsl Ecol). }
  rewrite Ecol in Hhead. destruct Hhead as (data2 & Hs2 & Hst2 & Heq).
  destruct (stringify_start_time_state _ _ (started now s) Hs2 eq_refl Hst2)
    as (v' & Hstr & Hs' & Hj').
  exists v', (mkWorld (Some (Doc v')) (written w ++ [Junk; Doc v']) (log w)).
  split; [|split; [reflexivity|split; [|exact Hnone]]].
  - rewrite Heq. cbn [rev for_each].
    rewrite (bind_run _ _ w data2 w eq_refl).
    now rewrite (bind_run _ _ _ _ _ (save_data_run _ _ w Hstr Hj')).
  - rewrite Hs'. unfold cycle_state, cycle_from. rewrite Hnone. cbn [rev fold_left].
    destruct sl as [st la to ab tx]. cbn [st_start st_last st_total st_abnormal st_txs] in *.
    now subst.
Qed.

(** C8. A cycle that returned, followed by a second one on the same page:
    the second finds no new transaction, the hash of the newest item being
    the stored [last_processed_tx], and leaves both counters, the history
    and the high-water mark as the first left them.  The page is any reply
    parsed from JSON, the record any readable record; the text [isoformat]
    writes is assumed to be read back by [fromisoformat]. *)
Theorem runOnce_idempotent self now1 now2 resp items w v s w1 :
  (forall t, fromisoformat (replace_Z (isoformat t)) <> None) ->
  parsed_json (PDict resp) = true ->
  dict_get "items" resp = Some (PList items) ->
  disk w = Some (Doc v) -> state_of v = Some s -> json_ok v = true ->
  start_ok s ->
  analyze_transactions self now1 (Some (PDict resp)) w = (Ok tt, w1) ->
  exists v1 s1 v2 w2 s2,
    disk w1 = Some (Doc v1) /\ state_of v1 = Some s1 /\
    analyze_transactions self now2 (Some (PDict resp)) w1 = (Ok tt, w2) /\
    disk w2 = Some (Doc v2) /\ state_of v2 = Some s2 /\
    new_prefix (st_last s1) items = [] /\
    st_total s2 = st_total s1 /\
    st_abnormal s2 = st_abnormal s1 /\
    st_txs s2 = st_txs s1 /\
    st_last s2 = st_last s1.
Proof.
  intros Hiso Hjson Hitems Hd Hs Hj Hok Hrun1.
  destruct (parsed_json_items _ _ Hjson Hitems) as [Hji Hki].
  destruct (cycle_returned self now1 resp items w v s w1 Hitems Hji Hd Hs Hj Hok Hrun1)
    as (v1 & Hd1 & Hs1 & Hj1 & Hhash).
  set (s1 := cycle_state self now1 s items) in *.
  assert (Hok1 : start_ok s1).
  { unfold start_ok, parsed_start. subst s1. unfold cycle_state, cycle_from.
    cbn [st_start py_truthy].
    destruct (String.eqb (isoformat (started now1 s)) "") eqn:E; [now left|].
    right. specialize (Hiso (started now1 s)).
    destruct (fromisoformat _) as [t|]; [eauto | contradiction]. }
  assert (Hlast1 : st_last s1 = match items with
                                | newest :: _ => tx_hash newest
                                | [] => st_last s
                                end).
  { subst s1. unfold cycle_state, cycle_from. cbn [st_last].
    now rewrite (proj2 (fold_count_tx_keeps self _ _)). }
  assert (Hseen : match items with
                  | tx :: _ => exists h, py_getitem tx "hash" = Ok h /\
                                         py_eq h (st_last s1) = true
                  | [] => True
                  end).
  { destruct items as [|tx items']; [exact I|].
    destruct Hhash as [h Hh]. exists h. split; [exact Hh|].
    rewrite Hlast1. unfold tx_hash. rewrite Hh. apply py_eq_refl.
    cbn [distinct_keys forallb] in Hki. apply andb_true_iff in Hki as [Htx _].
    destruct tx as [| | | | | |d]; try discriminate.
    cbn [py_getitem] in Hh. destruct (dict_get "hash" d) as [x|] eqn:Ex;
      [|discriminate].
    injection Hh as <-. cbn [distinct_keys] in Htx.
    apply andb_true_iff in Htx as [_ Htx].
    destruct (forallb_dict_get _ _ _ _ Htx Ex) as [k0 H]. exact H. }
  destruct (cycle_nothing_new self now2 resp items w1 v1 s1 Hitems Hji Hd1 Hs1 Hj1
              Hok1 Hseen) as (v2 & w2 & Hrun2 & Hd2 & Hs2 & Hnone).
  clearbody s1.
  exists v1, s1, v2, w2, (cycle_state self now2 s1 items).
  unfold cycle_state at 2 3 4 5, cycle_from. rewrite Hnone. cbn.
  repeat split; auto.
  destruct items; [reflexivity | symmetry; exact Hlast1].
Qed.


(** ** Exceptions and the data file *)

Lemma raises_clean_keeps {A} (c : M A) : keeps_file c -> raises_clean c.
Proof. intros Hk w e w' H. specialize (Hk w). now rewrite H in Hk. Qed.

Lemma raises_clean_bind {A B} (c : M A) (k : A -> M B) :
  keeps_file c -> (forall a, raises_clean (k a)) -> raises_clean (bind c k).
Proof.
  intros Hc Hk w e w' H. unfold bind in H. specialize (Hc w).
  destruct (c w) as [[a|e0] w1] eqn:E; simpl in Hc.
  - destruct (Hk a w1 e w' H) as [H1 H2]. destruct Hc as [H3 H4].
    split; congruence.
  - injection H as <- <-. exact Hc.
Qed.

Lemma raises_clean_save_data data : raises_clean (save_data data ;;; ret tt).
Proof.
  intros w e w' H. unfold bind in H.
  destruct (save_data_returns data w) as (data' & w1 & Hs). rewrite Hs in H.
  discriminate.
Qed.

Lemma raises_clean_analyze_transactions self now upstream :
  raises_clean (analyze_transactions self now upstream).
Proof.
  unfold analyze_transactions.
  apply raises_clean_bind; [apply keeps_get_transactions|]. intros transactions.
  apply raises_clean_bind.
  { destruct (negb (py_truthy transactions)); keeps. }
  intros missing. destruct missing; [apply raises_clean_keeps, keeps_logging|].
  apply raises_clean_bind; [apply keeps_load_data|]. intros loaded.
  apply raises_clean_bind; [apply keeps_lift|]. intros monitoring.
  apply raises_clean_bind; [apply keeps_lift|]. intros start_time.
  apply raises_clean_bind.
  { destruct (negb (py_truthy start_time)); keeps. }
  intros data1.
  apply raises_clean_bind; [apply keeps_lift|]. intros items.
  apply raises_clean_bind; [apply keeps_lift|]. intros elements.
  apply raises_clean_bind; [apply keeps_lift|]. intros new_transactions.
  apply raises_clean_bind.
  { destruct (py_truthy items); keeps. }
  intros data2.
  apply raises_clean_bind.
  { apply keeps_for_each. intros tx s. apply keeps_process_tx. }
  intros data3. apply raises_clean_save_data.
Qed.

(** X1. An exception leaves [analyze_transactions] only before the save:
    whenever the cycle raises, the data file has not been written and
    holds what it held. *)
Theorem analyze_transactions_raises_before_saving self now upstream w e w' :
  analyze_transactions self now upstream w = (Raise e, w') ->
  disk w' = disk w /\ written w' = written w.
Proof. apply raises_clean_analyze_transactions. Qed.

(** X2. One turn of the monitoring loop never raises: a cycle that
    returns is passed through, and a cycle that raises has its exception
    logged as "Error during monitoring", the data file being as it was. *)
Theorem monitor_tick_never_raises self now upstream w :
  exists w',
    monitor_tick self now upstream w = (Ok tt, w') /\
    match analyze_transactions self now upstream w with
    | (Ok _, w1) => w' = w1
    | (Raise e, w1) =>
        disk w' = disk w /\ written w' = written w /\
        log w' = (log w1 ++ [(ERROR, [Lit "Error during monitoring: "; Exc e])])%list
    end.
Proof.
  unfold monitor_tick, try_except.
  destruct (analyze_transactions self now upstream w) as [[[]|e] w1] eqn:E.
  - eauto.
  - destruct (raises_clean_analyze_transactions _ _ _ _ _ _ E) as [H1 H2].
    eexists. split; [reflexivity|]. simpl. auto.
Qed.

(** ** Reading the file back *)

Lemma dict_set_same {V} k (v : V) d :
  dict_get k d = Some v -> dict_set k v d = d.
Proof.
  induction d as [|[k0 v0] d IH]; simpl; [discriminate|].
  destruct (String.eqb k k0) eqn:E.
  - intros H. injection H as ->. apply String.eqb_eq in E. now subst.
  - intros H. now rewrite IH.
Qed.

Lemma load_data_junk w :
  disk w = Some Junk ->
  load_data w =
    (Ok PNone,
     mkWorld (disk w) (written w)
       (log w ++ [(ERROR, [Lit "Error loading data file: "; Exc JSONDecodeError])])).
Proof.
  intros Hd. destruct w as [dk wr lg]. cbn [disk written log] in *. subst dk.
  reflexivity.
Qed.

Lemma load_data_unparsable w d m text :
  disk w = Some (Doc (PDict d)) ->
  dict_get "monitoring" d = Some (PDict m) ->
  dict_get "start_time" m = Some (PStr text) ->
  text <> "" ->
  fromisoformat (replace_Z text) = None ->
  load_data w =
    (Ok PNone,
     mkWorld (disk w) (written w)
       (log w ++ [(ERROR, [Lit "Error loading data file: "; Exc ValueError])])).
Proof.
  intros Hd Hm Hst Hne Hparse.
  assert (G1 : py_get (PDict d) "monitoring" (PDict []) = Ok (PDict m))
    by (simpl; now rewrite Hm).
  assert (G2 : py_get (PDict m) "start_time" PNone = Ok (PStr text))
    by (simpl; now rewrite Hst).
  assert (G3 : py_getitem (PDict d) "monitoring" = Ok (PDict m))
    by (simpl; now rewrite Hm).
  assert (G4 : py_getitem (PDict m) "start_time" = Ok (PStr text))
    by (simpl; now rewrite Hst).
  assert (Htr : py_truthy (PStr text) = true).
  { simpl. destruct (String.eqb text "") eqn:E; [|reflexivity].
    apply String.eqb_eq in E. contradiction. }
  destruct w as [dk wr lg]. cbn [disk written log] in *. subst dk.
  unfold load_data, try_except, bind, open_read, lift, ret, raise.
  cbn [disk]. cbv beta iota. cbn [json_load]. rewrite G1, G2. cbv beta iota.
  rewrite Htr, G3, G4. cbv beta iota. cbn [py_replace_Z]. rewrite Hparse.
  reflexivity.
Qed.

(** X3. [load_data] fails soft on what it cannot read, and only on that:
    on a file that is not JSON, and on a record whose [start_time] text
    [fromisoformat] rejects, it logs the error, returns [None] and leaves
    the file as it is; when there is no file, [FileNotFoundError] leaves
    the method. *)
Theorem load_data_fails_soft w :
  (disk w = Some Junk ->
   load_data w =
     (Ok PNone,
      mkWorld (disk w) (written w)
        (log w ++ [(ERROR, [Lit "Error loading data file: "; Exc JSONDecodeError])]))) /\
  (forall d m text,
     disk w = Some (Doc (PDict d)) ->
     dict_get "monitoring" d = Some (PDict m) ->
     dict_get "start_time" m = Some (PStr text) ->
     text <> "" ->
     fromisoformat (replace_Z text) = None ->
     load_data w =
       (Ok PNone,
        mkWorld (disk w) (written w)
          (log w ++ [(ERROR, [Lit "Error loading data file: "; Exc ValueError])]))) /\
  (disk w = None -> load_data w = (Raise FileNotFoundError, w)).
Proof.
  split; [apply load_data_junk|]. split; [apply load_data_unparsable|].
  intros Hd. unfold load_data, try_except, bind, open_read. now rewrite Hd.
Qed.

(** X4. Saving and loading give the record back: for a record that has
    its monitoring state, a [datetime] start time and nothing else that
    cannot be serialised, [load_data] after [save_data] returns the record
    the caller held before the save, the start time a [datetime] again.
    The text [isoformat] writes is assumed non-empty and read back by
    [fromisoformat] as the same instant. *)
Theorem save_then_load_round_trip v s t w :
  state_of v = Some s -> st_start s = PDatetime t -> storable v = true ->
  isoformat t <> "" ->
  fromisoformat (replace_Z (isoformat t)) = Some t ->
  exists v' w',
    save_data v w = (Ok v', w') /\
    field2 v' "monitoring" "start_time" = Some (PStr (isoformat t)) /\
    disk w' = Some (Doc v') /\
    load_data w' = (Ok v, w').
Proof.
  intros Hs Hstart Hst Hne Hparse.
  destruct (stringify_start_time_state v s t Hs Hstart Hst) as (v' & Hstr & Hs' & Hj).
  exists v'. eexists. split; [apply save_data_run; eassumption|].
  pose proof Hs as Hinv.
  apply state_of_inv in Hinv as (d & m & -> & Hm & _ & Hst0 & _).
  rewrite Hstart in Hst0.
  assert (Hv' : v' = PDict (dict_set "monitoring"
                  (PDict (dict_set "start_time" (PStr (isoformat t)) m)) d)).
  { unfold stringify_start_time in Hstr.
    assert (G1 : py_get (PDict d) "monitoring" (PDict []) = Ok (PDict m))
      by (simpl; now rewrite Hm).
    assert (G2 : py_get (PDict m) "start_time" PNone = Ok (PDatetime t))
      by (simpl; now rewrite Hst0).
    assert (G3 : py_getitem (PDict d) "monitoring" = Ok (PDict m))
      by (simpl; now rewrite Hm).
    assert (G4 : py_getitem (PDict m) "start_time" = Ok (PDatetime t))
      by (simpl; now rewrite Hst0).
    rewrite G1 in Hstr. cbn [rbind] in Hstr. rewrite G2 in Hstr.
    cbn [rbind py_truthy] in Hstr. rewrite G3 in Hstr. cbn [rbind] in Hstr.
    rewrite G4 in Hstr. cbn [rbind py_isoformat] in Hstr.
    rewrite (setitem2_run _ _ _ _ _ Hm) in Hstr. now injection Hstr as <-. }
  subst v'.
  set (m' := dict_set "start_time" (PStr (isoformat t)) m).
  set (d' := dict_set "monitoring" (PDict m') d).
  assert (Hm' : dict_get "monitoring" d' = Some (PDict m'))
    by (unfold d'; now rewrite dict_get_set).
  assert (Hst' : dict_get "start_time" m' = Some (PStr (isoformat t)))
    by (unfold m'; now rewrite dict_get_set).
  split.
  { unfold field2. cbn [py_getitem]. rewrite Hm'. cbn [py_getitem].
    now rewrite Hst'. }
  split; [reflexivity|].
  assert (G1 : py_get (PDict d') "monitoring" (PDict []) = Ok (PDict m'))
    by (cbn [py_get]; now rewrite Hm').
  assert (G2 : py_get (PDict m') "start_time" PNone = Ok (PStr (isoformat t)))
    by (cbn [py_get]; now rewrite Hst').
  assert (G3 : py_getitem (PDict d') "monitoring" = Ok (PDict m'))
    by (cbn [py_getitem]; now rewrite Hm').
  assert (G4 : py_getitem (PDict m') "start_time" = Ok (PStr (isoformat t)))
    by (cbn [py_getitem]; now rewrite Hst').
  assert (Htr : py_truthy (PStr (isoformat t)) = true).
  { simpl. destruct (String.eqb (isoformat t) "") eqn:E; [|reflexivity].
    apply String.eqb_eq in E. contradiction. }
  assert (Hback : py_setitem2 (PDict d') "monitoring" "start_time" (PDatetime t)
                  = Ok (PDict d)).
  { rewrite (setitem2_run _ _ _ _ _ Hm'). unfold d', m'.
    rewrite !dict_set_set.
    now rewrite (dict_set_same _ _ _ Hst0), (dict_set_same _ _ _ Hm). }
  unfold load_data, try_except, bind, open_read, lift, ret, raise.
  cbn [disk]. cbv beta iota. cbn [json_load]. rewrite G1, G2. cbv beta iota.
  rewrite Htr, G3, G4. cbv beta iota. cbn [py_replace_Z]. rewrite Hparse, Hback.
  reflexivity.
Qed.

Lemma replace_Z_no_Z s : has_Z s = false -> replace_Z s = s.
Proof.
  induction s as [|c s IH]; simpl; [reflexivity|].
  destruct (Ascii.eqb c "Z"); simpl; [discriminate|].
  intros H. now rewrite IH.
Qed.

Lemma replace_Z_app a b : replace_Z (a ++ b) = replace_Z a ++ replace_Z b.
Proof.
  induction a as [|c a IH]; simpl; [reflexivity|].
  destruct (Ascii.eqb c "Z"); simpl; now rewrite IH.
Qed.

Lemma string_app_nonempty a b : b <> "" -> a ++ b <> "".
Proof. destruct a; simpl; [auto | discriminate]. Qed.

(** X5. The zone suffix [Z] is read as [+00:00]: two records that differ
    only in that their start time is written [body ++ "Z"] in one and
    [body ++ "+00:00"] in the other load to the same result. *)
Theorem load_data_reads_Z_as_utc d m body written0 log0 :
  dict_get "monitoring" d = Some (PDict m) ->
  has_Z body = false ->
  let record suffix :=
    PDict (dict_set "monitoring"
             (PDict (dict_set "start_time" (PStr (body ++ suffix)) m)) d) in
  fst (load_data (mkWorld (Some (Doc (record "Z"))) written0 log0)) =
  fst (load_data (mkWorld (Some (Doc (record "+00:00"))) written0 log0)).
Proof.
  intros Hm Hbody record.
  assert (Hload : forall suffix, suffix <> "" ->
    fst (load_data (mkWorld (Some (Doc (record suffix))) written0 log0)) =
    match fromisoformat (replace_Z (body ++ suffix)) with
    | Some t =>
        Ok (PDict (dict_set "monitoring"
                     (PDict (dict_set "start_time" (PDatetime t) m)) d))
    | None => Ok PNone
    end).
  { intros suffix Hsuf. subst record. cbv beta.
    set (m' := dict_set "start_time" (PStr (body ++ suffix)) m).
    set (d' := dict_set "monitoring" (PDict m') d).
    assert (Hm' : dict_get "monitoring" d' = Some (PDict m'))
      by (unfold d'; now rewrite dict_get_set).
    assert (Hst' : dict_get "start_time" m' = Some (PStr (body ++ suffix)))
      by (unfold m'; now rewrite dict_get_set).
    destruct (fromisoformat (replace_Z (body ++ suffix))) as [t|] eqn:Hparse.
    - assert (G1 : py_get (PDict d') "monitoring" (PDict []) = Ok (PDict m'))
        by (cbn [py_get]; now rewrite Hm').
      assert (G2 : py_get (PDict m') "start_time" PNone = Ok (PStr (body ++ suffix)))
        by (cbn [py_get]; now rewrite Hst').
      assert (G3 : py_getitem (PDict d') "monitoring" = Ok (PDict m'))
        by (cbn [py_getitem]; now rewrite Hm').
      assert (G4 : py_getitem (PDict m') "start_time" = Ok (PStr (body ++ suffix)))
        by (cbn [py_getitem]; now rewrite Hst').
      assert (Htr : py_truthy (PStr (body ++ suffix)) = true).
      { simpl. destruct (String.eqb (body ++ suffix) "") eqn:E; [|reflexivity].
        apply String.eqb_eq in E. now apply string_app_nonempty in E. }
      unfold load_data, try_except, bind, open_read, lift, ret, raise.
      cbn [disk]. cbv beta iota. cbn [json_load]. rewrite G1, G2. cbv beta iota.
      rewrite Htr, G3, G4. cbv beta iota. cbn [py_replace_Z]. rewrite Hparse.
      rewrite (setitem2_run _ _ _ _ _ Hm'). cbn [fst]. unfold d', m'.
      now rewrite !dict_set_set.
    - now rewrite (load_data_unparsable
                     (mkWorld (Some (Doc (PDict d'))) written0 log0)
                     d' m' (body ++ suffix) eq_refl Hm' Hst'
                     (string_app_nonempty _ _ Hsuf) Hparse). }
  rewrite !Hload by discriminate.
  rewrite !replace_Z_app, (replace_Z_no_Z _ Hbody). reflexivity.
Qed.

(** ** Creating the file *)

Lemma json_ok_initial_data self start :
  json_ok (base_token_address self) = true ->
  json_ok (quote_token_address self) = true ->
  json_ok start = true ->
  json_ok (initial_data self start) = true.
Proof.
  intros Hb Hq Hs. unfold initial_data.
  cbn [json_ok forallb snd]. rewrite Hs.
  assert (Ht : forallb (fun kv : string * pyval => json_ok (snd kv))
                 (dict_set (quote_token self) (quote_token_address self)
                    (dict_set (base_token self) (base_token_address self) []))
               = true).
  { apply forallb_dict_set; [|intros; exact Hq].
    apply forallb_dict_set; [reflexivity | intros; exact Hb]. }
  rewrite Ht. reflexivity.
Qed.

Lemma storable_initial_data self start :
  json_ok (base_token_address self) = true ->
  json_ok (quote_token_address self) = true ->
  storable (initial_data self start) = true.
Proof.
  intros Hb Hq.
  pose proof (json_ok_initial_data self PNone Hb Hq eq_refl) as H.
  unfold initial_data in *.
  match goal with
  | |- storable (PDict ((_, ?c) :: (_, PDict ?block) :: ?r)) = true =>
      apply (storable_intro _ block); [|reflexivity|reflexivity];
      assert (Hc : json_ok c = true)
  end.
  { cbn [json_ok forallb snd] in H. now apply andb_true_iff in H as [H _]. }
  cbn [json_ok_except String.eqb Ascii.eqb Bool.eqb]. rewrite Hc. reflexivity.
Qed.

Lemma json_ok_token_address symbol : json_ok (token_address symbol) = true.
Proof. unfold token_address. now destruct (dict_get symbol TOKEN_ADDRESSES). Qed.

Lemma init_existing_file address base quote w :
  disk w <> None ->
  init address base quote w =
    (Ok (mkMonitor (lower address) base quote (token_address base)
           (token_address quote)
           ("https://explorer-api.morphl2.io/api/v2/addresses/" ++ address
              ++ "/transactions") PNone), w).
Proof.
  intros Hd. unfold init, init_data_file, path_exists, bind, ret.
  destruct (disk w); [reflexivity | contradiction].
Qed.

Lemma init_absent_file address base quote w :
  disk w = None ->
  let self :=
    mkMonitor (lower address) base quote (token_address base) (token_address quote)
      ("https://explorer-api.morphl2.io/api/v2/addresses/" ++ address
         ++ "/transactions") PNone in
  init address base quote w =
    (Ok self,
     mkWorld (Some (Doc (initial_data self PNone)))
       (written w ++ [Junk; Doc (initial_data self PNone)]) (log w)).
Proof.
  intros Hd self. unfold init, init_data_file, path_exists, bind, ret.
  rewrite Hd. cbv beta iota. cbn [negb]. fold self.
  assert (Hsave : save_data (initial_data self PNone) w =
            (Ok (initial_data self PNone),
             mkWorld (Some (Doc (initial_data self PNone)))
               (written w ++ [Junk; Doc (initial_data self PNone)]) (log w))).
  { apply save_data_run; [reflexivity|].
    apply json_ok_initial_data; [apply json_ok_token_address ..| reflexivity]. }
  now rewrite Hsave.
Qed.

(** X6. [__init__] creates the data file only when there is none: a file
    that exists, whatever it holds, is left untouched and nothing is
    logged; when there is no file, the file is created holding the
    zeroed record, with no start time.  So a second construction after a
    first changes nothing. *)
Theorem init_creates_file_only_if_absent address base quote w :
  let self :=
    mkMonitor (lower address) base quote (token_address base) (token_address quote)
      ("https://explorer-api.morphl2.io/api/v2/addresses/" ++ address
         ++ "/transactions") PNone in
  (disk w <> None -> init address base quote w = (Ok self, w)) /\
  (disk w = None ->
   init address base quote w =
     (Ok self,
      mkWorld (Some (Doc (initial_data self PNone)))
        (written w ++ [Junk; Doc (initial_data self PNone)]) (log w))) /\
  (forall w1, init address base quote w = (Ok self, w1) ->
              init address base quote w1 = (Ok self, w1)).
Proof.
  intros self.
  split; [apply init_existing_file|]. split; [apply init_absent_file|].
  intros w1 H1. apply init_existing_file.
  destruct (disk w) eqn:Hd.
  - rewrite init_existing_file in H1 by (rewrite Hd; discriminate).
    injection H1 as <-. rewrite Hd. discriminate.
  - rewrite (init_absent_file _ _ _ _ Hd) in H1. injection H1 as <-. discriminate.
Qed.

(** ** The cycle in closed form *)

Lemma keep_last_app_keep_last {A} n (l r : list A) :
  keep_last n (keep_last n l ++ r) = keep_last n (l ++ r).
Proof.
  destruct (Nat.le_gt_cases (List.length l) n) as [Hle | Hgt].
  - now rewrite (keep_last_short n l Hle).
  - unfold keep_last. rewrite !length_app, length_skipn.
    replace (List.length l - (List.length l - n) + List.length r - n)%nat
      with (List.length r) by lia.
    replace (List.length l + List.length r - n)%nat
      with (List.length r + (List.length l - n))%nat by lia.
    rewrite <- skipn_skipn, (skipn_app (List.length l - n) l r).
    replace (List.length l - n - List.length l)%nat with 0%nat by lia.
    reflexivity.
Qed.

Lemma fold_count_tx_closed self txs : forall s,
  (List.length (st_txs s) <= 100)%nat ->
  let r := fold_left (count_tx self) txs s in
  st_total r = st_total s + Z.of_nat (List.length txs) /\
  st_abnormal r = st_abnormal s + Z.of_nat (List.length (abnormal_of self txs)) /\
  st_txs r = keep_last 100 (st_txs s ++ map record_of (abnormal_of self txs)).
Proof.
  induction txs as [|tx txs IH]; intros s Hlen; cbn [fold_left].
  - cbn. rewrite app_nil_r, keep_last_short by exact Hlen.
    repeat split; lia.
  - specialize (IH (count_tx self s tx)).
    unfold abnormal_of in *. cbn [filter]. unfold count_tx in *.
    destruct (expected self tx); cbn [negb st_total st_abnormal st_txs] in *.
    + destruct (IH Hlen) as (H1 & H2 & H3). cbn [List.length].
      repeat split; [lia | lia | exact H3].
    + destruct IH as (H1 & H2 & H3); [apply keep_last_length|].
      cbn [List.length map]. repeat split; [lia | lia |].
      rewrite H3, keep_last_app_keep_last, <- app_assoc. reflexivity.
Qed.

(** X7. A cycle in closed form, on a well-formed page and record whose
    history has at most 100 entries: the saved [total_transactions] has
    grown by the number of new transactions, [abnormal_transactions] by
    the number of those that are not target-pair transactions, and
    [abnormal_txs] is the last 100 of the previous history followed by the
    records of the abnormal new transactions, oldest first.  Neither
    counter decreases. *)
Theorem cycle_in_closed_form self now resp items w v s :
  configured self = true ->
  dict_get "items" resp = Some (PList items) ->
  forallb well_formed_tx items = true ->
  disk w = Some (Doc v) -> state_of v = Some s -> json_ok v = true ->
  start_ok s ->
  (List.length (st_txs s) <= 100)%nat ->
  let new := rev (new_prefix (st_last s) items) in
  exists v' w' s',
    analyze_transactions self now (Some (PDict resp)) w = (Ok tt, w') /\
    disk w' = Some (Doc v') /\ state_of v' = Some s' /\
    st_total s' = st_total s + Z.of_nat (List.length new) /\
    st_abnormal s' = st_abnormal s + Z.of_nat (List.length (abnormal_of self new)) /\
    st_txs s' = keep_last 100 (st_txs s ++ map record_of (abnormal_of self new)) /\
    st_total s <= st_total s' /\ st_abnormal s <= st_abnormal s'.
Proof.
  intros Hc Hitems Hwf Hd Hs Hj Hok Hlen new.
  destruct (cycle_from_disk self now resp items w v s Hc Hitems Hwf Hd Hs Hj Hok)
    as (v' & w' & Hrun & Hd' & _ & Hs' & _).
  exists v', w', (cycle_state self now s items).
  split; [exact Hrun|]. split; [exact Hd'|]. split; [exact Hs'|].
  unfold cycle_state, cycle_from. cbn [st_total st_abnormal st_txs].
  match goal with
  | |- context [fold_left (count_tx self) ?txs ?s0] =>
      destruct (fold_count_tx_closed self txs s0 Hlen) as (H1 & H2 & H3)
  end.
  cbn [st_total st_abnormal st_txs] in H1, H2, H3. fold new in H1, H2, H3 |- *.
  rewrite H1, H2, H3. repeat split; lia.
Qed.

(** X8. A record that cannot be read is discarded: when the file is not
    JSON, or the stored start time is text [fromisoformat] rejects, a
    cycle on a well-formed page starts again from the zeroed record, with
    the current instant as start time, and counts the whole page as new;
    the counters and the history the file held are lost. *)
Theorem unreadable_record_restarts_the_counts self now resp items w :
  configured self = true ->
  dict_get "items" resp = Some (PList items) ->
  forallb well_formed_tx items = true ->
  disk w = Some Junk \/
  (exists d m text,
     disk w = Some (Doc (PDict d)) /\
     dict_get "monitoring" d = Some (PDict m) /\
     dict_get "start_time" m = Some (PStr text) /\
     text <> "" /\ fromisoformat (replace_Z text) = None) ->
  exists v' w' s',
    analyze_transactions self now (Some (PDict resp)) w = (Ok tt, w') /\
    disk w' = Some (Doc v') /\ state_of v' = Some s' /\
    st_start s' = PStr (isoformat (utc now)) /\
    st_total s' = Z.of_nat (List.length items) /\
    st_abnormal s' = Z.of_nat (List.length (abnormal_of self (rev items))) /\
    st_txs s' = keep_last 100 (map record_of (abnormal_of self (rev items))).
Proof.
  intros Hc Hitems Hwf Hunreadable.
  assert (Hload : exists w1, load_data w = (Ok PNone, w1)).
  { destruct Hunreadable as [Hd | (d & m & text & Hd & Hm & Hst & Hne & Hp)].
    - eexists. now apply load_data_junk.
    - eexists. eapply load_data_unparsable; eauto. }
  destruct Hload as [w1 Hload].
  pose proof Hc as Hc'. unfold configured in Hc'.
  apply andb_true_iff in Hc' as [Hb Hq].
  destruct (base_token_address self) as [| | |b| | |] eqn:Eb; try discriminate.
  destruct (quote_token_address self) as [| | |q| | |] eqn:Eq; try discriminate.
  destruct (cycle_run self now resp items w PNone w1 (fresh_state now) (utc now)
              Hitems Hwf Hc Hload) as (v' & w' & Hrun & Hd' & _ & Hs' & _).
  - reflexivity.
  - apply storable_initial_data; [now rewrite Eb | now rewrite Eq].
  - now left.
  - exists v', w', (cycle_from self (utc now) (fresh_state now) items).
    split; [exact Hrun|]. split; [exact Hd'|]. split; [exact Hs'|].
    unfold cycle_from. cbn [st_start st_total st_abnormal st_txs st_last fresh_state].
    rewrite (new_prefix_unset items Hwf).
    match goal with
    | |- context [fold_left (count_tx self) ?txs ?s0] =>
        destruct (fold_count_tx_closed self txs s0) as (H1 & H2 & H3);
          [cbn; lia|]
    end.
    cbn [st_total st_abnormal st_txs] in H1, H2, H3.
    rewrite H1, H2, H3, length_rev. cbn [app]. repeat split; lia.
Qed.

(** ** The classifier, beyond the configured pair *)

Lemma is_target_pair_transaction_destination self d to h :
  dict_get "to" d = Some (PDict to) ->
  dict_get "hash" to = Some (PStr h) ->
  is_target_pair_transaction self (PDict d) = classify_address self (lower h).
Proof.
  intros Hto Hh.
  assert (Etr : py_truthy (PDict to) = true)
    by (destruct to; [discriminate | reflexivity]).
  assert (E1 : py_get (PDict d) "to" PNone = Ok (PDict to))
    by (simpl; now rewrite Hto).
  assert (E2 : py_getitem (PDict d) "to" = Ok (PDict to))
    by (simpl; now rewrite Hto).
  assert (E3 : py_get (PDict to) "hash" (PStr "") = Ok (PStr h))
    by (simpl; now rewrite Hh).
  unfold is_target_pair_transaction, classify_address.
  rewrite E1. cbn [rbind]. rewrite Etr. cbn [negb]. rewrite E2. cbn [rbind].
  rewrite E3. cbn [rbind py_lower]. reflexivity.
Qed.

(** X9. The destination is compared without regard to case: two
    transactions whose destinations differ only in the case of their
    letters are classified alike, whatever the monitor. *)
Theorem classification_ignores_case self d1 to1 h1 d2 to2 h2 :
  dict_get "to" d1 = Some (PDict to1) -> dict_get "hash" to1 = Some (PStr h1) ->
  dict_get "to" d2 = Some (PDict to2) -> dict_get "hash" to2 = Some (PStr h2) ->
  lower h1 = lower h2 ->
  is_target_pair_transaction self (PDict d1) =
  is_target_pair_transaction self (PDict d2).
Proof.
  intros Hto1 Hh1 Hto2 Hh2 Hlow.
  rewrite (is_target_pair_transaction_destination _ _ _ _ Hto1 Hh1).
  rewrite (is_target_pair_transaction_destination _ _ _ _ Hto2 Hh2).
  now rewrite Hlow.
Qed.

(** X10. With a token symbol that has no address, the classifier still
    answers for what it decides before it looks at the tokens: [False]
    for a transaction without destination and [True] for one sent to a DEX
    router; every other destination raises [AttributeError]. *)
Theorem classifier_with_unknown_symbol self :
  base_token_address self = PNone \/ quote_token_address self = PNone ->
  (forall d,
     match dict_get "to" d with
     | Some to => py_truthy to = false
     | None => True
     end ->
     is_target_pair_transaction self (PDict d) = Ok false) /\
  (forall d to h,
     dict_get "to" d = Some (PDict to) -> dict_get "hash" to = Some (PStr h) ->
     is_target_pair_transaction self (PDict d) =
       if existsb (String.eqb (lower h)) (dict_values DEX_CONTRACTS)
       then Ok true else Raise AttributeError).
Proof.
  intros Hnone. split.
  - intros d Hto. unfold is_target_pair_transaction.
    assert (E : exists to, py_get (PDict d) "to" PNone = Ok to /\
                           py_truthy to = false).
    { simpl. destruct (dict_get "to" d) as [to|]; eauto. }
    destruct E as (to & E & Etr). rewrite E. cbn [rbind]. now rewrite Etr.
  - intros d to h Hto Hh.
    rewrite (is_target_pair_transaction_destination _ _ _ _ Hto Hh).
    unfold classify_address.
    destruct (existsb (String.eqb (lower h)) (dict_values DEX_CONTRACTS));
      [reflexivity|].
    destruct Hnone as [-> | ->]; [reflexivity|].
    destruct (base_token_address self); reflexivity.
Qed.

(** ** The record of an abnormal transaction *)

(** X11. The record of an abnormal transaction can be built exactly when
    the transaction has a [hash] and a [timestamp] and its [to] is absent
    or an object.  A missing [hash] or [timestamp] raises [KeyError]; a
    [to] that is null, or anything else that is not an object, raises
    [AttributeError]; otherwise the record copies [hash] and [timestamp]
    and takes the other six fields from the transaction and its [to],
    with their defaults. *)
Theorem abnormal_record_cases d :
  abnormal_record (PDict d) =
    match dict_get "hash" d, dict_get "timestamp" d with
    | None, _ | _, None => Raise KeyError
    | Some hash, Some timestamp =>
        match or_default (dict_get "to" d) (PDict []) with
        | PDict to =>
            Ok (PDict
                  [ ("hash", hash); ("timestamp", timestamp);
                    ("method", or_default (dict_get "method" d) (PStr "Unknown"));
                    ("to_address", or_default (dict_get "hash" to) (PStr "Unknown"));
                    ("to_name", or_default (dict_get "name" to) (PStr "Unknown"));
                    ("value", or_default (dict_get "value" d) (PStr "0"));
                    ("status", or_default (dict_get "status" d) (PStr "Unknown"));
                    ("gas_used", or_default (dict_get "gasUsed" d) (PStr "Unknown")) ])
        | _ => Raise AttributeError
        end
    end.
Proof.
  assert (Hget : forall (x : list (string * pyval)) k default,
            py_get (PDict x) k default = Ok (or_default (dict_get k x) default)).
  { intros x k default. simpl. now destruct (dict_get k x). }
  unfold abnormal_record. cbn [py_getitem].
  destruct (dict_get "hash" d) as [hash|]; [|reflexivity]. cbn [rbind].
  destruct (dict_get "timestamp" d) as [timestamp|]; [|reflexivity]. cbn [rbind].
  rewrite !Hget. cbn [rbind].
  destruct (or_default (dict_get "to" d) (PDict [])) as [| | | | | |to];
    try reflexivity.
  rewrite !Hget. reflexivity.
Qed.

(** ** A transaction without destination among the new ones *)

Lemma tx_has_hash tx :
  well_formed_tx tx || contract_creation tx = true ->
  exists h, py_getitem tx "hash" = Ok (PStr h).
Proof.
  intros H. apply orb_true_iff in H as [H | H].
  - now apply well_formed_tx_hash.
  - destruct tx as [| | | | | |d]; try discriminate. unfold contract_creation in H.
    destruct (dict_get "hash" d) as [[| | |h| | |]|] eqn:Hh; try discriminate.
    exists h. simpl. now rewrite Hh.
Qed.

Lemma collect_new_hashes items : forall v s,
  state_of v = Some s ->
  forallb (fun tx => well_formed_tx tx || contract_creation tx) items = true ->
  collect_new items v = Ok (new_prefix (st_last s) items).
Proof.
  induction items as [|tx items IH]; intros v s Hs Hwf; simpl; [reflexivity|].
  simpl in Hwf. apply andb_true_iff in Hwf as [Htx Hwf].
  destruct (tx_has_hash _ Htx) as [h Hh].
  unfold tx_hash. rewrite Hh. cbn [rbind].
  pose proof Hs as Hs'.
  apply state_of_inv in Hs' as (d & m & -> & Hm & _ & _ & _ & _ & Hlast).
  assert (Hget : py_get (PDict m) "last_processed_tx" PNone = Ok (st_last s)).
  { simpl. rewrite Hlast. now destruct (dict_get "last_processed_tx" m). }
  assert (Hmon : py_getitem (PDict d) "monitoring" = Ok (PDict m))
    by (simpl; now rewrite Hm).
  rewrite Hmon. cbn [rbind]. rewrite Hget. cbn [rbind].
  destruct (py_eq (PStr h) (st_last s)); [reflexivity|].
  now rewrite (IH _ _ Hs Hwf).
Qed.

(** The cycle up to its processing loop *)
Lemma cycle_prefix self now resp items w loaded w1 s0 t0 :
  dict_get "items" resp = Some (PList items) ->
  forallb (fun tx => well_formed_tx tx || contract_creation tx) items = true ->
  load_data w = (Ok loaded, w1) ->
  let data0 := if negb (py_truthy loaded)
               then initial_data self (PDatetime (utc now)) else loaded in
  state_of data0 = Some s0 -> storable data0 = true ->
  (st_start s0 = PDatetime t0 \/
   (py_truthy (st_start s0) = false /\ t0 = utc now)) ->
  exists data2,
    state_of data2 =
      Some (mkState (PDatetime t0)
              (match items with tx :: _ => tx_hash tx | [] => st_last s0 end)
              (st_total s0) (st_abnormal s0) (st_txs s0)) /\
    storable data2 = true /\
    analyze_transactions self now (Some (PDict resp)) w =
      (data3 <- for_each (rev (new_prefix (st_last s0) items)) data2
                  (process_tx self) ;;
       save_data data3 ;;; ret tt) w1.
Proof.
  intros Hitems Hwf Hload data0 Hs0 Hst0 Hstart.
  unfold analyze_transactions.
  unfold get_transactions. rewrite (bind_run _ _ w (PDict resp) w eq_refl).
  assert (Htruthy : py_truthy (PDict resp) = true) by (now destruct resp).
  rewrite Htruthy. cbn [negb]. cbv iota.
  assert (Hmiss : (has <- lift (py_contains "items" (PDict resp)) ;; ret (negb has)) w
                  = (Ok false, w)).
  { unfold bind, lift, ret. simpl. now rewrite Hitems. }
  rewrite (bind_run _ _ _ _ _ Hmiss). cbv iota.
  rewrite (bind_run _ _ _ _ _ Hload). fold data0.
  pose proof Hs0 as Hinv.
  apply state_of_inv in Hinv as (d & m & Hv & Hm & _ & Hst & _).
  assert (Hg1 : py_getitem data0 "monitoring" = Ok (PDict m)).
  { rewrite Hv. simpl. now rewrite Hm. }
  assert (Hg2 : py_getitem (PDict m) "start_time" = Ok (st_start s0)).
  { simpl. now rewrite Hst. }
  rewrite (bind_lift _ _ _ _ Hg1), (bind_lift _ _ _ _ Hg2).
  set (s1 := mkState (PDatetime t0) (st_last s0) (st_total s0) (st_abnormal s0)
               (st_txs s0)).
  assert (Hstep1 : exists data1,
    (if negb (py_truthy (st_start s0))
     then lift (py_setitem2 data0 "monitoring" "start_time" (PDatetime (utc now)))
     else ret data0) w1 = (Ok data1, w1) /\
    state_of data1 = Some s1 /\ storable data1 = true).
  { destruct Hstart as [Hdt | [Hf ->]].
    - rewrite Hdt. simpl. exists data0. repeat split; auto.
      rewrite Hs0. subst s1. rewrite <- Hdt. now destruct s0.
    - rewrite Hf. simpl.
      destruct (state_set_start _ _ (PDatetime (utc now)) Hs0) as (v1 & H1 & Hs1 & Hst1).
      exists v1. unfold lift. rewrite H1. auto. }
  destruct Hstep1 as (data1 & Hrun1 & Hs1 & Hst1).
  rewrite (bind_run _ _ _ _ _ Hrun1).
  assert (Hg3 : py_getitem (PDict resp) "items" = Ok (PList items)).
  { simpl. now rewrite Hitems. }
  rewrite (bind_lift _ _ _ _ Hg3).
  rewrite (bind_lift (py_iter (PList items)) _ _ items eq_refl).
  rewrite (bind_lift _ _ _ _ (collect_new_hashes _ _ _ Hs1 Hwf)).
  simpl st_last.
  set (s2 := mkState (PDatetime t0)
               (match items with tx :: _ => tx_hash tx | [] => st_last s0 end)
               (st_total s0) (st_abnormal s0) (st_txs s0)).
  assert (Hstep2 : exists data2,
    (if py_truthy (PList items)
     then newest <- lift (py_first (PList items)) ;;
          hash <- lift (py_getitem newest "hash") ;;
          lift (py_setitem2 data1 "monitoring" "last_processed_tx" hash)
     else ret data1) w1 = (Ok data2, w1) /\
    state_of data2 = Some s2 /\ storable data2 = true).
  { destruct items as [|tx items'].
    - simpl. exists data1. auto.
    - simpl in Hwf. apply andb_true_iff in Hwf as [Htx _].
      destruct (tx_has_hash _ Htx) as [h Hh].
      destruct (state_set_last _ _ (PStr h) Hs1 eq_refl) as (v2 & H2 & Hs2 & Hst2).
      exists v2. simpl py_truthy. cbv iota.
      unfold bind, lift. simpl. rewrite Hh, H2. repeat split; auto.
      rewrite Hs2. subst s2. unfold tx_hash. now rewrite Hh. }
  destruct Hstep2 as (data2 & Hrun2 & Hs2 & Hst2).
  rewrite (bind_run _ _ _ _ _ Hrun2).
  exists data2. auto.
Qed.

Lemma process_tx_contract_creation self tx v s w :
  state_of v = Some s -> contract_creation tx = true ->
  process_tx self tx v w = (Raise AttributeError, w).
Proof.
  intros Hs Hcc.
  destruct (state_incr_total _ _ Hs) as (v1 & H1 & Hs1 & _).
  destruct (state_incr_abnormal _ _ Hs1) as (v2 & H2 & _).
  destruct tx as [| | | | | |d]; try discriminate. unfold contract_creation in Hcc.
  apply andb_true_iff in Hcc as [Hcc Hto].
  apply andb_true_iff in Hcc as [Hh Hts].
  destruct (dict_get "hash" d) as [h|] eqn:Eh; [|discriminate].
  destruct (dict_get "timestamp" d) as [ts|] eqn:Ets; [|discriminate].
  destruct (dict_get "to" d) as [[| | | | | |]|] eqn:Eto; try discriminate.
  assert (Htarget : is_target_pair_transaction self (PDict d) = Ok false).
  { unfold is_target_pair_transaction. cbn [py_get]. now rewrite Eto. }
  assert (Hrec : abnormal_record (PDict d) = Raise AttributeError).
  { unfold abnormal_record. cbn [py_getitem py_get]. rewrite Eh, Ets, Eto.
    cbn [rbind]. now destruct (dict_get "method" d). }
  unfold process_tx.
  rewrite (bind_lift _ _ _ _ H1), (bind_lift _ _ _ _ Htarget). cbn [negb].
  rewrite (bind_lift _ _ _ _ H2). unfold bind at 1, lift at 1. now rewrite Hrec.
Qed.

Lemma for_each_contract_creation self txs : forall v s w,
  state_of v = Some s -> storable v = true -> configured self = true ->
  forallb (fun tx => well_formed_tx tx || contract_creation tx) txs = true ->
  existsb contract_creation txs = true ->
  exists w',
    for_each txs v (process_tx self) w = (Raise AttributeError, w').
Proof.
  induction txs as [|tx txs IH]; intros v s w Hs Hst Hc Hwf Hex;
    [discriminate|].
  cbn [forallb existsb] in Hwf, Hex. apply andb_true_iff in Hwf as [Htx Hwf].
  cbn [for_each].
  destruct (contract_creation tx) eqn:Hcc.
  - exists w. apply bind_raise. eapply process_tx_contract_creation; eauto.
  - rewrite orb_false_r in Htx. cbn [orb] in Hex.
    destruct (process_tx_state self tx v s w Hs Hst Htx Hc)
      as (v1 & w1 & Hrun & _ & _ & Hs1 & Hst1).
    destruct (IH v1 _ w1 Hs1 Hst1 Hc Hwf Hex) as [w' Hrun'].
    exists w'. now rewrite (bind_run _ _ _ _ _ Hrun).
Qed.

Lemma new_prefix_forallb (p : pyval -> bool) (l : list pyval) last tx :
  forallb p l = true -> In tx (new_prefix last l) -> p tx = true.
Proof.
  revert last tx. induction l as [|a l IHl]; intros last tx Hl Hin.
  - destruct Hin.
  - cbn [new_prefix] in Hin. cbn [forallb] in Hl.
    apply andb_true_iff in Hl as [Ha Hl].
    destruct (py_eq (tx_hash a) last); [destruct Hin|].
    destruct Hin as [<- | Hin]; [exact Ha | exact (IHl _ _ Hl Hin)].
Qed.

(** X12. A transaction whose [to] is null among the new ones stops the
    cycle: it is counted and classified abnormal, its record cannot be
    built, and [analyze_transactions] raises [AttributeError] without
    saving.  The high-water mark in the file therefore stays where it
    was. *)
Theorem contract_creation_blocks_the_cycle self now resp items w v s :
  configured self = true ->
  dict_get "items" resp = Some (PList items) ->
  forallb (fun tx => well_formed_tx tx || contract_creation tx) items = true ->
  disk w = Some (Doc v) -> state_of v = Some s -> json_ok v = true ->
  start_ok s ->
  existsb contract_creation (new_prefix (st_last s) items) = true ->
  exists w',
    analyze_transactions self now (Some (PDict resp)) w
      = (Raise AttributeError, w') /\
    disk w' = Some (Doc v) /\ written w' = written w.
Proof.
  intros Hc Hitems Hwf Hd Hs Hj Hok Hex.
  destruct (load_data_state w v s Hd Hs Hj Hok)
    as (loaded & sl & Hload & Htr & Hsl & Hstl & Hlast & _ & _ & _ & Hstart).
  destruct (cycle_prefix self now resp items w loaded w sl (started now s)
              Hitems Hwf Hload) as (data2 & Hs2 & Hst2 & Hrun).
  - now rewrite Htr.
  - now rewrite Htr.
  - unfold started. destruct (parsed_start s); auto.
  - rewrite Hlast in Hrun.
    destruct (for_each_contract_creation self
                (rev (new_prefix (st_last s) items)) data2 _ w Hs2 Hst2 Hc)
      as [w' Hloop].
    + rewrite forallb_forall. intros tx Hin. apply in_rev in Hin.
      exact (new_prefix_forallb _ _ _ _ Hwf Hin).
    + apply existsb_exists in Hex as (tx & Hin & Htx).
      apply existsb_exists. exists tx. split; [now apply in_rev in Hin|exact Htx].
    + assert (Hraise : analyze_transactions self now (Some (PDict resp)) w
                       = (Raise AttributeError, w')).
      { rewrite Hrun. now apply bind_raise. }
      exists w'. split; [exact Hraise|].
      destruct (raises_clean_analyze_transactions _ _ _ _ _ _ Hraise) as [H1 H2].
      split; [congruence | exact H2].
Qed.

(** C1, where the code fails.  When a transaction whose [to] is null, a
    contract creation, is among the new ones, the cycle raises before it
    saves: the page has a newest item whose hash is not the stored
    [last_processed_tx], and after the cycle the file still holds the
    record it held, so the mark has not moved to that hash.  Every later
    cycle on the same page raises again. *)
Theorem high_water_mark_stalls self now resp items w v s :
  configured self = true ->
  dict_get "items" resp = Some (PList items) ->
  forallb (fun tx => well_formed_tx tx || contract_creation tx) items = true ->
  disk w = Some (Doc v) -> state_of v = Some s -> json_ok v = true ->
  start_ok s ->
  existsb contract_creation (new_prefix (st_last s) items) = true ->
  exists newest rest w',
    items = newest :: rest /\
    py_eq (tx_hash newest) (st_last s) = false /\
    analyze_transactions self now (Some (PDict resp)) w
      = (Raise AttributeError, w') /\
    disk w' = Some (Doc v) /\
    forall later, exists w'',
      analyze_transactions self later (Some (PDict resp)) w'
        = (Raise AttributeError, w'') /\
      disk w'' = Some (Doc v).
Proof.
  intros Hc Hitems Hwf Hd Hs Hj Hok Hex.
  assert (Hstop : forall now0 w0, disk w0 = Some (Doc v) ->
            exists w', analyze_transactions self now0 (Some (PDict resp)) w0
                       = (Raise AttributeError, w') /\
                       disk w' = Some (Doc v)).
  { intros now0 w0 Hd0.
    destruct (load_data_state w0 v s Hd0 Hs Hj Hok)
      as (loaded & sl & Hload & Htr & Hsl & Hstl & Hlast & _ & _ & _ & Hstart).
    destruct (cycle_prefix self now0 resp items w0 loaded w0 sl (started now0 s)
                Hitems Hwf Hload) as (data2 & Hs2 & Hst2 & Hrun).
    - now rewrite Htr.
    - now rewrite Htr.
    - unfold started. destruct (parsed_start s); auto.
    - rewrite Hlast in Hrun.
      destruct (for_each_contract_creation self
                  (rev (new_prefix (st_last s) items)) data2 _ w0 Hs2 Hst2 Hc)
        as [w' Hloop].
      + rewrite forallb_forall. intros tx Hin. apply in_rev in Hin.
        exact (new_prefix_forallb _ _ _ _ Hwf Hin).
      + apply existsb_exists in Hex as (tx & Hin & Htx).
        apply existsb_exists. exists tx. split; [now apply in_rev in Hin|exact Htx].
      + assert (Hraise : analyze_transactions self now0 (Some (PDict resp)) w0
                         = (Raise AttributeError, w')).
        { rewrite Hrun. now apply bind_raise. }
        exists w'. split; [exact Hraise|].
        destruct (raises_clean_analyze_transactions _ _ _ _ _ _ Hraise) as [H1 _].
        congruence. }
  destruct items as [|newest rest]; [discriminate|].
  destruct (py_eq (tx_hash newest) (st_last s)) eqn:Enew.
  { cbn [new_prefix] in Hex. rewrite Enew in Hex. discriminate. }
  destruct (Hstop now w Hd) as (w' & Hrun & Hd').
  exists newest, rest, w'. repeat split; auto.
Qed.

(** ** The status page on other records *)

Lemma get_stats_no_data now w w1 :
  disk w <> None -> load_data w = (Ok PNone, w1) ->
  get_stats now w =
    (Ok (PDict [("error", PStr "No monitoring data available")], 404), w1).
Proof.
  intros Hd Hload. unfold get_stats.
  rewrite (bind_run _ _ _ _ _ (init_existing_file "dummy" "ETH" "MPH" w Hd)).
  rewrite (bind_run _ _ _ _ _ Hload). reflexivity.
Qed.

(** X13. The status query answers 404, "No monitoring data available",
    when the file is not JSON and also when the record's start time is
    text [fromisoformat] rejects, although the file then holds counters;
    it logs the loading error and leaves the file as it is. *)
Theorem get_stats_answers_not_found now w :
  disk w = Some Junk \/
  (exists d m text,
     disk w = Some (Doc (PDict d)) /\
     dict_get "monitoring" d = Some (PDict m) /\
     dict_get "start_time" m = Some (PStr text) /\
     text <> "" /\ fromisoformat (replace_Z text) = None) ->
  exists w',
    get_stats now w =
      (Ok (PDict [("error", PStr "No monitoring data available")], 404), w') /\
    disk w' = disk w /\ written w' = written w /\
    exists e, log w' = (log w ++ [(ERROR, [Lit "Error loading data file: "; Exc e])])%list.
Proof.
  intros [Hd | (d & m & text & Hd & Hm & Hst & Hne & Hp)].
  - eexists. split.
    + apply get_stats_no_data; [rewrite Hd; discriminate | now apply load_data_junk].
    + simpl. eauto.
  - eexists. split.
    + apply get_stats_no_data; [rewrite Hd; discriminate|].
      eapply load_data_unparsable; eauto.
    + simpl. eauto.
Qed.

Lemma load_data_keeps_config w v loaded w1 k :
  disk w = Some (Doc v) -> load_data w = (Ok loaded, w1) ->
  py_truthy loaded = true -> String.eqb k "monitoring" = false ->
  py_getitem loaded k = py_getitem v k.
Proof.
  intros Hd Hload Htr Hk.
  destruct (load_data_result _ _ _ Hload) as [-> | (v0 & Hv0 & [-> | (t & Ht)])].
  - discriminate.
  - congruence.
  - rewrite Hd in Hv0. injection Hv0 as <-.
    now apply (getitem_setitem2_other _ _ _ _ _ k Ht).
Qed.

(** X14. On a record that has its monitoring state, a start time that is
    unset or readable with a UTC offset, and the configuration
    [init_data_file] writes, the status query only reads.  When the total
    is not positive, or the percentage can be computed, it answers 200,
    the world is as before, and the reply carries the stored counters, the
    percentage ("0%" when the total is not positive), the last 10 entries
    of the history, and as duration the time since the stored start, or
    "Not started".  When the total is positive and the division overflows,
    the query raises [OverflowError], the world again as before. *)
Theorem get_stats_reports_without_writing now w d s cfg ma b q ta ba qa dex :
  disk w = Some (Doc (PDict d)) -> state_of (PDict d) = Some s ->
  json_ok (PDict d) = true ->
  start_ok s ->
  (forall t, parsed_start s = Some t -> utcoffset t <> None) ->
  dict_get "config" d = Some (PDict cfg) ->
  dict_get "monitored_address" cfg = Some ma ->
  dict_get "base_token" cfg = Some (PStr b) ->
  dict_get "quote_token" cfg = Some (PStr q) ->
  dict_get "token_addresses" cfg = Some (PDict ta) ->
  dict_get b ta = Some ba -> dict_get q ta = Some qa ->
  dict_get "dex_contracts" cfg = Some dex ->
  match (if 0 <? st_total s then percent_str (st_abnormal s) (st_total s)
         else Some "0%") with
  | Some percentage =>
      exists stats,
        get_stats now w = (Ok (stats, 200), w) /\
        field2 stats "statistics" "total_transactions" = Some (PInt (st_total s)) /\
        field2 stats "statistics" "abnormal_transactions"
          = Some (PInt (st_abnormal s)) /\
        field2 stats "statistics" "abnormal_percentage" = Some (PStr percentage) /\
        py_getitem stats "recent_abnormal_transactions"
          = Ok (PList (keep_last 10 (st_txs s))) /\
        field2 stats "monitor_info" "monitoring_duration"
          = Some (PStr (match parsed_start s with
                        | Some t => timedelta_str (now - instant t)
                        | None => "Not started"
                        end)) /\
        field2 stats "monitor_info" "monitored_address" = Some ma
  | None => get_stats now w = (Raise OverflowError, w)
  end.
Proof.
  intros Hd Hs Hj Hok Haware Hcfg Hma Hb Hq Hta Hba Hqa Hdex.
  destruct (load_data_state w _ s Hd Hs Hj Hok)
    as (loaded & sl & Hload & Htr & Hsl & _ & _ & Htot & Habn & Htxs & Hstart).
  assert (Hconfig : py_getitem loaded "config" = Ok (PDict cfg)).
  { rewrite (load_data_keeps_config _ _ _ _ "config" Hd Hload Htr eq_refl).
    cbn [py_getitem]. now rewrite Hcfg. }
  pose proof Hsl as Hinv.
  apply state_of_inv in Hinv as (dl & ml & -> & Hml & Hl & Hst & Ht & Ha & _).
  rewrite Htot in Ht. rewrite Habn in Ha. rewrite Htxs in Hl.
  assert (G1 : py_contains "monitoring" (PDict dl) = Ok true)
    by (cbn [py_contains]; now rewrite Hml).
  assert (G2 : py_getitem (PDict dl) "monitoring" = Ok (PDict ml))
    by (cbn [py_getitem]; now rewrite Hml).
  assert (G3 : py_getitem (PDict ml) "start_time" = Ok (st_start sl))
    by (cbn [py_getitem]; now rewrite Hst).
  assert (G4 : py_getitem (PDict cfg) "monitored_address" = Ok ma)
    by (cbn [py_getitem]; now rewrite Hma).
  assert (G5 : py_getitem (PDict cfg) "base_token" = Ok (PStr b))
    by (cbn [py_getitem]; now rewrite Hb).
  assert (G6 : py_getitem (PDict cfg) "token_addresses" = Ok (PDict ta))
    by (cbn [py_getitem]; now rewrite Hta).
  assert (G7 : py_getitem_v (PDict ta) (PStr b) = Ok ba)
    by (cbn [py_getitem_v py_getitem]; now rewrite Hba).
  assert (G8 : py_getitem (PDict cfg) "quote_token" = Ok (PStr q))
    by (cbn [py_getitem]; now rewrite Hq).
  assert (G9 : py_getitem_v (PDict ta) (PStr q) = Ok qa)
    by (cbn [py_getitem_v py_getitem]; now rewrite Hqa).
  assert (G10 : py_getitem (PDict cfg) "dex_contracts" = Ok dex)
    by (cbn [py_getitem]; now rewrite Hdex).
  assert (G11 : py_getitem (PDict ml) "total_transactions" = Ok (PInt (st_total s)))
    by (cbn [py_getitem]; now rewrite Ht).
  assert (G12 : py_getitem (PDict ml) "abnormal_transactions"
                = Ok (PInt (st_abnormal s)))
    by (cbn [py_getitem]; now rewrite Ha).
  assert (G13 : py_get (PDict dl) "abnormal_txs" (PList []) = Ok (PList (st_txs s)))
    by (cbn [py_get]; now rewrite Hl).
  assert (Hdur : exists text_start,
    (duration <- (if py_truthy (st_start sl)
                  then delta <- lift (py_sub_from (utc now) (st_start sl)) ;;
                       ret (PStr (timedelta_str delta))
                  else ret (PStr "Not started")) ;;
     start_text <- (if py_truthy (st_start sl)
                    then lift (py_isoformat (st_start sl)) else ret PNone) ;;
     ret (duration, start_text)) w =
    (Ok (PStr (match parsed_start s with
               | Some t => timedelta_str (now - instant t)
               | None => "Not started"
               end), text_start), w)).
  { destruct (parsed_start s) as [t|] eqn:Hp.
    - rewrite Hstart. cbn [py_truthy].
      specialize (Haware t eq_refl).
      destruct (utcoffset t) as [off|] eqn:Hoff; [|contradiction].
      eexists. unfold bind, lift, ret. cbn [py_sub_from utc utcoffset instant].
      rewrite Hoff. reflexivity.
    - rewrite Hstart. eexists. reflexivity. }
  destruct Hdur as [text_start Hdur].
  assert (Hex : disk w <> None) by (rewrite Hd; discriminate).
  unfold bind in Hdur.
  destruct (if 0 <? st_total s then percent_str (st_abnormal s) (st_total s)
            else Some "0%") as [percentage|] eqn:Epct; [eexists; split|].
  1, 3:
    unfold get_stats;
    rewrite (bind_run _ _ _ _ _ (init_existing_file "dummy" "ETH" "MPH" w Hex));
    rewrite (bind_run _ _ _ _ _ Hload), Htr; cbn [negb]; cbv iota;
    rewrite (bind_lift _ _ _ _ G1); cbn [negb]; cbv iota;
    rewrite (bind_run _ _ w (PDict dl) w eq_refl);
    rewrite (bind_lift _ _ _ _ G2), (bind_lift _ _ _ _ G3);
    unfold bind at 1;
    destruct ((if py_truthy (st_start sl)
               then delta <- lift (py_sub_from (utc now) (st_start sl)) ;;
                    ret (PStr (timedelta_str delta))
               else ret (PStr "Not started")) w) as [[duration|e] wd] eqn:Ed;
      [|unfold bind in Ed; rewrite Ed in Hdur; discriminate];
    unfold bind in Ed; rewrite Ed in Hdur;
    unfold bind at 1;
    destruct ((if py_truthy (st_start sl)
               then lift (py_isoformat (st_start sl)) else ret PNone) wd)
      as [[start_text|e] wt] eqn:Et; [|discriminate];
    unfold ret in Hdur; injection Hdur as -> -> ->;
    rewrite (bind_lift _ _ _ _ Hconfig), (bind_lift _ _ _ _ G4);
    rewrite (bind_lift _ _ _ _ G5), (bind_lift _ _ _ _ G6), (bind_lift _ _ _ _ G7);
    rewrite (bind_lift _ _ _ _ G8), (bind_lift _ _ _ _ G9), (bind_lift _ _ _ _ G10);
    rewrite (bind_lift _ _ _ _ G2), (bind_lift _ _ _ _ G11), (bind_lift _ _ _ _ G12);
    rewrite (bind_lift (py_gt0 (PInt (st_total s))) _ _ (0 <? st_total s) eq_refl);
    match goal with
    | |- context [bind (if ?c then ?c1 else ?c2)] =>
        assert (Hpct :
          (if c then c1 else c2) w =
          match (if 0 <? st_total s then percent_str (st_abnormal s) (st_total s)
                 else Some "0%") with
          | Some percentage => (Ok (PStr percentage), w)
          | None => (Raise OverflowError, w)
          end)
          by (destruct (0 <? st_total s); [|reflexivity];
              unfold bind, lift; cbn [py_number];
              destruct (percent_str (st_abnormal s) (st_total s)); reflexivity)
    end;
    rewrite Epct in Hpct.
  - rewrite (bind_run _ _ _ _ _ Hpct).
    rewrite (bind_lift _ _ _ _ G13).
    rewrite (bind_lift (py_slice_last 10 (PList (st_txs s))) _ _
               (PList (keep_last 10 (st_txs s))) eq_refl).
    unfold ret. reflexivity.
  - unfold bind at 1. now rewrite Hpct.
  - repeat split; reflexivity.
Qed.

(** X15. The status query on a start time stored without UTC offset: when
    [fromisoformat] reads the stored text as a naive [datetime], the
    duration cannot be computed from the aware current time and
    [get_stats] raises [TypeError]; the world is as before. *)
Theorem get_stats_rejects_naive_start_time now w d s t :
  disk w = Some (Doc (PDict d)) -> state_of (PDict d) = Some s ->
  json_ok (PDict d) = true ->
  parsed_start s = Some t -> utcoffset t = None ->
  get_stats now w = (Raise TypeError, w).
Proof.
  intros Hd Hs Hj Hp Hnaive.
  assert (Hok : start_ok s) by (right; eauto).
  destruct (load_data_state w _ s Hd Hs Hj Hok)
    as (loaded & sl & Hload & Htr & Hsl & _ & _ & _ & _ & _ & Hstart).
  rewrite Hp in Hstart.
  pose proof Hsl as Hinv.
  apply state_of_inv in Hinv as (dl & ml & -> & Hml & _ & Hst & _).
  assert (G1 : py_contains "monitoring" (PDict dl) = Ok true)
    by (cbn [py_contains]; now rewrite Hml).
  assert (G2 : py_getitem (PDict dl) "monitoring" = Ok (PDict ml))
    by (cbn [py_getitem]; now rewrite Hml).
  assert (G3 : py_getitem (PDict ml) "start_time" = Ok (PDatetime t))
    by (cbn [py_getitem]; now rewrite Hst, Hstart).
  unfold get_stats.
  rewrite (bind_run _ _ _ _ _ (init_existing_file "dummy" "ETH" "MPH" w
             ltac:(rewrite Hd; discriminate))).
  rewrite (bind_run _ _ _ _ _ Hload), Htr. cbn [negb]. cbv iota.
  rewrite (bind_lift _ _ _ _ G1). cbn [negb]. cbv iota.
  rewrite (bind_run _ _ w (PDict dl) w eq_refl).
  rewrite (bind_lift _ _ _ _ G2), (bind_lift _ _ _ _ G3).
  cbn [py_truthy]. unfold bind, lift. cbn [py_sub_from utc utcoffset].
  now rewrite Hnaive.
Qed.

(** X16. The status query when there is no data file: the throw-away
    monitor it builds creates the file, so the answer is 200 and not 404;
    the file then holds the zeroed record of the monitor "dummy" for
    ETH/MPH, and the reply says "Not started" and "0%". *)
Theorem get_stats_creates_missing_file now w :
  disk w = None ->
  exists stats dummy w',
    get_stats now w = (Ok (stats, 200), w') /\
    disk w' = Some (Doc (initial_data dummy PNone)) /\
    address dummy = "dummy" /\ base_token dummy = "ETH" /\ quote_token dummy = "MPH" /\
    field2 stats "monitor_info" "monitoring_duration" = Some (PStr "Not started") /\
    field2 stats "monitor_info" "monitored_address" = Some (PStr "dummy") /\
    field2 stats "statistics" "total_transactions" = Some (PInt 0) /\
    field2 stats "statistics" "abnormal_percentage" = Some (PStr "0%") /\
    py_getitem stats "recent_abnormal_transactions" = Ok (PList []).
Proof.
  intros Hd. unfold get_stats.
  rewrite (bind_run _ _ _ _ _ (init_absent_file "dummy" "ETH" "MPH" w Hd)).
  eexists _, _, _. split; [reflexivity|].
  repeat split; reflexivity.
Qed.

(** ** A single-shot run *)

(** X17. [main] without [--monitor], when there is no data file and both
    symbols are known: the file is created and the whole of a well-formed
    page is counted, oldest first.  The saved record has the current
    instant as start time, the hash of the newest item as high-water
    mark, as many transactions as the page has items, and as history the
    last 100 records of its abnormal items. *)
Theorem main_single_shot_first_run address base quote now resp items w :
  disk w = None ->
  dict_get base TOKEN_ADDRESSES <> None ->
  dict_get quote TOKEN_ADDRESSES <> None ->
  dict_get "items" resp = Some (PList items) ->
  forallb well_formed_tx items = true ->
  exists self w0 v' w' s',
    init address base quote w = (Ok self, w0) /\
    main_single_shot address base quote now (Some (PDict resp)) w = (Ok tt, w') /\
    disk w' = Some (Doc v') /\ state_of v' = Some s' /\
    st_start s' = PStr (isoformat (utc now)) /\
    st_last s' = match items with
                 | newest :: _ => tx_hash newest
                 | [] => PNone
                 end /\
    st_total s' = Z.of_nat (List.length items) /\
    st_abnormal s' = Z.of_nat (List.length (abnormal_of self (rev items))) /\
    st_txs s' = keep_last 100 (map record_of (abnormal_of self (rev items))).
Proof.
  intros Hd Hbase Hquote Hitems Hwf.
  pose proof (init_absent_file address base quote w Hd) as Hinit. cbv zeta in Hinit.
  set (self := mkMonitor _ _ _ _ _ _ _) in Hinit.
  set (w0 := mkWorld _ _ _) in Hinit.
  assert (Hc : configured self = true).
  { unfold configured, self, token_address. cbn [base_token_address quote_token_address].
    destruct (dict_get base TOKEN_ADDRESSES); [|contradiction].
    destruct (dict_get quote TOKEN_ADDRESSES); [reflexivity | contradiction]. }
  set (s0 := mkState PNone PNone 0 0 []).
  destruct (cycle_from_disk self now resp items w0 (initial_data self PNone) s0
              Hc Hitems Hwf eq_refl eq_refl)
    as (v' & w' & Hrun & Hd' & _ & Hs' & _).
  { apply json_ok_initial_data; [apply json_ok_token_address ..| reflexivity]. }
  { now left. }
  exists self, w0, v', w', (cycle_state self now s0 items).
  split; [exact Hinit|]. split.
  { unfold main_single_shot. now rewrite (bind_run _ _ _ _ _ Hinit). }
  split; [exact Hd'|]. split; [exact Hs'|].
  unfold cycle_state, cycle_from, started, parsed_start.
  cbn [st_start st_last st_total st_abnormal st_txs s0].
  rewrite (new_prefix_unset items Hwf).
  match goal with
  | |- context [fold_left (count_tx self) ?txs ?st] =>
      destruct (fold_count_tx_closed self txs st) as (H1 & H2 & H3);
        [cbn; lia|];
      pose proof (proj2 (fold_count_tx_keeps self txs st)) as H4
  end.
  cbn [st_total st_abnormal st_txs st_last] in H1, H2, H3, H4.
  rewrite H1, H2, H3, H4, length_rev. cbn [app]. repeat split; lia.
Qed.

(** X18. A cycle on an empty page still rewrites the file: the reply
    [{"items": []}] is not a fetch failure, so the record is loaded and
    saved again, with its counters, history and high-water mark as they
    were and its start time set if it was not. *)
Theorem empty_page_rewrites_the_record self now resp w v s :
  configured self = true ->
  dict_get "items" resp = Some (PList []) ->
  disk w = Some (Doc v) -> state_of v = Some s -> json_ok v = true ->
  start_ok s ->
  exists v' w',
    analyze_transactions self now (Some (PDict resp)) w = (Ok tt, w') /\
    disk w' = Some (Doc v') /\
    written w' = (written w ++ [Junk; Doc v'])%list /\
    state_of v' =
      Some (mkState (PStr (isoformat (started now s))) (st_last s) (st_total s)
              (st_abnormal s) (st_txs s)).
Proof.
  intros Hc Hitems Hd Hs Hj Hok.
  destruct (cycle_from_disk self now resp [] w v s Hc Hitems eq_refl Hd Hs Hj Hok)
    as (v' & w' & Hrun & Hd' & Hw' & Hs' & _).
  exists v', w'. repeat split; auto.
Qed.
End Monitor.

(** ** The theorems at work on the sample data *)

(** The page [A, B, C, D] on a record whose high-water mark is [C]: the new
    transactions are [A] and [B], counted [B] then [A], and the mark
    becomes [A]. *)
Lemma high_water_mark_advance_witness :
  let w := sample_world (sample_record (PStr "C") 7 3 []) in
  (configured sample_monitor = true /\
   forallb well_formed_tx sample_page = true /\
   start_ok epoch_fromisoformat (mkState PNone (PStr "C") 7 3 [])) /\
  new_prefix (PStr "C") sample_page = [tx_A; tx_B] /\
  exists v' w' s',
    analyze_transactions epoch_isoformat epoch_fromisoformat sample_monitor 0
      (sample_reply sample_page) w = (Ok tt, w') /\
    disk w' = Some (Doc v') /\
    state_of v' = Some s' /\
    st_total s' = 9 /\ st_abnormal s' = 5 /\
    st_txs s' = [record_of tx_B; record_of tx_A] /\
    st_last s' = PStr "A".
Proof.
  intros w.
  assert (Hok : start_ok epoch_fromisoformat (mkState PNone (PStr "C") 7 3 []))
    by (left; reflexivity).
  split; [split; [reflexivity | split; [reflexivity | exact Hok]]|].
  split; [reflexivity|].
  destruct (high_water_mark_advance epoch_isoformat epoch_fromisoformat
              sample_monitor 0 [("items", PList sample_page)] sample_page w
              (sample_record (PStr "C") 7 3 []) (mkState PNone (PStr "C") 7 3 [])
              eq_refl eq_refl eq_refl eq_refl eq_refl eq_refl Hok)
    as (_ & _ & v' & w' & s' & Hrun & Hd & Hs & (Ht & Ha & Hl) & Hlast).
  exists v', w', s'. repeat split; assumption.
Defined.

(** The classifier on a contract creation, on a router and on a token
    written in capitals, on an unrelated address and on a destination
    without [hash] *)
Lemma is_target_pair_transaction_allowlist_witness :
  is_target_pair_transaction sample_monitor tx_create = Ok false /\
  is_target_pair_transaction sample_monitor
    (sample_tx "R" "0XB789922D715475F419B7CB47B6155BF7A2ACECD6") = Ok true /\
  is_target_pair_transaction sample_monitor
    (sample_tx "E" "0X579C032A137D796F29B14ADECB58C2E56B14E367") = Ok true /\
  is_target_pair_transaction sample_monitor tx_A = Ok false /\
  is_target_pair_transaction sample_monitor
    (PDict [ ("hash", PStr "U"); ("to", PDict [("name", PStr "Unverified")]) ])
    = Ok false.
Proof.
  destruct (is_target_pair_transaction_allowlist sample_monitor) as [Hnone Hto].
  split; [apply Hnone; reflexivity|].
  split; [|split; [|split]].
  - unfold sample_tx.
    etransitivity;
      [ eapply Hto;
        [reflexivity | reflexivity | reflexivity | discriminate | left; reflexivity]
      | reflexivity ].
  - unfold sample_tx.
    etransitivity;
      [ eapply Hto;
        [reflexivity | reflexivity | reflexivity | discriminate | left; reflexivity]
      | reflexivity ].
  - unfold tx_A, sample_tx.
    etransitivity;
      [ eapply Hto;
        [reflexivity | reflexivity | reflexivity | discriminate | left; reflexivity]
      | reflexivity ].
  - etransitivity;
      [ eapply Hto;
        [ reflexivity | reflexivity | reflexivity | discriminate
        | right; split; reflexivity ]
      | reflexivity ].
Defined.

Lemma abnormal_count_at_most_total_witness :
  let w := sample_world (sample_record (PStr "C") 7 3 []) in
  on_disk counters_le w /\
  on_disk counters_le
    (snd (analyze_transactions epoch_isoformat epoch_fromisoformat sample_monitor 0
            (sample_reply sample_page) w)).
Proof.
  intros w.
  assert (H : on_disk counters_le w).
  { intros v Hv. injection Hv as <-. exists 7, 3.
    split; [reflexivity | split; [reflexivity | lia]]. }
  split; [exact H|].
  exact (proj1 (abnormal_count_at_most_total epoch_isoformat epoch_fromisoformat
                  sample_monitor 0 (sample_reply sample_page) w H)).
Defined.

(** A history that holds 100 entries, and the page [A, B, C, D] on the
    mark [B]: the one new transaction [A] is abnormal, its record goes to
    the end, the oldest entry leaves and the other 99 keep their order. *)
Lemma recent_abnormal_bounded_fifo_witness :
  let data := sample_record (PStr "B") 100 100 full_history in
  let w := sample_world data in
  (on_disk txs_bounded w /\ List.length full_history = 100%nat) /\
  on_disk txs_bounded
    (snd (analyze_transactions epoch_isoformat epoch_fromisoformat sample_monitor 0
            (sample_reply sample_page) w)) /\
  exists data' w1,
    process_tx sample_monitor tx_A data w = (Ok data', w1) /\
    py_getitem data' "abnormal_txs"
      = Ok (PList (map synthetic_record (seq 1 99) ++ [record_of tx_A])).
Proof.
  intros data w.
  assert (H : on_disk txs_bounded w).
  { intros v Hv. injection Hv as <-. exists full_history.
    split; [reflexivity | apply Nat.leb_le; vm_compute; reflexivity]. }
  split; [split; [exact H | vm_compute; reflexivity]|].
  destruct (recent_abnormal_bounded_fifo epoch_isoformat epoch_fromisoformat
              sample_monitor 0 (sample_reply sample_page) w H) as [Hbound Hfifo].
  split; [exact Hbound|].
  destruct (process_tx sample_monitor tx_A data w) as [[data'|e] w1] eqn:Hrun;
    [|vm_compute in Hrun; discriminate].
  exists data', w1. split; [reflexivity|].
  destruct (Hfifo tx_A data w data' w1 full_history Hrun eq_refl eq_refl)
    as (r & l' & Hr & Hl' & _ & _ & Hfull).
  rewrite Hl', (Hfull ltac:(vm_compute; reflexivity)).
  unfold record_of. rewrite Hr. reflexivity.
Defined.

Lemma fetch_failure_leaves_store_witness :
  let w := sample_world (sample_record (PStr "C") 7 3 []) in
  exists w',
    analyze_transactions epoch_isoformat epoch_fromisoformat sample_monitor 0
      (Some (PDict [("message", PStr "Not found")])) w = (Ok tt, w') /\
    disk w' = disk w /\ written w' = written w /\
    exists earlier,
      log w' = (log w ++ earlier ++ [(ERROR, [Lit "Failed to fetch transactions"])])%list.
Proof.
  intros w.
  apply (fetch_failure_leaves_store epoch_isoformat epoch_fromisoformat).
  right. exists [("message", PStr "Not found")]. split; reflexivity.
Defined.

(** Two cycles on the page [A, B, C, N] where [N], the oldest, is a
    contract creation already counted: the first returns, and the second
    changes nothing. *)
Lemma runOnce_idempotent_witness :
  let page := [tx_A; tx_B; tx_C; tx_create] in
  let w := sample_world (sample_record (PStr "C") 7 3 []) in
  let w1 := snd (analyze_transactions epoch_isoformat epoch_fromisoformat
                   sample_monitor 0 (sample_reply page) w) in
  analyze_transactions epoch_isoformat epoch_fromisoformat sample_monitor 0
    (sample_reply page) w = (Ok tt, w1) /\
  exists v1 s1 v2 w2 s2,
    disk w1 = Some (Doc v1) /\ state_of v1 = Some s1 /\
    analyze_transactions epoch_isoformat epoch_fromisoformat sample_monitor 60
      (sample_reply page) w1 = (Ok tt, w2) /\
    disk w2 = Some (Doc v2) /\ state_of v2 = Some s2 /\
    new_prefix (st_last s1) page = [] /\
    st_total s2 = st_total s1 /\
    st_abnormal s2 = st_abnormal s1 /\
    st_txs s2 = st_txs s1 /\
    st_last s2 = st_last s1.
Proof.
  intros page w w1.
  assert (Hrun : analyze_transactions epoch_isoformat epoch_fromisoformat
                   sample_monitor 0 (sample_reply page) w = (Ok tt, w1))
    by (vm_compute; reflexivity).
  split; [exact Hrun|].
  assert (Hiso : forall t, epoch_fromisoformat (replace_Z (epoch_isoformat t)) <> None)
    by (intros t; vm_compute; discriminate).
  exact (runOnce_idempotent epoch_isoformat epoch_fromisoformat sample_monitor 0 60
           [("items", PList page)] page w
           (sample_record (PStr "C") 7 3 []) (mkState PNone (PStr "C") 7 3 []) w1
           Hiso eq_refl eq_refl eq_refl eq_refl eq_refl (or_introl eq_refl) Hrun).
Defined.

Lemma save_data_stringifies_argument_witness :
  let m := [ ("start_time", PDatetime (mkDatetime 0 (Some 0)));
             ("total_transactions", PInt 0) ] in
  let d := [ ("monitoring", PDict m) ] in
  exists data' w',
    save_data epoch_isoformat (PDict d) (mkWorld None [] []) = (Ok data', w') /\
    field2 (PDict d) "monitoring" "start_time"
      = Some (PDatetime (mkDatetime 0 (Some 0))) /\
    field2 data' "monitoring" "start_time"
      = Some (PStr (epoch_isoformat (mkDatetime 0 (Some 0)))) /\
    forall now,
      py_sub_from now (PStr (epoch_isoformat (mkDatetime 0 (Some 0)))) = Raise TypeError.
Proof.
  intros m d.
  apply (save_data_stringifies_argument epoch_isoformat d m); reflexivity.
Defined.

Lemma legacy_record_is_rejected_witness :
  let w := sample_world legacy_record in
  (exists w',
     get_stats epoch_isoformat epoch_fromisoformat epoch_timedelta_str
       epoch_percent_str 0 w = (Raise TypeError, w')) /\
  analyze_transactions epoch_isoformat epoch_fromisoformat sample_monitor 0
    (sample_reply sample_page) w = (Raise KeyError, w).
Proof.
  intros w.
  destruct (legacy_record_is_rejected epoch_isoformat epoch_fromisoformat
              epoch_timedelta_str epoch_percent_str 0 w
              [ ("config", PDict [("monitored_address", PStr "0xabc")]);
                ("abnormal_txs", PList []) ]
              eq_refl ltac:(discriminate) eq_refl ltac:(discriminate))
    as [Hstats Hcycle].
  split; [exact Hstats|].
  exact (Hcycle sample_monitor [("items", PList sample_page)] (PList sample_page) eq_refl).
Defined.

(** ** Where the code departs from the claims *)

(** Against C6: between the opening of the file and the end of the dump the
    file holds no record, and a dump that fails leaves it so, the previous
    record gone. *)
Lemma save_data_not_atomic :
  let old := sample_record (PStr "C") 7 3 [] in
  let new := sample_record (PStr "A") 9 5 [] in
  ~ atomic_save epoch_isoformat new (sample_world old) /\
  disk (snd (save_data epoch_isoformat unserialisable_record (sample_world old)))
    = Some Junk.
Proof.
  split; [|reflexivity].
  intros H. destruct (H Junk (or_introl eq_refl)) as [v Hv]. discriminate.
Qed.

(** Against C7: with the unknown base symbol BTC, [__init__] returns a
    monitor, and the first abnormal-looking transaction of the first cycle
    raises [AttributeError] in the classifier. *)
Lemma unknown_symbol_fails_mid_cycle :
  let started := init epoch_isoformat "0xabc" "BTC" "MPH" (mkWorld None [] []) in
  fst started = Ok btc_monitor /\
  dict_get "BTC" TOKEN_ADDRESSES = None /\
  is_target_pair_transaction btc_monitor tx_A = Raise AttributeError /\
  fst (analyze_transactions epoch_isoformat epoch_fromisoformat btc_monitor 0
         (sample_reply [tx_A]) (snd started)) = Raise AttributeError.
Proof. repeat split. Qed.



(** A contract creation ([to] is null) among the new transactions: it is
    classified abnormal, the record of it cannot be built, and the cycle
    raises before saving. *)
Remark contract_creation_aborts_cycle :
  let w := sample_world (sample_record (PStr "C") 7 3 []) in
  is_target_pair_transaction sample_monitor tx_create = Ok false /\
  abnormal_record tx_create = Raise AttributeError /\
  analyze_transactions epoch_isoformat epoch_fromisoformat sample_monitor 0
    (sample_reply [tx_create; tx_C]) w = (Raise AttributeError, w).
Proof. cbv zeta. split; [|split]; vm_compute; reflexivity. Qed.

(** The first run: from a freshly initialised file and a page of three
    unrelated transactions, newest first. *)
Remark first_run_scenario :
  let page := [tx_A; tx_B; tx_C] in
  let created := snd (init epoch_isoformat "0xabc" "ETH" "MPH" (mkWorld None [] [])) in
  let after := snd (analyze_transactions epoch_isoformat epoch_fromisoformat
                      sample_monitor 0 (sample_reply page) created) in
  exists v,
    disk after = Some (Doc v) /\
    state_of v =
      Some (mkState (PStr (epoch_isoformat (utc 0))) (PStr "A") 3 3
              [record_of tx_C; record_of tx_B; record_of tx_A]).
Proof. cbv zeta. eexists. split; vm_compute; reflexivity. Qed.

(** ** The further properties at work on the sample data *)

Lemma analyze_transactions_raises_before_saving_witness :
  let w := sample_world (sample_record (PStr "C") 7 3 []) in
  analyze_transactions epoch_isoformat epoch_fromisoformat sample_monitor 0
    (sample_reply [tx_create; tx_C]) w = (Raise AttributeError, w) /\
  disk w = disk w /\ written w = written w.
Proof.
  intros w.
  assert (H : analyze_transactions epoch_isoformat epoch_fromisoformat sample_monitor 0
                (sample_reply [tx_create; tx_C]) w = (Raise AttributeError, w))
    by (vm_compute; reflexivity).
  split; [exact H|].
  exact (analyze_transactions_raises_before_saving epoch_isoformat epoch_fromisoformat
           sample_monitor 0 _ w AttributeError w H).
Defined.

Lemma load_data_fails_soft_witness :
  let garbled := mkWorld (Some Junk) [] [] in
  let odd := sample_world (started_record (PStr "yesterday")) in
  fst (load_data strict_fromisoformat garbled) = Ok PNone /\
  fst (load_data strict_fromisoformat odd) = Ok PNone /\
  load_data strict_fromisoformat (mkWorld None [] [])
    = (Raise FileNotFoundError, mkWorld None [] []).
Proof.
  intros garbled odd.
  destruct (load_data_fails_soft strict_fromisoformat garbled) as (H1 & _ & _).
  destruct (load_data_fails_soft strict_fromisoformat odd) as (_ & H2 & _).
  destruct (load_data_fails_soft strict_fromisoformat (mkWorld None [] []))
    as (_ & _ & H3).
  split; [now rewrite (H1 eq_refl)|]. split; [|exact (H3 eq_refl)].
  rewrite (H2 _ _ "yesterday" eq_refl eq_refl eq_refl); [reflexivity | discriminate
                                                         | reflexivity].
Defined.

Lemma save_then_load_round_trip_witness :
  let t := mkDatetime 0 (Some 0) in
  let v := started_record (PDatetime t) in
  (epoch_isoformat t <> "" /\
   epoch_fromisoformat (replace_Z (epoch_isoformat t)) = Some t) /\
  exists v' w',
    save_data epoch_isoformat v (mkWorld None [] []) = (Ok v', w') /\
    field2 v' "monitoring" "start_time" = Some (PStr (epoch_isoformat t)) /\
    disk w' = Some (Doc v') /\
    load_data epoch_fromisoformat w' = (Ok v, w').
Proof.
  intros t v.
  assert (H1 : epoch_isoformat t <> "") by discriminate.
  assert (H2 : epoch_fromisoformat (replace_Z (epoch_isoformat t)) = Some t)
    by reflexivity.
  split; [now split|].
  exact (save_then_load_round_trip epoch_isoformat epoch_fromisoformat v
           (mkState (PDatetime t) (PStr "C") 7 3 []) t (mkWorld None [] [])
           eq_refl eq_refl eq_refl H1 H2).
Defined.

Lemma load_data_reads_Z_as_utc_witness :
  let record suffix := started_record (PStr ("1970-01-01T00:00:00" ++ suffix)) in
  fst (load_data strict_fromisoformat (sample_world (record "Z"))) =
  fst (load_data strict_fromisoformat (sample_world (record "+00:00"))).
Proof.
  intros record.
  exact (load_data_reads_Z_as_utc strict_fromisoformat
           [ ("config", PDict [("monitored_address", PStr "0xabc")]);
             ("monitoring",
              PDict [ ("start_time", PNone); ("last_processed_tx", PStr "C");
                      ("total_transactions", PInt 7);
                      ("abnormal_transactions", PInt 3) ]);
             ("abnormal_txs", PList []) ]
           [ ("start_time", PNone); ("last_processed_tx", PStr "C");
             ("total_transactions", PInt 7);
             ("abnormal_transactions", PInt 3) ]
           "1970-01-01T00:00:00" [] [] eq_refl eq_refl).
Defined.

Lemma init_creates_file_only_if_absent_witness :
  let self := sample_monitor in
  let w := mkWorld None [] [] in
  init epoch_isoformat "0xabc" "ETH" "MPH" w =
    (Ok self,
     mkWorld (Some (Doc (initial_data self PNone)))
       [Junk; Doc (initial_data self PNone)] []) /\
  init epoch_isoformat "0xabc" "ETH" "MPH" (mkWorld (Some Junk) [] [])
    = (Ok self, mkWorld (Some Junk) [] []).
Proof.
  intros self w.
  destruct (init_creates_file_only_if_absent epoch_isoformat "0xabc" "ETH" "MPH" w)
    as (_ & Habsent & _).
  destruct (init_creates_file_only_if_absent epoch_isoformat "0xabc" "ETH" "MPH"
              (mkWorld (Some Junk) [] [])) as (Hexists & _ & _).
  split; [exact (Habsent eq_refl) | apply Hexists; discriminate].
Defined.

Lemma cycle_in_closed_form_witness :
  let w := sample_world (sample_record (PStr "C") 7 3 []) in
  exists v' w' s',
    analyze_transactions epoch_isoformat epoch_fromisoformat sample_monitor 0
      (sample_reply sample_page) w = (Ok tt, w') /\
    disk w' = Some (Doc v') /\ state_of v' = Some s' /\
    st_total s' = 9 /\ st_abnormal s' = 5 /\
    st_txs s' = [record_of tx_B; record_of tx_A].
Proof.
  intros w.
  destruct (cycle_in_closed_form epoch_isoformat epoch_fromisoformat sample_monitor 0
              [("items", PList sample_page)] sample_page w
              (sample_record (PStr "C") 7 3 []) (mkState PNone (PStr "C") 7 3 [])
              eq_refl eq_refl eq_refl eq_refl eq_refl eq_refl
              (or_introl eq_refl) ltac:(simpl; lia))
    as (v' & w' & s' & Hrun & Hd & Hs & Ht & Ha & Hl & _).
  exists v', w', s'. repeat split; assumption.
Defined.

Lemma unreadable_record_restarts_the_counts_witness :
  let w := mkWorld (Some Junk) [] [] in
  exists v' w' s',
    analyze_transactions epoch_isoformat epoch_fromisoformat sample_monitor 0
      (sample_reply sample_page) w = (Ok tt, w') /\
    disk w' = Some (Doc v') /\ state_of v' = Some s' /\
    st_total s' = 4 /\ st_abnormal s' = 4 /\
    st_txs s' = [record_of tx_D; record_of tx_C; record_of tx_B; record_of tx_A].
Proof.
  intros w.
  destruct (unreadable_record_restarts_the_counts epoch_isoformat epoch_fromisoformat
              sample_monitor 0 [("items", PList sample_page)] sample_page w
              eq_refl eq_refl eq_refl (or_introl eq_refl))
    as (v' & w' & s' & Hrun & Hd & Hs & _ & Ht & Ha & Hl).
  exists v', w', s'. repeat split; assumption.
Defined.

Lemma classification_ignores_case_witness :
  is_target_pair_transaction sample_monitor
    (sample_tx "E" "0x579C032A137D796F29B14ADECB58C2E56B14E367") =
  is_target_pair_transaction sample_monitor
    (sample_tx "F" "0x579c032a137d796f29b14adecb58c2e56b14e367").
Proof.
  unfold sample_tx.
  apply (classification_ignores_case sample_monitor
           _ [("hash", PStr "0x579C032A137D796F29B14ADECB58C2E56B14E367")]
           "0x579C032A137D796F29B14ADECB58C2E56B14E367"
           _ [("hash", PStr "0x579c032a137d796f29b14adecb58c2e56b14e367")]
           "0x579c032a137d796f29b14adecb58c2e56b14e367"); reflexivity.
Defined.

Lemma classifier_with_unknown_symbol_witness :
  is_target_pair_transaction btc_monitor tx_create = Ok false /\
  is_target_pair_transaction btc_monitor
    (sample_tx "R" "0xB789922D715475F419b7CB47B6155bF7a2ACECD6") = Ok true /\
  is_target_pair_transaction btc_monitor tx_A = Raise AttributeError.
Proof.
  destruct (classifier_with_unknown_symbol btc_monitor (or_introl eq_refl))
    as [Hnone Hto].
  split; [apply Hnone; reflexivity|]. split.
  - unfold sample_tx.
    apply (Hto _ [("hash", PStr "0xB789922D715475F419b7CB47B6155bF7a2ACECD6")]
             "0xB789922D715475F419b7CB47B6155bF7a2ACECD6"); reflexivity.
  - unfold tx_A, sample_tx.
    apply (Hto _ [("hash", PStr "0x00000000000000000000000000000000000000aa")]
             "0x00000000000000000000000000000000000000aa"); reflexivity.
Defined.

Lemma contract_creation_blocks_the_cycle_witness :
  let v := sample_record (PStr "C") 7 3 [] in
  let w := sample_world v in
  exists w',
    analyze_transactions epoch_isoformat epoch_fromisoformat sample_monitor 0
      (sample_reply [tx_A; tx_create; tx_C]) w = (Raise AttributeError, w') /\
    disk w' = Some (Doc v) /\ written w' = written w.
Proof.
  intros v w.
  apply (contract_creation_blocks_the_cycle epoch_isoformat epoch_fromisoformat
           sample_monitor 0 [("items", PList [tx_A; tx_create; tx_C])]
           [tx_A; tx_create; tx_C] w v (mkState PNone (PStr "C") 7 3 []));
    try reflexivity.
  left. reflexivity.
Defined.

Lemma get_stats_answers_not_found_witness :
  let w := mkWorld (Some Junk) [] [] in
  exists w',
    get_stats epoch_isoformat epoch_fromisoformat epoch_timedelta_str
      epoch_percent_str 0 w =
      (Ok (PDict [("error", PStr "No monitoring data available")], 404), w') /\
    disk w' = disk w /\ written w' = written w /\
    exists e, log w' = (log w ++ [(ERROR, [Lit "Error loading data file: "; Exc e])])%list.
Proof.
  intros w.
  apply (get_stats_answers_not_found epoch_isoformat epoch_fromisoformat
           epoch_timedelta_str epoch_percent_str 0 w).
  left. reflexivity.
Defined.

(** The status page an hour after the start, on 14 transactions of which
    12 were abnormal; and on a record whose counters make the division
    overflow. *)
Lemma get_stats_reports_without_writing_witness :
  let hour := 3600000000 in
  let w := sample_world (stats_record 14 12) in
  let huge := sample_world (stats_record 1 (10 ^ 400)) in
  (exists stats,
     get_stats epoch_isoformat epoch_fromisoformat epoch_timedelta_str
       epoch_percent_str hour w = (Ok (stats, 200), w) /\
     field2 stats "statistics" "total_transactions" = Some (PInt 14) /\
     field2 stats "statistics" "abnormal_transactions" = Some (PInt 12) /\
     field2 stats "statistics" "abnormal_percentage" = Some (PStr "85.71%") /\
     py_getitem stats "recent_abnormal_transactions"
       = Ok (PList (map synthetic_record (seq 2 10))) /\
     field2 stats "monitor_info" "monitoring_duration" = Some (PStr "1:00:00") /\
     field2 stats "monitor_info" "monitored_address" = Some (PStr "0xabc")) /\
  get_stats epoch_isoformat epoch_fromisoformat epoch_timedelta_str
    epoch_percent_str hour huge = (Raise OverflowError, huge).
Proof.
  intros hour w huge.
  assert (Hok : forall total abnormal,
            start_ok epoch_fromisoformat
              (mkState (PStr "1970-01-01T00:00:00+00:00") (PStr "tx11") total
                 abnormal (map synthetic_record (seq 0 12))))
    by (intros; right; eexists; reflexivity).
  assert (Haware : forall total abnormal t,
            parsed_start epoch_fromisoformat
              (mkState (PStr "1970-01-01T00:00:00+00:00") (PStr "tx11") total
                 abnormal (map synthetic_record (seq 0 12))) = Some t ->
            utcoffset t <> None)
    by (intros total abnormal t Ht; injection Ht as <-; discriminate).
  split.
  - exact (get_stats_reports_without_writing epoch_isoformat epoch_fromisoformat
             epoch_timedelta_str epoch_percent_str hour w _ _ _ _ _ _ _ _ _ _
             eq_refl eq_refl eq_refl (Hok 14 12) (Haware 14 12)
             eq_refl eq_refl eq_refl eq_refl eq_refl eq_refl eq_refl eq_refl).
  - exact (get_stats_reports_without_writing epoch_isoformat epoch_fromisoformat
             epoch_timedelta_str epoch_percent_str hour huge _ _ _ _ _ _ _ _ _ _
             eq_refl eq_refl eq_refl (Hok 1 (10 ^ 400)) (Haware 1 (10 ^ 400))
             eq_refl eq_refl eq_refl eq_refl eq_refl eq_refl eq_refl eq_refl).
Defined.

Lemma get_stats_rejects_naive_start_time_witness :
  let w := sample_world (started_record (PStr "1970-01-01T00:00:00")) in
  get_stats epoch_isoformat naive_fromisoformat epoch_timedelta_str
    epoch_percent_str 0 w = (Raise TypeError, w).
Proof.
  intros w.
  apply (get_stats_rejects_naive_start_time epoch_isoformat naive_fromisoformat
           epoch_timedelta_str epoch_percent_str 0 w
           (match started_record (PStr "1970-01-01T00:00:00") with
            | PDict d => d | _ => [] end)
           (mkState (PStr "1970-01-01T00:00:00") (PStr "C") 7 3 [])
           (mkDatetime 0 None)); reflexivity.
Defined.

Lemma get_stats_creates_missing_file_witness :
  exists stats dummy w',
    get_stats epoch_isoformat epoch_fromisoformat epoch_timedelta_str
      epoch_percent_str 0 (mkWorld None [] []) = (Ok (stats, 200), w') /\
    disk w' = Some (Doc (initial_data dummy PNone)) /\
    address dummy = "dummy" /\
    field2 stats "statistics" "abnormal_percentage" = Some (PStr "0%").
Proof.
  destruct (get_stats_creates_missing_file epoch_isoformat epoch_fromisoformat
              epoch_timedelta_str epoch_percent_str 0 (mkWorld None [] []) eq_refl)
    as (stats & dummy & w' & Hrun & Hd & Ha & _ & _ & _ & _ & _ & Hp & _).
  exists stats, dummy, w'. repeat split; assumption.
Defined.

Lemma main_single_shot_first_run_witness :
  exists v' w' s',
    main_single_shot epoch_isoformat epoch_fromisoformat "0xABC" "ETH" "MPH" 0
      (sample_reply [tx_A; tx_B; tx_C]) (mkWorld None [] []) = (Ok tt, w') /\
    disk w' = Some (Doc v') /\ state_of v' = Some s' /\
    st_last s' = PStr "A" /\ st_total s' = 3.
Proof.
  destruct (main_single_shot_first_run epoch_isoformat epoch_fromisoformat
              "0xABC" "ETH" "MPH" 0 [("items", PList [tx_A; tx_B; tx_C])]
              [tx_A; tx_B; tx_C] (mkWorld None [] [])
              eq_refl ltac:(discriminate) ltac:(discriminate) eq_refl eq_refl)
    as (self & w0 & v' & w' & s' & _ & Hrun & Hd & Hs & _ & Hl & Ht & _).
  exists v', w', s'. repeat split; assumption.
Defined.

Lemma empty_page_rewrites_the_record_witness :
  let w := sample_world (sample_record (PStr "C") 7 3 []) in
  exists v' w',
    analyze_transactions epoch_isoformat epoch_fromisoformat sample_monitor 0
      (sample_reply []) w = (Ok tt, w') /\
    disk w' = Some (Doc v') /\
    written w' = [Junk; Doc v'] /\
    state_of v' =
      Some (mkState (PStr (epoch_isoformat (utc 0))) (PStr "C") 7 3 []).
Proof.
  intros w.
  apply (empty_page_rewrites_the_record epoch_isoformat epoch_fromisoformat
           sample_monitor 0 [("items", PList [])] w
           (sample_record (PStr "C") 7 3 []) (mkState PNone (PStr "C") 7 3 []));
    try reflexivity.
  left. reflexivity.
Defined.

(** The page [N, A, C, D] on a record whose mark is [C], [N] being a
    contract creation: the cycle raises, the mark stays [C] and is not
    [N], now and at every later attempt. *)
Lemma high_water_mark_stalls_witness :
  let v := sample_record (PStr "C") 7 3 [] in
  let w := sample_world v in
  let page := [tx_create; tx_A; tx_C; tx_D] in
  contract_creation tx_create = true /\
  new_prefix (PStr "C") page = [tx_create; tx_A] /\
  exists w',
    py_eq (tx_hash tx_create) (PStr "C") = false /\
    analyze_transactions epoch_isoformat epoch_fromisoformat sample_monitor 0
      (sample_reply page) w = (Raise AttributeError, w') /\
    disk w' = Some (Doc v) /\
    exists w'',
      analyze_transactions epoch_isoformat epoch_fromisoformat sample_monitor 60
        (sample_reply page) w' = (Raise AttributeError, w'') /\
      disk w'' = Some (Doc v).
Proof.
  intros v w page.
  split; [reflexivity|]. split; [reflexivity|].
  destruct (high_water_mark_stalls epoch_isoformat epoch_fromisoformat
              sample_monitor 0 [("items", PList page)] page w v
              (mkState PNone (PStr "C") 7 3 [])
              eq_refl eq_refl eq_refl eq_refl eq_refl eq_refl
              (or_introl eq_refl) eq_refl)
    as (newest & rest & w' & Hpage & Hnew & Hrun & Hd & Hlater).
  injection Hpage as <- <-.
  exists w'. split; [exact Hnew|]. split; [exact Hrun|]. split; [exact Hd|].
  exact (Hlater 60).
Defined.
